(** * backlight_manager: the daemon variant of the program, embedded in Rocq

    The development follows the C source: machine integers are [Z] with the
    32-bit wrap-around written out, [double] is IEEE binary64 as specified
    by [SpecFloat], the file system is a finite map from paths to nodes and
    every function that touches the outside world runs in a small
    state-and-exit monad over a [World]. *)

From Stdlib Require Import ZArith Bool SpecFloat.
From stdpp Require Import base option list strings gmap.

Local Open Scope Z_scope.

(** ** C numeric layer *)

Module CNum.

Definition INT_MIN : Z := - 2 ^ 31.
Definition INT_MAX : Z := 2 ^ 31 - 1.

Definition int_range (z : Z) : Prop := INT_MIN <= z <= INT_MAX.

Definition in_int (z : Z) : bool := (INT_MIN <=? z) && (z <=? INT_MAX).

(** Signed 32-bit addition as the target machine performs it. *)
Definition wrap_int (z : Z) : Z := (z + 2 ^ 31) mod 2 ^ 32 - 2 ^ 31.

Definition int_add (a b : Z) : Z := wrap_int (a + b).

(** [double] *)
Definition prec : Z := 53.
Definition emax : Z := 1024.

Definition double_of_int (z : Z) : spec_float :=
  binary_normalize prec emax z 0 false.

Definition ddiv : spec_float -> spec_float -> spec_float := SFdiv prec emax.
Definition dmul : spec_float -> spec_float -> spec_float := SFmul prec emax.

(** The literal [100.0]. *)
Definition d100 : spec_float := double_of_int 100.

(** Magnitude of a finite double with the fraction dropped. *)
Definition trunc_mag (m : positive) (e : Z) : Z :=
  match e with
  | Z0 => Zpos m
  | Zpos p => Zpos m * 2 ^ Zpos p
  | Zneg p => Zpos m / 2 ^ Zpos p
  end.

(** Integer part of a double, rounding toward zero; [None] for NaN and
    the infinities. *)
Definition trunc_double (x : spec_float) : option Z :=
  match x with
  | S754_zero _ => Some 0
  | S754_finite s m e => Some (if s then - trunc_mag m e else trunc_mag m e)
  | S754_infinity _ => None
  | S754_nan => None
  end.

(** The cast [(int)x].  A value that does not fit (or NaN, or an
    infinity) yields what the x86-64 conversion instruction yields,
    the "integer indefinite" value [INT_MIN]. *)
Definition int_of_double (x : spec_float) : Z :=
  match trunc_double x with
  | Some z => if in_int z then z else INT_MIN
  | None => INT_MIN
  end.

(** [(int)((max / 100.0) * value)], the conversion of a percentage into
    brightness units used by [adjust_brightness] and by [main]. *)
Definition percent_of (max value : Z) : Z :=
  int_of_double (dmul (ddiv (double_of_int max) d100) (double_of_int value)).

End CNum.

Export CNum.

(** ** The process and its environment *)

(** [struct PipeData]: the record sent through the named pipe. *)
Record PipeData := mkPipeData {
  brightness_adjustment : Z;
  ambient_mode : bool
}.

(** [struct ConfigData] *)
Record ConfigData := mkConfigData {
  sensor_path : string;
  sensor_file : string;
  sensor_file_path : string;
  keyboard_backlight_path : string;
  screen_backlight_path : string;
  brightness_factor : spec_float;
  update_rate : Z;
  min_brightness : Z
}.

Definition set_min_brightness (v : Z) (c : ConfigData) : ConfigData :=
  mkConfigData (sensor_path c) (sensor_file c) (sensor_file_path c)
    (keyboard_backlight_path c) (screen_backlight_path c)
    (brightness_factor c) (update_rate c) v.

Definition PID_FILE_PATH : string := "/tmp/backlight_manager.pid".
Definition FIFO_PATH : string := "/tmp/backlight_manager.pipe".

Definition EXIT_SUCCESS : Z := 0.
Definition EXIT_FAILURE : Z := 1.

(** A node of the file system.  A regular file is seen through what
    [fscanf(fp, "%d", &x)] finds in it: [Some n] when the text starts
    with the decimal integer [n], [None] when the scan assigns nothing. *)
Inductive node :=
| RegFile (scan : option Z)
| Fifo.

Inductive signal := SIGTERM | SIGINT | SIGHUP.

Inductive sigdisp := SigDefault | SigHandler.

Definition signum (s : signal) : Z :=
  match s with SIGHUP => 1 | SIGINT => 2 | SIGTERM => 15 end.

Definition signal_eqb (a b : signal) : bool :=
  match a, b with
  | SIGTERM, SIGTERM | SIGINT, SIGINT | SIGHUP, SIGHUP => true
  | _, _ => false
  end.

(** What one [read] on the non-blocking descriptor of the pipe returns.
    A record arrives whole: a client sends it with a single [write] of
    [sizeof(PipeData)] bytes. *)
Inductive read_outcome :=
| RdMsg (d : PipeData)   (* sizeof(PipeData) bytes *)
| RdNone                 (* 0 bytes: no writer has the pipe open *)
| RdError.               (* -1 *)

(** Everything the process shows to the outside. *)
Inductive event :=
| EvWrite (path : string) (v : Z)     (* fprintf(fp, "%d", v) *)
| EvPipeWrite (d : PipeData)          (* write(fd, &data, sizeof data) *)
| EvKill (pid : Z) (s : signal)
| EvRemove (path : string)
| EvPerror (msg : string)
| EvPrint (msg : string)
| EvSleep (secs : Z).

Record World := mkWorld {
  fs : gmap string node;          (* the file system *)
  writable : gset string;         (* paths fopen(_, "w") succeeds on *)
  procs : gset Z;                 (* what kill() can reach: see [kill] *)
  disposition : signal -> sigdisp;
  channel : list read_outcome;    (* what the pipe will deliver, in order *)
  reader_open : bool;             (* some process holds the pipe open for reading *)
  own_pid : positive;             (* the id of this process *)
  self_pgid : Z;                  (* getpgrp() *)
  fork_ret : Z;                   (* what fork() returns to this process *)
  setsid_ret : Z;                 (* what setsid() returns *)
  open_ret : Z;                   (* the descriptor a successful open() returns *)
  malloc_ok : bool;               (* malloc returns non-NULL *)
  config_src : option ConfigData; (* read_config_data; None: no sensor found *)
  indeterminate : Z;              (* content of an unassigned local *)
  trace : list event              (* newest first *)
}.

(** [getpid()]: the ids of processes are positive. *)
Definition self_pid (w : World) : Z := Z.pos (own_pid w).

Definition with_fs (f : gmap string node) (w : World) : World :=
  mkWorld f (writable w) (procs w) (disposition w) (channel w) (reader_open w)
    (own_pid w) (self_pgid w) (fork_ret w) (setsid_ret w) (open_ret w)
    (malloc_ok w) (config_src w) (indeterminate w) (trace w).

Definition with_disposition (d : signal -> sigdisp) (w : World) : World :=
  mkWorld (fs w) (writable w) (procs w) d (channel w) (reader_open w)
    (own_pid w) (self_pgid w) (fork_ret w) (setsid_ret w) (open_ret w)
    (malloc_ok w) (config_src w) (indeterminate w) (trace w).

Definition with_channel (c : list read_outcome) (w : World) : World :=
  mkWorld (fs w) (writable w) (procs w) (disposition w) c (reader_open w)
    (own_pid w) (self_pgid w) (fork_ret w) (setsid_ret w) (open_ret w)
    (malloc_ok w) (config_src w) (indeterminate w) (trace w).

Definition with_reader (b : bool) (w : World) : World :=
  mkWorld (fs w) (writable w) (procs w) (disposition w) (channel w) b
    (own_pid w) (self_pgid w) (fork_ret w) (setsid_ret w) (open_ret w)
    (malloc_ok w) (config_src w) (indeterminate w) (trace w).

Definition with_trace (t : list event) (w : World) : World :=
  mkWorld (fs w) (writable w) (procs w) (disposition w) (channel w) (reader_open w)
    (own_pid w) (self_pgid w) (fork_ret w) (setsid_ret w) (open_ret w)
    (malloc_ok w) (config_src w) (indeterminate w) t.

Definition with_open_ret (fd : Z) (w : World) : World :=
  mkWorld (fs w) (writable w) (procs w) (disposition w) (channel w) (reader_open w)
    (own_pid w) (self_pgid w) (fork_ret w) (setsid_ret w) fd
    (malloc_ok w) (config_src w) (indeterminate w) (trace w).

(** ** The monad: a computation either returns, leaves through [exit]
    (or a [return] of [main]), or blocks for ever in a system call. *)

Inductive result (A : Type) :=
| Ret (a : A) (w : World)
| Exit (code : Z) (w : World)
| Block (w : World).

Arguments Ret {A} a w.
Arguments Exit {A} code w.
Arguments Block {A} w.

Definition M (A : Type) : Type := World -> result A.

Definition ret {A} (a : A) : M A := fun w => Ret a w.

Definition bind {A B} (m : M A) (k : A -> M B) : M B :=
  fun w =>
    match m w with
    | Ret a w' => k a w'
    | Exit c w' => Exit c w'
    | Block w' => Block w'
    end.

Definition exit {A} (code : Z) : M A := fun w => Exit code w.

Notation "x <- m ;; k" := (bind m (fun x => k))
  (at level 100, m at next level, right associativity).
Notation "m ;;; k" := (bind m (fun _ => k))
  (at level 100, right associativity).

Definition final_world {A} (r : result A) : World :=
  match r with Ret _ w | Exit _ w | Block w => w end.

Definition emit (e : event) : M unit :=
  fun w => Ret tt (with_trace (e :: trace w) w).

Definition perror (msg : string) : M unit := emit (EvPerror msg).
Definition printf (msg : string) : M unit := emit (EvPrint msg).
Definition sleep (secs : Z) : M unit := emit (EvSleep secs).

(** [snprintf(path, sizeof path, "%s/%s", dir, name)] *)
Definition path_join (dir name : string) : string := dir +:+ "/" +:+ name.

(** [fopen(path, "r") != NULL] *)
Definition fopen_r (path : string) : M bool :=
  fun w => Ret (match fs w !! path with Some (RegFile _) => true | _ => false end) w.

(** [fscanf(fp, "%d", &x)] on a freshly opened file: the value found, if any. *)
Definition fscanf_d (path : string) : M (option Z) :=
  fun w => Ret (match fs w !! path with Some (RegFile s) => s | _ => None end) w.

(** [remove(path)]: 0 on success, -1 when there is nothing to remove. *)
Definition remove (path : string) : M Z :=
  fun w =>
    match fs w !! path with
    | Some _ => Ret 0 (with_trace (EvRemove path :: trace w) (with_fs (delete path (fs w)) w))
    | None => Ret (-1) w
    end.

(** [mkfifo(path, 0666)]: 0 on success, -1 when the path exists. *)
Definition mkfifo (path : string) : M Z :=
  fun w =>
    match fs w !! path with
    | Some _ => Ret (-1) w
    | None => Ret 0 (with_fs (<[path := Fifo]> (fs w)) w)
    end.

(** [fopen(path, "w") != NULL]; the file is created or truncated. *)
Definition fopen_w (path : string) : M bool :=
  fun w =>
    if decide (path ∈ writable w)
    then Ret true (with_fs (<[path := RegFile None]> (fs w)) w)
    else Ret false w.

(** [fprintf(fp, "%d", v); fclose(fp)] on a file opened by [fopen_w]. *)
Definition fprintf_d (path : string) (v : Z) : M unit :=
  fun w =>
    Ret tt (with_trace (EvWrite path v :: trace w)
             (with_fs (<[path := RegFile (Some v)]> (fs w)) w)).

(** The kernel side of a backlight class device: a store into
    [<dir>/brightness] is what [<dir>/actual_brightness] reports next. *)
Definition backlight_class_store (dir : string) (v : Z) : M unit :=
  fun w =>
    Ret tt (with_fs (alter (fun _ => RegFile (Some v))
                       (path_join dir "actual_brightness") (fs w)) w).

(** [signal(sig, signal_handler)] *)
Definition install_handler (s : signal) : M unit :=
  fun w =>
    Ret tt (with_disposition
              (fun s' => if signal_eqb s s' then SigHandler else disposition w s') w).

(** ** The program *)

(** [void signal_handler(int signal)] *)
Definition signal_handler (s : signal) : M unit :=
  r <- remove PID_FILE_PATH ;;
  (if r =? -1 then perror "Error removing the PID file" else ret tt) ;;;
  exit 0.

(** Delivery of a signal to the process: the installed handler runs, or
    the default action ends the process. *)
Definition deliver (s : signal) : M unit :=
  fun w =>
    match disposition w s with
    | SigHandler => signal_handler s w
    | SigDefault => Exit (128 + signum s) w
    end.

(** Does [kill(pid, sig)] signal the calling process as well?  A [pid] of
    0 names the process group of the caller and [-g] the group [g]; [-1]
    names every process the caller may signal, which on Linux leaves out
    the caller.  A positive [pid] names one process, taken to be another
    one: the marker is read by a later invocation, not by the daemon that
    wrote it. *)
Definition kill_reaches_caller (pid : Z) (w : World) : bool :=
  (pid =? 0) || ((pid <? -1) && (- pid =? self_pgid w)).

(** [kill(pid, sig)].  When the caller is among the processes [pid] names,
    the signal is delivered to it before [kill] returns.  Otherwise the
    result is 0, or -1 when there is nothing to signal: [procs w] holds the
    arguments of [kill], ids of processes and groups alike, that name some
    process other than the caller which it may signal. *)
Definition kill (pid : Z) (s : signal) : M Z :=
  fun w =>
    if kill_reaches_caller pid w then
      (deliver s ;;; ret 0) (with_trace (EvKill pid s :: trace w) w)
    else if decide (pid ∈ procs w)
    then Ret 0 (with_trace (EvKill pid s :: trace w) w)
    else Ret (-1) w.

(** [int read_file(const char* file_path, const char* filename)] *)
Definition read_file (file_path filename : string) : M Z :=
  let path := path_join file_path filename in
  ok <- fopen_r path ;;
  if ok then
    r <- fscanf_d path ;;
    match r with
    | Some n => ret n
    | None => fun w => Ret (indeterminate w) w
    end
  else
    printf path ;;;
    perror "Error reading file" ;;;
    exit EXIT_FAILURE.

(** The first statement of [set_backlight_brightness]. *)
Definition clamp_brightness (brightness max_brightness : Z) : Z :=
  if brightness <? 1 then 1
  else if brightness >? max_brightness then max_brightness
  else brightness.

(** [void set_backlight_brightness(const char* backlight_path,
                                   int brightness, int max_brightness)] *)
Definition set_backlight_brightness
    (backlight_path : string) (brightness max_brightness : Z) : M unit :=
  let brightness := clamp_brightness brightness max_brightness in
  let path := path_join backlight_path "brightness" in
  ok <- fopen_w path ;;
  if ok then
    fprintf_d path brightness ;;;
    backlight_class_store backlight_path brightness
  else
    perror "Error write to brightness file" ;;;
    exit EXIT_FAILURE.

(** [void display_usage()] *)
Definition display_usage : M unit :=
  printf "Usage: backlight_manager [OPTIONS]" ;;;
  printf "Options:" ;;;
  printf "  -h, --help             Display this help and exit" ;;;
  printf "  -a, --ambient          Enable ambient mode" ;;;
  printf "  -p, --print-status     Print the actual status of the daemon" ;;;
  printf "  -s, --set <value>      Set change of brightness".

(** [void print_info(const ConfigData* config)]; the formatted values
    are left out of the recorded text except for the paths. *)
Definition print_info (config : ConfigData) : M unit :=
  printf "Backlight Manager Config:" ;;;
  printf ("  Sensor Path: " +:+ sensor_path config) ;;;
  printf ("  Sensor File: " +:+ sensor_file config) ;;;
  printf ("  Sensor File Path: " +:+ sensor_file_path config) ;;;
  printf ("  Keyboard Backlight Path: " +:+ keyboard_backlight_path config) ;;;
  printf ("  Screen Backlight Path: " +:+ screen_backlight_path config) ;;;
  printf "  Update Rate: %d" ;;;
  printf "  Brightness Factor: %f".

(** [void adjust_brightness(int value, int max_screen_brightness,
                            const ConfigData* config)] *)
Definition adjust_brightness
    (value max_screen_brightness : Z) (config : ConfigData) : M unit :=
  current_screen_brightness <-
    read_file (screen_backlight_path config) "actual_brightness" ;;
  set_backlight_brightness (screen_backlight_path config)
    (int_add current_screen_brightness (percent_of max_screen_brightness value))
    max_screen_brightness.

(** [void start_daemon()], followed in the process that called [fork].
    [chdir], [umask] and the redirection of the standard descriptors to
    /dev/null change nothing the world records. *)
Definition start_daemon : M unit :=
  pid <- (fun w => Ret (fork_ret w) w) ;;
  if pid <? 0 then
    perror "Error forking the process" ;;; exit EXIT_FAILURE
  else if pid >? 0 then
    exit 0
  else
    sid <- (fun w => Ret (setsid_ret w) w) ;;
    if sid <? 0 then
      perror "Error creating a new session" ;;; exit EXIT_FAILURE
    else
      install_handler SIGTERM ;;;
      install_handler SIGINT ;;;
      ok <- fopen_w PID_FILE_PATH ;;
      if ok then
        me <- (fun w => Ret (self_pid w) w) ;;
        fprintf_d PID_FILE_PATH me ;;;
        mkfifo FIFO_PATH ;;;
        ret tt
      else
        perror "Error creating the PID file" ;;; exit EXIT_FAILURE.

(** [int open_pipe()]: [open(FIFO_PATH, O_RDONLY | O_NONBLOCK)], which
    returns the lowest descriptor that is free at that moment. *)
Definition open_pipe : M Z :=
  fun w =>
    match fs w !! FIFO_PATH with
    | Some _ => Ret (open_ret w) (with_reader true w)
    | None =>
        (perror "Error opening the named pipe" ;;; exit EXIT_FAILURE) w
    end.

(** [void stop_daemon()] *)
Definition stop_daemon : M unit :=
  ok <- fopen_r PID_FILE_PATH ;;
  if ok then
    r <- fscanf_d PID_FILE_PATH ;;
    match r with
    | Some pid =>
        k <- kill pid SIGTERM ;;
        if k =? -1
        then perror "Error sending the termination signal to the daemon"
        else printf "Termination signal sent to the daemon"
    | None => printf "Invalid PID file content"
    end ;;;
    r1 <- remove PID_FILE_PATH ;;
    (if r1 =? -1 then perror "Error removing the PID file" else ret tt) ;;;
    r2 <- remove FIFO_PATH ;;
    (if r2 =? -1 then perror "Error removing the PID file" else ret tt)
  else
    perror "Error opening the PID file".

(** [void write_fifo(int value, bool ambient)]: [open(FIFO_PATH, O_WRONLY)]
    waits for a reader; the single [write] delivers one record. *)
Definition write_fifo (value : Z) (ambient : bool) : M unit :=
  fun w =>
    let data := mkPipeData value ambient in
    match fs w !! FIFO_PATH with
    | None => (perror "Error opening the named pipe" ;;; exit EXIT_FAILURE) w
    | Some Fifo =>
        if reader_open w
        then Ret tt (with_trace (EvPipeWrite data :: trace w)
                      (with_channel (channel w ++ [RdMsg data]) w))
        else Block w
    | Some (RegFile _) => Ret tt (with_trace (EvPipeWrite data :: trace w) w)
    end.

(** [read(fd, value, sizeof(PipeData))] on the daemon's descriptor. *)
Definition pipe_read : M read_outcome :=
  fun w =>
    match channel w with
    | [] => Ret RdNone w
    | r :: rest => Ret r (with_channel rest w)
    end.

(** [PipeData* read_fifo(int fd)]; [None] is the NULL pointer. *)
Definition read_fifo (fd : Z) : M (option PipeData) :=
  ok <- (fun w => Ret (malloc_ok w) w) ;;
  if ok then
    r <- pipe_read ;;
    match r with
    | RdError => perror "Error reading from the named pipe" ;;; ret None
    | RdNone => ret None
    | RdMsg d => ret (Some d)
    end
  else
    perror "Error allocating memory for PipeData" ;;; ret None.

(** [ConfigData read_config_data()]: parsing of the configuration file and
    the search for the sensor are taken from the environment; the call
    leaves the process when no sensor is found. *)
Definition read_config_data : M ConfigData :=
  fun w =>
    match config_src w with
    | Some c => Ret c w
    | None => (perror "Sensor file not found" ;;; exit EXIT_FAILURE) w
    end.

(** What [getopt_long] hands to the [switch] of [main], one per call;
    [OptSet n] carries [atoi(optarg)]. *)
Inductive cli_option :=
| OptHelp
| OptAmbient
| OptDaemon
| OptKill
| OptPrintStatus
| OptSet (n : Z)
| OptUnknown.

(** The locals of [main]. *)
Record Locals := mkLocals {
  v_ambient_mode : bool;
  v_brightness_adjustment : Z;
  v_daemon_mode : bool;
  v_print_status : bool;
  v_config : ConfigData;
  v_fd : Z;
  v_pid_file : bool;               (* pid_file != NULL *)
  v_max_screen_brightness : Z
}.

Definition set_ambient_mode (b : bool) (v : Locals) : Locals :=
  mkLocals b (v_brightness_adjustment v) (v_daemon_mode v) (v_print_status v)
    (v_config v) (v_fd v) (v_pid_file v) (v_max_screen_brightness v).

Definition set_brightness_adjustment (n : Z) (v : Locals) : Locals :=
  mkLocals (v_ambient_mode v) n (v_daemon_mode v) (v_print_status v)
    (v_config v) (v_fd v) (v_pid_file v) (v_max_screen_brightness v).

Definition set_daemon_mode (b : bool) (v : Locals) : Locals :=
  mkLocals (v_ambient_mode v) (v_brightness_adjustment v) b (v_print_status v)
    (v_config v) (v_fd v) (v_pid_file v) (v_max_screen_brightness v).

Definition set_print_status (b : bool) (v : Locals) : Locals :=
  mkLocals (v_ambient_mode v) (v_brightness_adjustment v) (v_daemon_mode v) b
    (v_config v) (v_fd v) (v_pid_file v) (v_max_screen_brightness v).

Definition set_config (c : ConfigData) (v : Locals) : Locals :=
  mkLocals (v_ambient_mode v) (v_brightness_adjustment v) (v_daemon_mode v)
    (v_print_status v) c (v_fd v) (v_pid_file v) (v_max_screen_brightness v).

Definition set_fd (fd : Z) (v : Locals) : Locals :=
  mkLocals (v_ambient_mode v) (v_brightness_adjustment v) (v_daemon_mode v)
    (v_print_status v) (v_config v) fd (v_pid_file v) (v_max_screen_brightness v).

Definition set_max_screen_brightness (n : Z) (v : Locals) : Locals :=
  mkLocals (v_ambient_mode v) (v_brightness_adjustment v) (v_daemon_mode v)
    (v_print_status v) (v_config v) (v_fd v) (v_pid_file v) n.

(** The [while ((option = getopt_long(...)) != -1) switch (option)] loop. *)
Fixpoint parse_options (opts : list cli_option) (v : Locals) : M Locals :=
  match opts with
  | [] => ret v
  | o :: rest =>
      match o with
      | OptHelp => display_usage ;;; exit 0
      | OptAmbient => parse_options rest (set_ambient_mode true v)
      | OptDaemon =>
          (if v_pid_file v then ret tt else start_daemon) ;;;
          parse_options rest (set_daemon_mode true v)
      | OptKill => stop_daemon ;;; exit EXIT_SUCCESS
      | OptPrintStatus => parse_options rest (set_print_status true v)
      | OptSet n => parse_options rest (set_brightness_adjustment n v)
      | OptUnknown => printf "Unknown option" ;;; exit 1
      end
  end.

(** [main] up to the [while (daemon_mode)] loop. *)
Definition main_startup (opts : list cli_option) : M Locals :=
  config <- read_config_data ;;
  pid_file <- fopen_r PID_FILE_PATH ;;
  v <- parse_options opts (mkLocals false 0 false false config 0 pid_file 0) ;;
  if v_print_status v then
    print_info (v_config v) ;;; exit 0
  else
    fd <- (if v_daemon_mode v then open_pipe else ret (v_fd v)) ;;
    let v := set_fd fd v in
    max_screen_brightness <-
      read_file (screen_backlight_path (v_config v)) "max_brightness" ;;
    let v := set_max_screen_brightness max_screen_brightness v in
    let v := set_config
               (set_min_brightness
                  (percent_of max_screen_brightness (min_brightness (v_config v)))
                  (v_config v)) v in
    (if v_pid_file v then
       if v_daemon_mode v then ret tt
       else write_fifo (v_brightness_adjustment v) (v_ambient_mode v)
     else
       if v_brightness_adjustment v =? 0 then ret tt
       else adjust_brightness (v_brightness_adjustment v)
              (v_max_screen_brightness v) (v_config v)) ;;;
    ret v.

(** The body of the loop, statement by statement. *)

(** [if (data->ambient_mode) { if (ambient_mode) ... else ... }] *)
Definition next_ambient_mode (current : bool) (data : PipeData) : bool :=
  if ambient_mode data then
    if current then negb (ambient_mode data) else ambient_mode data
  else current.

Definition apply_message (data : PipeData) (v : Locals) : Locals :=
  set_ambient_mode (next_ambient_mode (v_ambient_mode v) data)
    (set_brightness_adjustment (brightness_adjustment data) v).

(** [PipeData* data = read_fifo(fd); if (data != NULL) { ... }] *)
Definition drain_command (v : Locals) : M Locals :=
  data <- read_fifo (v_fd v) ;;
  match data with
  | Some d => ret (apply_message d v)
  | None => ret v
  end.

(** [if (brightness_adjustment != 0) { adjust_brightness(...);
                                        brightness_adjustment = 0; }] *)
Definition apply_pending_delta (v : Locals) : M Locals :=
  if v_brightness_adjustment v =? 0 then ret v
  else
    adjust_brightness (v_brightness_adjustment v)
      (v_max_screen_brightness v) (v_config v) ;;;
    ret (set_brightness_adjustment 0 v).

(** The value handed to [set_backlight_brightness] by the ambient branch. *)
Definition ambient_value (config : ConfigData) (reading : Z) : Z :=
  let illumination := double_of_int reading in
  let tmp_backlight_value :=
    int_of_double (dmul illumination (brightness_factor config)) in
  if tmp_backlight_value >? min_brightness config
  then tmp_backlight_value else min_brightness config.

(** [if (ambient_mode) { ... set_backlight_brightness(...); }] *)
Definition ambient_recompute (v : Locals) : M unit :=
  if v_ambient_mode v then
    reading <- read_file (sensor_file_path (v_config v)) (sensor_file (v_config v)) ;;
    set_backlight_brightness (screen_backlight_path (v_config v))
      (ambient_value (v_config v) reading) (v_max_screen_brightness v)
  else ret tt.

(** One pass through the body of [while (daemon_mode)]. *)
Definition loop_iteration (v : Locals) : M Locals :=
  v1 <- drain_command v ;;
  v2 <- apply_pending_delta v1 ;;
  ambient_recompute v2 ;;;
  sleep (update_rate (v_config v2)) ;;;
  ret v2.

(** [n] passes through the loop. *)
Fixpoint run_loop (n : nat) (v : Locals) : M Locals :=
  match n with
  | O => ret v
  | S n' => v' <- loop_iteration v ;; run_loop n' v'
  end.

(** [main], observed for [n] passes of its loop: without [daemon_mode]
    the loop is skipped and [main] returns 0. *)
Definition main (n : nat) (opts : list cli_option) : M Locals :=
  v <- main_startup opts ;;
  if v_daemon_mode v then run_loop n v else exit 0.

(** ** A concrete machine, used to run the program on examples *)

Module Sample.

Definition two : spec_float := double_of_int 2.

Definition config : ConfigData :=
  mkConfigData "/sys/bus/iio/devices" "in_illuminance_raw"
    "/sys/bus/iio/devices/iio:device0" "/sys/class/leds/kbd"
    "/sys/class/backlight/panel" two 1 10.

Definition bl (name : string) : string :=
  path_join "/sys/class/backlight/panel" name.

Definition sensor : string :=
  path_join "/sys/bus/iio/devices/iio:device0" "in_illuminance_raw".

(** A machine with no daemon: panel at [cur] of [max], sensor at [lux]. *)
Definition machine (max cur lux : Z) : World :=
  mkWorld
    (<[bl "max_brightness" := RegFile (Some max)]>
       (<[bl "actual_brightness" := RegFile (Some cur)]>
          (<[bl "brightness" := RegFile (Some cur)]>
             (<[sensor := RegFile (Some lux)]> ∅))))
    ({[ bl "brightness" ]} ∪ {[ PID_FILE_PATH ]})
    ∅ (fun _ => SigDefault) [] false 4242%positive 4242 0 4242 3 true
    (Some config) 0 [].

(** The same machine with a daemon of process id [pid] behind the pipe. *)
Definition with_daemon (pid : Z) (pidtext : option Z) (w : World) : World :=
  mkWorld
    (<[PID_FILE_PATH := RegFile pidtext]> (<[FIFO_PATH := Fifo]> (fs w)))
    (writable w) ({[ pid ]} ∪ procs w) (disposition w) (channel w) true
    (own_pid w) (self_pgid w) (fork_ret w) (setsid_ret w) (open_ret w)
    (malloc_ok w) (config_src w) (indeterminate w) (trace w).

(** The locals of a daemon inside its loop. *)
Definition daemon_locals (max adj minb : Z) (amb : bool) : Locals :=
  mkLocals amb adj true false (set_min_brightness minb config) 3 false max.

End Sample.

(** ** Observing a run *)

Definition exit_code {A} (r : result A) : option Z :=
  match r with Exit c _ => Some c | _ => None end.

(** The events a run added to the trace of [w], newest first. *)
Definition events_since (w w' : World) : list event :=
  take (length (trace w') - length (trace w)) (trace w').

Definition run_events {A} (m : M A) (w : World) : list event :=
  events_since w (final_world (m w)).

(** [path] names a regular file. *)
Definition regular_at (w : World) (path : string) : Prop :=
  exists scan, fs w !! path = Some (RegFile scan).

(** The sysfs files the loop touches can be opened. *)
Definition sysfs_ready (v : Locals) (w : World) : Prop :=
  path_join (screen_backlight_path (v_config v)) "brightness" ∈ writable w /\
  regular_at w (path_join (screen_backlight_path (v_config v)) "actual_brightness") /\
  regular_at w (path_join (sensor_file_path (v_config v)) (sensor_file (v_config v))).

(** The pipe and the allocator are as they were. *)
Definition same_pipe (w w' : World) : Prop :=
  channel w' = channel w /\ malloc_ok w' = malloc_ok w.

(** Does this read outcome carry a request to flip ambient mode? *)
Definition requests_toggle (r : read_outcome) : bool :=
  match r with RdMsg d => ambient_mode d | _ => false end.

Fixpoint toggle_requests (rs : list read_outcome) : nat :=
  match rs with
  | [] => 0
  | r :: rs' => ((if requests_toggle r then 1 else 0) + toggle_requests rs')%nat
  end.

(** Number of messages whose [ambient_mode] field is true. *)
Fixpoint ambient_requests (ms : list PipeData) : nat :=
  match ms with
  | [] => 0
  | m :: ms' => ((if ambient_mode m then 1 else 0) + ambient_requests ms')%nat
  end.

(** Options that only fill in the request: [-a] and [-s n]. *)
Definition request_option (o : cli_option) : bool :=
  match o with OptAmbient | OptSet _ => true | _ => false end.

(** The last [-s] argument, [acc] when there is none. *)
Fixpoint last_set (opts : list cli_option) (acc : Z) : Z :=
  match opts with
  | [] => acc
  | OptSet n :: rest => last_set rest n
  | _ :: rest => last_set rest acc
  end.

Fixpoint has_ambient (opts : list cli_option) : bool :=
  match opts with
  | [] => false
  | OptAmbient :: _ => true
  | _ :: rest => has_ambient rest
  end.

(** The record a client invocation with these options sends. *)
Definition message_of (opts : list cli_option) : PipeData :=
  mkPipeData (last_set opts 0) (has_ambient opts).

(** ** Step 2 of the control loop in the spec's words

    [current + round(max / 100.0 * delta)], with the C library's [round]:
    the nearest integer, halfway cases away from zero.  Only used to
    compare with what [adjust_brightness] computes. *)

Definition spec_round_mag (m : positive) (e : Z) : Z :=
  match e with
  | Z0 => Zpos m
  | Zpos p => Zpos m * 2 ^ Zpos p
  | Zneg p => (2 * Zpos m + 2 ^ Zpos p) / (2 * 2 ^ Zpos p)
  end.

Definition spec_round_double (x : spec_float) : Z :=
  match x with
  | S754_zero _ => 0
  | S754_finite s m e => if s then - spec_round_mag m e else spec_round_mag m e
  | _ => INT_MIN
  end.

Definition spec_delta_target (current max delta : Z) : Z :=
  current
  + spec_round_double (dmul (ddiv (double_of_int max) d100) (double_of_int delta)).

(** ** More ways to look at a run *)

(** Options that only set a flag of [main]: [-a], [-s n] and [-p]. *)
Definition flag_option (o : cli_option) : bool :=
  match o with OptAmbient | OptSet _ | OptPrintStatus => true | _ => false end.

Fixpoint has_print_status (opts : list cli_option) : bool :=
  match opts with
  | [] => false
  | OptPrintStatus :: _ => true
  | _ :: rest => has_print_status rest
  end.

(** The locals after a run of flag options. *)
Definition after_flags (opts : list cli_option) (v : Locals) : Locals :=
  mkLocals (v_ambient_mode v || has_ambient opts)
    (last_set opts (v_brightness_adjustment v))
    (v_daemon_mode v) (v_print_status v || has_print_status opts)
    (v_config v) (v_fd v) (v_pid_file v) (v_max_screen_brightness v).

(** The locals [main] starts the option loop with. *)
Definition initial_locals (config : ConfigData) (pid_file : bool) : Locals :=
  mkLocals false 0 false false config 0 pid_file 0.

(** Clients sending the records [ms] one after the other. *)
Fixpoint send_all (ms : list PipeData) : M unit :=
  match ms with
  | [] => ret tt
  | m :: rest =>
      write_fifo (brightness_adjustment m) (ambient_mode m) ;;; send_all rest
  end.

(** [n] calls of [read_fifo] in a row, with what each returned. *)
Fixpoint read_all (n : nat) (fd : Z) : M (list (option PipeData)) :=
  match n with
  | O => ret []
  | S k => d <- read_fifo fd ;; rest <- read_all k fd ;; ret (d :: rest)
  end.

(** What the daemon's loop may show to the outside: sleeps, diagnostics,
    and stores of [1 .. max] into the brightness file of the panel. *)
Definition loop_event (v : Locals) (e : event) : Prop :=
  match e with
  | EvSleep secs => secs = update_rate (v_config v)
  | EvPerror _ | EvPrint _ => True
  | EvWrite path val =>
      path = path_join (screen_backlight_path (v_config v)) "brightness" /\
      1 <= val <= v_max_screen_brightness v
  | EvPipeWrite _ | EvKill _ _ | EvRemove _ => False
  end.

Definition is_sleep (e : event) : bool :=
  match e with EvSleep _ => true | _ => false end.

Definition is_write (e : event) : bool :=
  match e with EvWrite _ _ => true | _ => false end.

Fixpoint count_events (f : event -> bool) (evs : list event) : nat :=
  match evs with
  | [] => 0
  | e :: rest => ((if f e then 1 else 0) + count_events f rest)%nat
  end.

(** [pid_file != NULL] after [fopen(PID_FILE_PATH, "r")] in [main]. *)
Definition pid_file_open (w : World) : bool :=
  match fs w !! PID_FILE_PATH with Some (RegFile _) => true | _ => false end.

(** [main] between the option loop and the [while (daemon_mode)] loop. *)
Definition after_options (v : Locals) : M Locals :=
  if v_print_status v then
    print_info (v_config v) ;;; exit 0
  else
    fd <- (if v_daemon_mode v then open_pipe else ret (v_fd v)) ;;
    let v := set_fd fd v in
    max_screen_brightness <-
      read_file (screen_backlight_path (v_config v)) "max_brightness" ;;
    let v := set_max_screen_brightness max_screen_brightness v in
    let v := set_config
               (set_min_brightness
                  (percent_of max_screen_brightness (min_brightness (v_config v)))
                  (v_config v)) v in
    (if v_pid_file v then
       if v_daemon_mode v then ret tt
       else write_fifo (v_brightness_adjustment v) (v_ambient_mode v)
     else
       if v_brightness_adjustment v =? 0 then ret tt
       else adjust_brightness (v_brightness_adjustment v)
              (v_max_screen_brightness v) (v_config v)) ;;;
    ret v.

(** Text on the terminal: [printf] and [perror]. *)
Definition is_output (e : event) : bool :=
  match e with EvPrint _ | EvPerror _ => true | _ => false end.

(** The last character of a path, as a string; empty for the empty path. *)
Fixpoint last_char (s : string) : string :=
  match s with
  | EmptyString => EmptyString
  | String a rest =>
      match rest with
      | EmptyString => String a EmptyString
      | String _ _ => last_char rest
      end
  end.

(** Every event the run of [m] from [w] adds to the trace satisfies [P],
    however the run ends. *)
Definition emits_only {A} (P : event -> Prop) (m : M A) (w : World) : Prop :=
  exists evs, trace (final_world (m w)) = evs ++ trace w /\ Forall P evs.

(** From [w] to [w'] the trace grew by [s] sleeps and at most [k] stores. *)
Definition adds (w w' : World) (s k : nat) : Prop :=
  exists evs,
    trace w' = evs ++ trace w /\
    count_events is_sleep evs = s /\ (count_events is_write evs <= k)%nat.

(** From [w] to [w'] the trace grew by [s] sleeps and [k] stores. *)
Definition grew_by (w w' : World) (s k : nat) : Prop :=
  exists evs,
    trace w' = evs ++ trace w /\
    count_events is_sleep evs = s /\ count_events is_write evs = k.


(** ** The configuration file

    [read_config_data] reads the file with [fgets] into a buffer of 256
    bytes, cuts the line at its newline and takes it apart with
    [sscanf(line, "%255[^=]=%255s", key, value)].  The stream is the text of
    the file; [atoi] and the [%lf] conversion belong to the C library and
    are parameters. *)

Module ConfigFile.
Import Stdlib.Strings.Ascii.

Definition newline : string := String "010"%char EmptyString.
Definition nul : string := String "000"%char EmptyString.
Definition space : string := String " "%char EmptyString.

(** [isspace] in the C locale: the space and the characters 9 to 13. *)
Definition isspace (c : ascii) : bool :=
  let n := N_of_ascii c in
  N.eqb n 32 || (N.leb 9 n && N.leb n 13).

Definition is_equals (c : ascii) : bool := Ascii.eqb c "="%char.
Definition is_newline (c : ascii) : bool := Ascii.eqb c "010"%char.
Definition is_nul (c : ascii) : bool := Ascii.eqb c "000"%char.

Fixpoint string_forall (p : ascii -> bool) (s : string) : bool :=
  match s with
  | EmptyString => true
  | String c rest => p c && string_forall p rest
  end.

(** The characters of [s] before the first one that satisfies [stop]. *)
Fixpoint before (stop : ascii -> bool) (s : string) : string :=
  match s with
  | EmptyString => EmptyString
  | String c rest => if stop c then EmptyString else String c (before stop rest)
  end.

(** No character of [s] satisfies [p]. *)
Definition free_of (p : ascii -> bool) (s : string) : bool :=
  string_forall (fun c => negb (p c)) s.

(** Where a line ends for the string functions: a NUL or a newline. *)
Definition is_line_end (c : ascii) : bool := is_nul c || is_newline c.

(** [fgets] after [n] more characters may be stored: the characters taken
    and the rest of the stream. *)
Fixpoint fgets_from (n : nat) (stream : string) : string * string :=
  match n, stream with
  | S k, String c rest =>
      if is_newline c then (String c EmptyString, rest)
      else let (line, rest') := fgets_from k rest in (String c line, rest')
  | _, _ => (EmptyString, stream)
  end.

(** [fgets(line, size, fp)]: [None] is NULL, at the end of the file. *)
Definition fgets (size : nat) (stream : string) : option (string * string) :=
  match stream with
  | EmptyString => None
  | String _ _ => Some (fgets_from (size - 1) stream)
  end.

(** [line[strcspn(line, "\n")] = '\0']: what the string functions see of
    the buffer afterwards ends before the first NUL or newline. *)
Definition chomp (buffer : string) : string := before is_line_end buffer.

(** [%255[^=]]: the longest run of at most [n] characters other than '=',
    and what follows it. *)
Fixpoint scan_not_equals (n : nat) (s : string) : string * string :=
  match n, s with
  | S k, String c rest =>
      if is_equals c then (EmptyString, s)
      else let (run, rest') := scan_not_equals k rest in (String c run, rest')
  | _, _ => (EmptyString, s)
  end.

(** The white space [%s] skips first. *)
Fixpoint skip_space (s : string) : string :=
  match s with
  | String c rest => if isspace c then skip_space rest else s
  | EmptyString => EmptyString
  end.

(** [%255s] after the white space: at most [n] characters up to the next
    white space. *)
Fixpoint scan_word (n : nat) (s : string) : string :=
  match n, s with
  | S k, String c rest =>
      if isspace c then EmptyString else String c (scan_word k rest)
  | _, _ => EmptyString
  end.

(** [sscanf(line, "%<kw>[^=]=%<vw>s", key, value) == 2], with [key] and
    [value]; [None] when fewer than two conversions succeed. *)
Definition scan_key_value (kw vw : nat) (line : string)
    : option (string * string) :=
  match scan_not_equals kw line with
  | (EmptyString, _) => None
  | (key, String c rest) =>
      if is_equals c then
        match scan_word vw (skip_space rest) with
        | EmptyString => None
        | value => Some (key, value)
        end
      else None
  | (_, EmptyString) => None
  end.

(** [sscanf(line, "%255[^=]=%255s", key, value) == 2] *)
Definition sscanf_key_value (line : string) : option (string * string) :=
  scan_key_value 255 255 line.

Definition set_sensor_path (s : string) (c : ConfigData) : ConfigData :=
  mkConfigData s (sensor_file c) (sensor_file_path c)
    (keyboard_backlight_path c) (screen_backlight_path c)
    (brightness_factor c) (update_rate c) (min_brightness c).

Definition set_sensor_file (s : string) (c : ConfigData) : ConfigData :=
  mkConfigData (sensor_path c) s (sensor_file_path c)
    (keyboard_backlight_path c) (screen_backlight_path c)
    (brightness_factor c) (update_rate c) (min_brightness c).

Definition set_keyboard_backlight_path (s : string) (c : ConfigData) : ConfigData :=
  mkConfigData (sensor_path c) (sensor_file c) (sensor_file_path c)
    s (screen_backlight_path c)
    (brightness_factor c) (update_rate c) (min_brightness c).

Definition set_screen_backlight_path (s : string) (c : ConfigData) : ConfigData :=
  mkConfigData (sensor_path c) (sensor_file c) (sensor_file_path c)
    (keyboard_backlight_path c) s
    (brightness_factor c) (update_rate c) (min_brightness c).

Definition set_brightness_factor (x : spec_float) (c : ConfigData) : ConfigData :=
  mkConfigData (sensor_path c) (sensor_file c) (sensor_file_path c)
    (keyboard_backlight_path c) (screen_backlight_path c)
    x (update_rate c) (min_brightness c).

Definition set_update_rate (n : Z) (c : ConfigData) : ConfigData :=
  mkConfigData (sensor_path c) (sensor_file c) (sensor_file_path c)
    (keyboard_backlight_path c) (screen_backlight_path c)
    (brightness_factor c) n (min_brightness c).

(** The keys the [strcmp] chain knows, in its order. *)
Definition known_keys : list string :=
  [ "sensor_path"; "sensor_file"; "keyboard_backlight_path";
    "screen_backlight_path"; "update_rate"; "min_brightness";
    "brightness_factor" ].

Section Parser.

(** [atoi(value)] and [sscanf(value, "%lf", &x) == 1] with [x]. *)
Variable atoi : string -> Z.
Variable scan_double : string -> option spec_float.

(** The [strcmp] chain.  [strncpy(field, value, 256)] copies all of
    [value] and its terminator, [value] having at most 255 characters. *)
Definition store (key value : string) (config : ConfigData) : ConfigData :=
  if String.eqb key "sensor_path" then set_sensor_path value config
  else if String.eqb key "sensor_file" then set_sensor_file value config
  else if String.eqb key "keyboard_backlight_path"
       then set_keyboard_backlight_path value config
  else if String.eqb key "screen_backlight_path"
       then set_screen_backlight_path value config
  else if String.eqb key "update_rate" then set_update_rate (atoi value) config
  else if String.eqb key "min_brightness"
       then set_min_brightness (atoi value) config
  else if String.eqb key "brightness_factor" then
    match scan_double value with
    | Some x => set_brightness_factor x config
    | None => config
    end
  else config.

(** The body of the [while (fgets(...))] loop after the newline is cut. *)
Definition config_line (line : string) (config : ConfigData) : ConfigData :=
  match sscanf_key_value line with
  | Some (key, value) => store key value config
  | None => config
  end.

(** [while (fgets(line, sizeof(line), fp)) { ... }], at most [fuel]
    times through the loop. *)
Fixpoint read_lines (fuel : nat) (stream : string) (config : ConfigData)
    : ConfigData :=
  match fuel with
  | O => config
  | S k =>
      match fgets 256 stream with
      | None => config
      | Some (buffer, rest) =>
          read_lines k rest (config_line (chomp buffer) config)
      end
  end.

(** The loop run to the end of the file: every pass takes at least one
    character off the stream. *)
Definition parse_config (stream : string) (config : ConfigData) : ConfigData :=
  read_lines (String.length stream) stream config.

End Parser.

(** Shapes of text, to state what the parser does with them. *)

(** A line of the file that fits the buffer with its newline. *)
Definition line_ok (l : string) : bool :=
  free_of is_line_end l && (String.length l <=? 254)%nat.

(** A key: not empty, no '=', at most 255 characters. *)
Definition key_ok (k : string) : bool :=
  negb (String.eqb k EmptyString) && free_of is_equals k
  && (String.length k <=? 255)%nat.

(** A value: not empty, no white space, at most 255 characters. *)
Definition word_ok (v : string) : bool :=
  negb (String.eqb v EmptyString) && free_of isspace v
  && (String.length v <=? 255)%nat.

(** What may follow a value: nothing, or text that starts with white
    space. *)
Definition tail_ok (rest : string) : bool :=
  match rest with
  | EmptyString => true
  | String c _ => isspace c
  end.

Definition blank (s : string) : bool := string_forall isspace s.

(** A comment sign followed by [n] dashes. *)
Fixpoint dashes (n : nat) : string :=
  match n with
  | O => EmptyString
  | S k => String "-"%char (dashes k)
  end.

Definition comment (n : nat) : string := String "#"%char (dashes n).

(** The text of a file with these lines, each ended by a newline. *)
Definition text_of (lines : list string) : string :=
  foldr (fun l acc => l +:+ newline +:+ acc) EmptyString lines.

End ConfigFile.

(** ** The search for the sensor *)

Definition MAX_PATH_LENGTH : nat := 512.

(** The first [n] characters of [s]. *)
Fixpoint string_take (n : nat) (s : string) : string :=
  match n, s with
  | S k, String c rest => String c (string_take k rest)
  | _, _ => EmptyString
  end.

(** [snprintf(path, MAX_PATH_LENGTH, ...)]: the text, cut to fit the
    buffer with its terminator. *)
Definition snprintf_path (text : string) : string :=
  string_take (MAX_PATH_LENGTH - 1) text.

(** The [while ((entry = readdir(dir)) != NULL)] loop of
    [get_sensor_path], over the names [readdir] returns. *)
Fixpoint scan_entries (devices_path filename : string) (entries : list string)
    : M (option string) :=
  match entries with
  | [] => ret None
  | d_name :: rest =>
      if String.eqb d_name "." || String.eqb d_name ".." then
        scan_entries devices_path filename rest
      else
        found <- fopen_r (snprintf_path
                            (devices_path +:+ "/" +:+ d_name +:+ "/" +:+ filename)) ;;
        if found then
          ret (Some (snprintf_path (devices_path +:+ "/" +:+ d_name)))
        else
          scan_entries devices_path filename rest
  end.

(** [char* get_sensor_path(const char* devices_path, const char* filename)].
    [listing] is what [opendir] and [readdir] answer for [devices_path],
    [None] when the directory cannot be opened; the result [None] is the
    NULL pointer. *)
Definition get_sensor_path (listing : option (list string))
    (devices_path filename : string) : M (option string) :=
  match listing with
  | None => perror "Error opening iio devices directory" ;;; ret None
  | Some entries => scan_entries devices_path filename entries
  end.

(** An entry the search accepts: not [.] or [..], and the file below it
    can be opened for reading. *)
Definition sensor_candidate (w : World) (devices_path filename d_name : string)
    : bool :=
  negb (String.eqb d_name ".") && negb (String.eqb d_name "..")
  && match fs w !! path_join (path_join devices_path d_name) filename with
     | Some (RegFile _) => true
     | _ => false
     end.

(** The path built for an entry fits the buffer. *)
Definition path_fits (devices_path filename d_name : string) : bool :=
  (String.length (devices_path +:+ "/" +:+ d_name +:+ "/" +:+ filename)
   <? MAX_PATH_LENGTH)%nat.

(** ** The variant without a daemon (backlight_manager.c)

    The older variant of the program has no daemon, no PID file and no
    pipe: [-s] is applied at once and [-a] runs the ambient loop in the
    foreground.  [read_file], [set_backlight_brightness], [display_usage]
    and [print_info] are the same functions; [read_config_data] differs only
    in not knowing the key [min_brightness]. *)

Module V1.

(** The option loop of [main].  [-d] and [-k] are letters of the option
    string without a [case], and [--daemon] and [--kill] are unknown: all
    end in the [default] branch. *)
Fixpoint parse_options (opts : list cli_option) (v : Locals) : M Locals :=
  match opts with
  | [] => ret v
  | o :: rest =>
      match o with
      | OptHelp => display_usage ;;; exit 0
      | OptAmbient => parse_options rest (set_ambient_mode true v)
      | OptPrintStatus => parse_options rest (set_print_status true v)
      | OptSet n => parse_options rest (set_brightness_adjustment n v)
      | OptDaemon | OptKill | OptUnknown => printf "Unknown option" ;;; exit 1
      end
  end.

(** The value the ambient loop hands to [set_backlight_brightness]. *)
Definition ambient_value (config : ConfigData) (reading : Z) : Z :=
  int_of_double (dmul (double_of_int reading) (brightness_factor config)).

(** The body of [while (ambient_mode)]. *)
Definition ambient_pass (v : Locals) : M unit :=
  reading <- read_file (sensor_file_path (v_config v)) (sensor_file (v_config v)) ;;
  set_backlight_brightness (screen_backlight_path (v_config v))
    (ambient_value (v_config v) reading) (v_max_screen_brightness v) ;;;
  sleep (update_rate (v_config v)).

(** [n] passes through the loop, which has no way out. *)
Fixpoint run_loop (n : nat) (v : Locals) : M Locals :=
  match n with
  | O => ret v
  | S k => ambient_pass v ;;; run_loop k v
  end.

(** [main], observed for [n] passes of its loop. *)
Definition main (n : nat) (opts : list cli_option) : M Locals :=
  config <- read_config_data ;;
  v <- parse_options opts (mkLocals false 0 false false config 0 false 0) ;;
  if v_print_status v then
    print_info (v_config v) ;;; exit 0
  else
    max_screen_brightness <-
      read_file (screen_backlight_path (v_config v)) "max_brightness" ;;
    let v := set_max_screen_brightness max_screen_brightness v in
    (if v_brightness_adjustment v =? 0 then ret tt
     else
       current_screen_brightness <-
         read_file (screen_backlight_path (v_config v)) "actual_brightness" ;;
       set_backlight_brightness (screen_backlight_path (v_config v))
         (int_add current_screen_brightness
            (percent_of max_screen_brightness (v_brightness_adjustment v)))
         max_screen_brightness) ;;;
    if v_ambient_mode v then run_loop n v else exit 0.

End V1.

(** Options both variants know and that do not ask for ambient mode. *)
Definition common_option (o : cli_option) : bool :=
  match o with
  | OptHelp | OptPrintStatus | OptSet _ | OptUnknown => true
  | _ => false
  end.

(** * Properties *)

(** ** Stepping through monadic code *)

Ltac unfold_prims :=
  unfold set_backlight_brightness, read_file, fopen_r, fopen_w, fscanf_d,
    fprintf_d, backlight_class_store, remove, mkfifo, kill, install_handler,
    perror, printf, sleep, emit, exit, ret, bind in *.

Ltac case_run :=
  repeat match goal with
    | H : context [match ?x with _ => _ end] |- _ => destruct x eqn:?; simplify_eq/=
    | |- context [match ?x with _ => _ end] => destruct x eqn:?; simplify_eq/=
    end.

Ltac pow_pos := apply Z.pow_pos_nonneg; lia.
(** ** Arithmetic of the C layer *)

Lemma clamp_brightness_in_range b max :
  1 <= max -> 1 <= clamp_brightness b max <= max.
Proof.
  intros Hmax. unfold clamp_brightness.
  destruct (Z.ltb_spec b 1); [lia|].
  destruct (Z.gtb_spec b max); lia.
Qed.

Lemma clamp_brightness_id b max :
  1 <= b <= max -> clamp_brightness b max = b.
Proof.
  intros Hb. unfold clamp_brightness.
  destruct (Z.ltb_spec b 1); [lia|].
  destruct (Z.gtb_spec b max); lia.
Qed.

Lemma wrap_int_id z : int_range z -> wrap_int z = z.
Proof.
  unfold int_range, INT_MIN, INT_MAX, wrap_int. intros H.
  rewrite Z.mod_small; lia.
Qed.

Lemma wrap_int_congr a b : (a - b) mod 2 ^ 32 = 0 -> wrap_int a = wrap_int b.
Proof.
  unfold wrap_int. intros H. f_equal.
  apply Z.mod_divide in H; [|lia]. destruct H as [k Hk].
  replace (a + 2 ^ 31) with (b + 2 ^ 31 + k * 2 ^ 32) by lia.
  apply Z.mod_add. lia.
Qed.

Lemma wrap_int_mod z : (wrap_int z - z) mod 2 ^ 32 = 0.
Proof.
  unfold wrap_int. rewrite (Z.mod_eq (z + 2 ^ 31)) by lia.
  set (q := (z + 2 ^ 31) / 2 ^ 32).
  replace (z + 2 ^ 31 - 2 ^ 32 * q - 2 ^ 31 - z) with (- q * 2 ^ 32) by lia.
  apply Z.mod_mul. lia.
Qed.

(** ** Rounding of binary64 operations *)

Module Binary64.

Lemma digits2_pos_bounds m :
  2 ^ (Zpos (digits2_pos m) - 1) <= Zpos m < 2 ^ Zpos (digits2_pos m).
Proof.
  induction m as [m IH|m IH|]; cbn [digits2_pos].
  - rewrite Pos2Z.inj_succ.
    replace (Z.succ (Zpos (digits2_pos m)) - 1) with (Z.succ (Zpos (digits2_pos m) - 1)) by lia.
    rewrite !Z.pow_succ_r by lia. lia.
  - rewrite Pos2Z.inj_succ.
    replace (Z.succ (Zpos (digits2_pos m)) - 1) with (Z.succ (Zpos (digits2_pos m) - 1)) by lia.
    rewrite !Z.pow_succ_r by lia. lia.
  - simpl. lia.
Qed.

Lemma digits2_pos_le m k : Zpos m < 2 ^ k -> Zpos (digits2_pos m) <= k.
Proof.
  intros H. pose proof (digits2_pos_bounds m) as [Hlo _].
  destruct (Z.le_gt_cases (Zpos (digits2_pos m)) k) as [|Hgt]; [done|].
  assert (2 ^ k <= 2 ^ (Zpos (digits2_pos m) - 1)).
  { apply Z.pow_le_mono_r; lia. }
  lia.
Qed.

Lemma digits2_pos_ge m k : 0 <= k -> 2 ^ k <= Zpos m -> k < Zpos (digits2_pos m).
Proof.
  intros Hk H. pose proof (digits2_pos_bounds m) as [_ Hhi].
  destruct (Z.lt_ge_cases k (Zpos (digits2_pos m))) as [|Hge]; [done|].
  assert (2 ^ Zpos (digits2_pos m) <= 2 ^ k).
  { apply Z.pow_le_mono_r; lia. }
  lia.
Qed.

Lemma shr_1_m mrs : 0 <= shr_m mrs -> shr_m (shr_1 mrs) = shr_m mrs / 2.
Proof.
  destruct mrs as [m r s]. simpl. intros Hm.
  destruct m as [|[p|p|]|p]; simpl; try done; try lia.
  - rewrite Pos2Z.inj_xI. symmetry.
    replace (2 * Z.pos p + 1) with (1 + Z.pos p * 2) by lia.
    rewrite Z.div_add by lia. done.
  - rewrite Pos2Z.inj_xO. symmetry. rewrite Z.mul_comm. apply Z.div_mul. lia.
Qed.

Lemma iter_pos_shr_1_m n : forall mrs,
  0 <= shr_m mrs ->
  shr_m (SpecFloat.iter_pos shr_1 n mrs) = shr_m mrs / 2 ^ Zpos n.
Proof.
  assert (Hnn : forall k mrs, 0 <= shr_m mrs ->
             shr_m (SpecFloat.iter_pos shr_1 k mrs) = shr_m mrs / 2 ^ Zpos k ->
             0 <= shr_m (SpecFloat.iter_pos shr_1 k mrs)).
  { intros k mrs H ->. apply Z.div_pos; lia. }
  induction n as [n IH|n IH|]; intros mrs Hm; cbn [SpecFloat.iter_pos].
  - assert (H1 : 0 <= shr_m (shr_1 mrs)).
    { rewrite shr_1_m by done. apply Z.div_pos; lia. }
    rewrite IH by (apply Hnn; auto).
    rewrite IH by done. rewrite shr_1_m by done.
    rewrite !Z.div_div by lia.
    f_equal. replace (Z.pos n~1) with (1 + Z.pos n + Z.pos n) by lia.
    rewrite !Z.pow_add_r by lia. lia.
  - rewrite IH by (apply Hnn; auto).
    rewrite IH by done.
    rewrite !Z.div_div by lia.
    f_equal. replace (Z.pos n~0) with (Z.pos n + Z.pos n) by lia.
    rewrite !Z.pow_add_r by lia. lia.
  - rewrite shr_1_m by done. done.
Qed.

Lemma round_nearest_even_bounds m l :
  m <= round_nearest_even m l <= m + 1.
Proof.
  unfold round_nearest_even.
  destruct l as [|[]]; try lia. destruct (Z.even m); lia.
Qed.

Lemma shr_record_of_loc_m m l : shr_m (shr_record_of_loc m l) = m.
Proof. by destruct l as [|[]]. Qed.

Lemma fexp_normal e : -1074 <= e - 53 -> fexp prec emax e = e - 53.
Proof. unfold fexp, emin, prec, emax. lia. Qed.

Lemma shr_fexp_pos p e l :
  -1021 <= e ->
  let n := Z.max 0 (Zpos (digits2_pos p) - 53) in
  exists mrs,
    shr_fexp prec emax (Zpos p) e l = (mrs, e + n) /\
    shr_m mrs = Zpos p / 2 ^ n.
Proof.
  intros He n. unfold shr_fexp. cbn [Zdigits2].
  pose proof (Pos2Z.is_pos (digits2_pos p)) as Hd.
  rewrite fexp_normal by lia.
  replace (Zpos (digits2_pos p) + e - 53 - e) with (Zpos (digits2_pos p) - 53) by lia.
  unfold shr. subst n.
  destruct (Zpos (digits2_pos p) - 53) as [|k|k] eqn:Hk.
  - eexists. split; [by rewrite Z.add_0_r|].
    rewrite shr_record_of_loc_m. by rewrite Z.div_1_r.
  - eexists. split; [by rewrite Z.max_r by lia|].
    rewrite iter_pos_shr_1_m by (rewrite shr_record_of_loc_m; lia).
    rewrite shr_record_of_loc_m. by rewrite Z.max_r by lia.
  - eexists. split; [by rewrite Z.max_l, Z.add_0_r by lia|].
    rewrite shr_record_of_loc_m. rewrite Z.max_l by lia. by rewrite Z.div_1_r.
Qed.

Lemma shifted_mantissa_bounds p :
  let n := Z.max 0 (Zpos (digits2_pos p) - 53) in
  1 <= Zpos p / 2 ^ n < 2 ^ 53 /\ (Zpos p / 2 ^ n) * 2 ^ n <= Zpos p.
Proof.
  intros n. pose proof (digits2_pos_bounds p) as [Hlo Hhi].
  pose proof (Pos2Z.is_pos (digits2_pos p)) as Hd.
  assert (Hdef : n = Z.max 0 (Zpos (digits2_pos p) - 53)) by done.
  clearbody n.
  assert (Hn : 0 <= n) by lia.
  assert (Hpow : 0 < 2 ^ n) by pow_pos.
  split; [split|].
  - apply Z.div_le_lower_bound; [done|]. rewrite Z.mul_1_r.
    etrans; [|exact Hlo]. apply Z.pow_le_mono_r; lia.
  - apply Z.div_lt_upper_bound; [done|].
    rewrite <- Z.pow_add_r by lia.
    eapply Z.lt_le_trans; [exact Hhi|]. apply Z.pow_le_mono_r; lia.
  - rewrite Z.mul_comm. apply Z.mul_div_le. done.
Qed.

(** The result of rounding a positive mantissa: finite, and above the
    exact value by at most one unit in the last place kept. *)
Lemma binary_round_aux_upper p ex lx :
  let n := Z.max 0 (Zpos (digits2_pos p) - 53) in
  -1021 <= ex -> ex + n + 1 <= 971 ->
  exists m' e',
    binary_round_aux prec emax false (Zpos p) ex lx = S754_finite false m' e' /\
    ex + n <= e' <= ex + n + 1 /\
    Zpos m' * 2 ^ (e' - ex) <= Zpos p + 2 ^ n.
Proof.
  intros n Hex Hov. unfold binary_round_aux.
  destruct (shr_fexp_pos p ex lx Hex) as (mrs1 & -> & Hm1). fold n in Hm1 |- *.
  destruct (shifted_mantissa_bounds p) as [[Hm1lo Hm1hi] Hm1mul]. fold n in Hm1lo, Hm1hi, Hm1mul.
  assert (Hn : 0 <= n) by (unfold n; lia).
  clearbody n.
  pose proof (round_nearest_even_bounds (shr_m mrs1) (loc_of_shr_record mrs1)) as Hr.
  rewrite Hm1 in Hr |- *. clear Hm1.
  set (m1 := Zpos p / 2 ^ n) in *. clearbody m1.
  destruct (round_nearest_even m1 (loc_of_shr_record mrs1)) as [|p2|p2] eqn:Hm2;
    [lia| |lia].
  assert (Hex1 : -1021 <= ex + n) by lia.
  destruct (shr_fexp_pos p2 (ex + n) loc_Exact Hex1) as (mrs2 & -> & Hm3).
  destruct (shifted_mantissa_bounds p2) as [[Hm3lo _] Hm3mul].
  set (n2 := Z.max 0 (Zpos (digits2_pos p2) - 53)) in *.
  assert (Hd2 : Zpos (digits2_pos p2) <= 54).
  { apply digits2_pos_le. change (2 ^ 54) with (2 ^ 53 * 2). lia. }
  assert (Hn2 : 0 <= n2 <= 1) by (unfold n2; lia).
  clearbody n2.
  rewrite Hm3. clear Hm3.
  set (m3 := Zpos p2 / 2 ^ n2) in *. clearbody m3.
  destruct m3 as [|p3|p3]; [lia| |lia].
  assert (Hle : (ex + n + n2 <=? emax - prec) = true).
  { apply Z.leb_le. unfold emax, prec. lia. }
  rewrite Hle. exists p3, (ex + n + n2). split; [done|]. split; [lia|].
  replace (ex + n + n2 - ex) with (n2 + n) by lia.
  rewrite Z.pow_add_r by lia.
  assert (Hpow : 0 < 2 ^ n) by pow_pos.
  assert (Zpos p3 * 2 ^ n2 <= Zpos p2) by lia.
  nia.
Qed.

Lemma digits2_pos_unique m k :
  2 ^ (k - 1) <= Zpos m < 2 ^ k -> Zpos (digits2_pos m) = k.
Proof.
  intros [Hlo Hhi].
  assert (0 < k).
  { destruct (Z.lt_ge_cases 0 k); [done|].
    rewrite Z.pow_neg_r in Hlo by lia.
    assert (2 ^ k <= 1); [|lia].
    destruct (Z.eq_dec k 0) as [->|]; [done|]. rewrite Z.pow_neg_r by lia. lia. }
  pose proof (digits2_pos_le m k Hhi).
  pose proof (digits2_pos_ge m (k - 1) ltac:(lia) Hlo). lia.
Qed.

Lemma shr_fexp_small p e l :
  -1021 <= e -> Zpos (digits2_pos p) <= 53 ->
  shr_fexp prec emax (Zpos p) e l = (shr_record_of_loc (Zpos p) l, e).
Proof.
  intros He Hd. unfold shr_fexp. cbn [Zdigits2].
  pose proof (Pos2Z.is_pos (digits2_pos p)) as Hd0.
  rewrite fexp_normal by lia.
  replace (Zpos (digits2_pos p) + e - 53 - e) with (Zpos (digits2_pos p) - 53) by lia.
  unfold shr. destruct (Zpos (digits2_pos p) - 53) eqn:Hk; try done. lia.
Qed.

(** A mantissa that fits is kept as it is. *)
Lemma binary_round_aux_exact s p e :
  -1021 <= e <= 971 -> Zpos (digits2_pos p) <= 53 ->
  binary_round_aux prec emax s (Zpos p) e loc_Exact = S754_finite s p e.
Proof.
  intros He Hd. unfold binary_round_aux.
  rewrite shr_fexp_small by lia. cbn [shr_record_of_loc shr_m loc_of_shr_record round_nearest_even].
  rewrite shr_fexp_small by lia. cbn [shr_record_of_loc shr_m].
  assert (Hle : (e <=? emax - prec) = true) by (apply Z.leb_le; unfold emax, prec; lia).
  by rewrite Hle.
Qed.

Lemma pos_iter_xO p k : Zpos (Pos.iter xO p k) = Zpos p * 2 ^ Zpos k.
Proof.
  revert p. induction k as [|k IH] using Pos.peano_ind; intros p.
  - simpl. lia.
  - rewrite Pos.iter_succ, Pos2Z.inj_xO, IH, Pos2Z.inj_succ, Z.pow_succ_r by lia. lia.
Qed.

(** Conversion of a positive integer below 2^53 is exact and normalised. *)
Lemma double_of_int_pos z :
  1 <= z < 2 ^ 53 ->
  exists m a,
    double_of_int z = S754_finite false m (- a) /\
    0 <= a <= 52 /\ Zpos m = z * 2 ^ a /\ Zpos (digits2_pos m) = 53.
Proof.
  intros Hz. destruct z as [|p|p]; [lia| |lia].
  unfold double_of_int, binary_normalize, binary_round, shl_align.
  pose proof (digits2_pos_bounds p) as [Hlo Hhi].
  pose proof (Pos2Z.is_pos (digits2_pos p)) as Hd0.
  assert (Hd : Zpos (digits2_pos p) <= 53) by (apply digits2_pos_le; lia).
  rewrite fexp_normal by lia.
  replace (Zpos (digits2_pos p) + 0 - 53 - 0) with (Zpos (digits2_pos p) - 53) by lia.
  replace (Zpos (digits2_pos p) + 0 - 53) with (Zpos (digits2_pos p) - 53) by lia.
  destruct (Zpos (digits2_pos p) - 53) as [|k|k] eqn:Hk; [|lia|].
  - exists p, 0. rewrite binary_round_aux_exact by lia.
    repeat split; try done; try lia.
  - assert (Hdig : Zpos (digits2_pos (Pos.iter xO p k)) = 53).
    { assert (E1 : 2 ^ (53 - 1) = 2 ^ (Zpos (digits2_pos p) - 1) * 2 ^ Zpos k).
      { rewrite <- Z.pow_add_r by lia. f_equal. lia. }
      assert (E2 : 2 ^ 53 = 2 ^ Zpos (digits2_pos p) * 2 ^ Zpos k).
      { rewrite <- Z.pow_add_r by lia. f_equal. lia. }
      apply digits2_pos_unique. rewrite pos_iter_xO, E1, E2.
      assert (0 < 2 ^ Zpos k) by pow_pos.
      split; [apply Z.mul_le_mono_nonneg_r; lia|apply Z.mul_lt_mono_pos_r; lia]. }
    exists (Pos.iter xO p k), (Zpos k).
    rewrite binary_round_aux_exact by lia.
    repeat split; try done; try lia. apply pos_iter_xO.
Qed.

Lemma round_shift_small p :
  2 ^ 52 <= Zpos p ->
  let n := Z.max 0 (Zpos (digits2_pos p) - 53) in
  2 ^ n * 2 ^ 52 <= Zpos p.
Proof.
  intros Hp n. pose proof (digits2_pos_bounds p) as [Hlo _].
  pose proof (digits2_pos_ge p 52 ltac:(lia) Hp) as Hd.
  assert (Hn : n = Zpos (digits2_pos p) - 53) by (unfold n; lia).
  rewrite Hn, <- Z.pow_add_r by lia.
  replace (Zpos (digits2_pos p) - 53 + 52) with (Zpos (digits2_pos p) - 1) by lia.
  done.
Qed.

(** Division of two normalised positive doubles of moderate exponent. *)
Lemma ddiv_upper m1 a1 m2 a2 :
  Zpos (digits2_pos m1) = 53 -> Zpos (digits2_pos m2) = 53 ->
  0 <= a1 <= 52 -> 0 <= a2 <= 52 ->
  exists mq eq,
    ddiv (S754_finite false m1 (- a1)) (S754_finite false m2 (- a2))
    = S754_finite false mq eq /\
    a2 - a1 - 53 <= eq <= a2 - a1 - 51 /\
    Zpos mq * 2 ^ (eq - (a2 - a1 - 53)) * Zpos m2 <= Zpos m1 * 2 ^ 53 + 2 * Zpos m2.
Proof.
  intros Hd1 Hd2 Ha1 Ha2.
  pose proof (digits2_pos_bounds m1) as [Hlo1 Hhi1].
  pose proof (digits2_pos_bounds m2) as [Hlo2 Hhi2].
  rewrite Hd1 in Hlo1, Hhi1. rewrite Hd2 in Hlo2, Hhi2.
  change (53 - 1) with 52 in Hlo1, Hlo2.
  unfold ddiv, SFdiv, SFdiv_core_binary. cbn [Zdigits2 xorb].
  rewrite Hd1, Hd2. rewrite fexp_normal by lia.
  replace (Z.min (53 + - a1 - (53 + - a2) - 53) (- a1 - - a2)) with (a2 - a1 - 53) by lia.
  replace (- a1 - - a2 - (a2 - a1 - 53)) with 53 by lia.
  cbv iota. rewrite Z.shiftl_mul_pow2 by lia.
  pose proof (Z_div_mod (Zpos m1 * 2 ^ 53) (Zpos m2) ltac:(lia)) as Hdm.
  destruct (Z.div_eucl (Zpos m1 * 2 ^ 53) (Zpos m2)) as [q r].
  destruct Hdm as [Heq Hr].
  assert (Hq : 2 ^ 52 <= q < 2 ^ 54).
  { change (2 ^ 54) with (2 ^ 52 * 4) in *. change (2 ^ 53) with (2 ^ 52 * 2) in *.
    set (c := 2 ^ 52) in *. assert (0 < c) by done. clearbody c. nia. }
  destruct q as [|pq|pq]; [lia| |lia].
  assert (Hdq : Zpos (digits2_pos pq) <= 54) by (apply digits2_pos_le; lia).
  pose proof (Pos2Z.is_pos (digits2_pos pq)) as Hdq0.
  destruct (binary_round_aux_upper pq (a2 - a1 - 53) (new_location (Zpos m2) r)
              ltac:(lia) ltac:(lia)) as (mq & eq & Hres & He & Hval).
  exists mq, eq. split; [done|]. split; [lia|].
  assert (Hn : 2 ^ Z.max 0 (Zpos (digits2_pos pq) - 53) <= 2).
  { change 2 with (2 ^ 1) at 2. apply Z.pow_le_mono_r; lia. }
  nia.
Qed.

Lemma d100_value : d100 = S754_finite false 7036874417766400 (- 46).
Proof. reflexivity. Qed.

Lemma trunc_mag_lt m e bound D k :
  0 <= k -> 0 < D ->
  2 ^ k = 2 ^ e * D \/ (e < 0 /\ D = 2 ^ (- e) * 2 ^ k) ->
  Zpos m * 2 ^ k < (bound + 1) * D ->
  trunc_mag m e <= bound.
Proof.
  intros Hk HD Hscale Hlt. unfold trunc_mag.
  destruct e as [|pe|pe].
  - destruct Hscale as [Hs|[? _]]; [|lia]. rewrite Hs in Hlt.
    change (2 ^ 0) with 1 in Hlt. nia.
  - destruct Hscale as [Hs|[? _]]; [|lia]. rewrite Hs in Hlt.
    assert (0 < 2 ^ Zpos pe) by pow_pos. nia.
  - destruct Hscale as [Hs|[_ Hs]].
    + rewrite (Z.pow_neg_r 2 (Zneg pe)) in Hs by lia.
      assert (0 < 2 ^ k) by pow_pos. lia.
    + change (- Zneg pe) with (Zpos pe) in Hs.
      assert (0 < 2 ^ Zpos pe) by pow_pos.
      assert (0 < 2 ^ k) by pow_pos.
      assert (Zpos m < (bound + 1) * 2 ^ Zpos pe) by nia.
      assert (Zpos m / 2 ^ Zpos pe < bound + 1); [|lia].
      apply Z.div_lt_upper_bound; lia.
Qed.

Lemma percent_chain (M p A B U T N Q R c : Z) :
  c = 2 ^ 52 ->
  0 < A -> 0 < B -> 0 < U -> 0 < T -> 0 < N -> 0 < Q -> 0 < R ->
  1 <= M <= 2 ^ 31 - 1 -> 1 <= p <= 100 ->
  c <= M * A < 2 * c ->
  R * T <= Q * (p * B) + N ->
  N * c <= Q * (p * B) ->
  Q * U * 100 <= M * A * 128 + 200 ->
  R * T * U < (M + 1) * (A * 128 * B).
Proof.
  intros Hc HA HB HU HT HN HQ HR HM Hp HMA Hval Hsh Hq.
  assert (H4 : 4 <= A).
  { destruct (Z.lt_ge_cases A 4); [|done].
    assert (M * A <= (2 ^ 31 - 1) * 3) by (apply Z.mul_le_mono_nonneg; lia).
    subst c. lia. }
  set (P := Q * (p * B)) in *.
  assert (HP : 0 < P) by (unfold P; nia).
  assert (H1 : R * T * c <= P * (c + 1)).
  { assert (R * T * c <= (P + N) * c) by (apply Z.mul_le_mono_nonneg_r; lia). lia. }
  set (g := M * A * 128 + 200) in *.
  assert (H2 : P * U * 100 <= g * (100 * B)).
  { replace (P * U * 100) with (Q * U * 100 * (p * B)) by (unfold P; ring).
    apply Z.mul_le_mono_nonneg;
      [nia | exact Hq | nia | apply Z.mul_le_mono_nonneg_r; lia]. }
  assert (H3 : R * T * U * c * 100 <= g * (100 * B) * (c + 1)).
  { replace (R * T * U * c * 100) with (R * T * c * (U * 100)) by ring.
    assert (R * T * c * (U * 100) <= P * (c + 1) * (U * 100)).
    { apply Z.mul_le_mono_nonneg_r; lia. }
    replace (P * (c + 1) * (U * 100)) with (P * U * 100 * (c + 1)) in * by ring.
    assert (P * U * 100 * (c + 1) <= g * (100 * B) * (c + 1)).
    { apply Z.mul_le_mono_nonneg_r; lia. }
    lia. }
  assert (H5 : g * (c + 1) < (M + 1) * (A * 128) * c).
  { unfold g. set (MA := M * A) in *.
    replace ((M + 1) * (A * 128) * c) with (MA * 128 * c + A * 128 * c) by (unfold MA; ring).
    assert (A * 128 * c >= 4 * 128 * c) by nia.
    subst c. clearbody MA. lia. }
  assert (H6 : g * (100 * B) * (c + 1) < (M + 1) * (A * 128 * B) * c * 100).
  { replace (g * (100 * B) * (c + 1)) with (g * (c + 1) * (100 * B)) by ring.
    replace ((M + 1) * (A * 128 * B) * c * 100)
      with ((M + 1) * (A * 128) * c * (100 * B)) by ring.
    apply Z.mul_lt_mono_pos_r; lia. }
  assert (H7 : R * T * U * (c * 100) < (M + 1) * (A * 128 * B) * (c * 100)).
  { replace (R * T * U * (c * 100)) with (R * T * U * c * 100) by ring.
    replace ((M + 1) * (A * 128 * B) * (c * 100))
      with ((M + 1) * (A * 128 * B) * c * 100) by ring. lia. }
  apply Z.mul_lt_mono_pos_r in H7; [done|]. subst c. lia.
Qed.

Lemma percent_of_le_max M p :
  0 <= M <= INT_MAX -> 0 <= p <= 100 -> percent_of M p <= M.
Proof.
  unfold INT_MAX. intros HM Hp. unfold percent_of.
  destruct (Z.eq_dec M 0) as [->|HM0].
  { change (double_of_int 0) with (S754_zero false).
    destruct (Z.eq_dec p 0) as [->|Hp0]; [done|].
    destruct (double_of_int_pos p ltac:(lia)) as (my & b & -> & _). done. }
  destruct (double_of_int_pos M ltac:(lia)) as (mM & a & -> & Ha & HmM & HdM).
  rewrite d100_value.
  destruct (ddiv_upper mM a 7036874417766400 46 HdM eq_refl Ha ltac:(lia))
    as (mq & eq & Hdiv & Heq & Hq).
  change (Z.opp 46) with (Zneg 46) in Hdiv. rewrite Hdiv. clear Hdiv.
  destruct (Z.eq_dec p 0) as [->|Hp0].
  { change (double_of_int 0) with (S754_zero false).
    unfold dmul, SFmul, int_of_double, trunc_double. cbn [xorb].
    change (in_int 0) with true. cbv iota. lia. }
  destruct (double_of_int_pos p ltac:(lia)) as (my & b & -> & Hb & Hmy & Hdy).
  unfold dmul, SFmul. cbn [xorb].
  pose proof (digits2_pos_bounds my) as [Hylo Hyhi]. rewrite Hdy in Hylo, Hyhi.
  pose proof (digits2_pos_bounds mM) as [HMlo HMhi]. rewrite HdM in HMlo, HMhi.
  change (53 - 1) with 52 in *.
  set (u := eq - (46 - a - 53)) in *.
  assert (Hu : 0 <= u <= 2) by (unfold u; lia).
  assert (HU : 0 < 2 ^ u) by pow_pos.
  assert (HA : 0 < 2 ^ a) by pow_pos.
  assert (HB : 0 < 2 ^ b) by pow_pos.
  (* the rounded quotient stays below 2^55 *)
  pose proof (Pos2Z.is_pos mq) as Hmq1.
  assert (HX : Zpos mq <= Zpos mq * 2 ^ u) by nia.
  assert (Hmq : Zpos mq < 2 ^ 55).
  { set (X := Zpos mq * 2 ^ u) in *. clearbody X. lia. }
  pose proof (Pos2Z.is_pos mq) as Hmq0.
  assert (HP : 2 ^ 52 <= Zpos (mq * my) < 2 ^ 108).
  { rewrite Pos2Z.inj_mul. change (2 ^ 108) with (2 ^ 55 * 2 ^ 53). split; nia. }
  assert (HdP : Zpos (digits2_pos (mq * my)) <= 108) by (apply digits2_pos_le; lia).
  pose proof (Pos2Z.is_pos (digits2_pos (mq * my))) as HdP0.
  destruct (binary_round_aux_upper (mq * my) (eq + - b) loc_Exact ltac:(lia) ltac:(lia))
    as (mr & er & -> & Her & Hval).
  pose proof (round_shift_small (mq * my) ltac:(lia)) as Hsh. cbv zeta in Hsh.
  set (n3 := Z.max 0 (Zpos (digits2_pos (mq * my)) - 53)) in *.
  assert (Hn3 : 0 <= n3) by (unfold n3; lia).
  set (t3 := er - (eq + - b)) in *.
  assert (Ht3 : 0 <= t3) by (unfold t3; lia).
  unfold int_of_double, trunc_double.
  destruct (in_int (trunc_mag mr er)); [|unfold INT_MIN; lia].
  apply (trunc_mag_lt mr er M (2 ^ a * 128 * 2 ^ b) (t3 + u)); [lia|lia| |].
  - destruct (Z.lt_ge_cases er 0) as [Hneg|Hpos].
    + right. split; [done|].
      rewrite <- !Z.pow_add_r by lia. change 128 with (2 ^ 7).
      rewrite <- !Z.pow_add_r by lia. f_equal. unfold t3, u. lia.
    + left. change 128 with (2 ^ 7).
      rewrite <- !Z.pow_add_r by lia. f_equal. unfold t3, u. lia.
  - rewrite Z.pow_add_r, Z.mul_assoc by lia.
    rewrite Pos2Z.inj_mul in Hval, Hsh.
    rewrite HmM in *. rewrite Hmy in *.
    apply (percent_chain M p (2 ^ a) (2 ^ b) (2 ^ u) (2 ^ t3) (2 ^ n3)
             (Zpos mq) (Zpos mr) (2 ^ 52)); try done; try lia.
Qed.

(** ** The sign symmetry of the double arithmetic *)

Lemma binary_round_aux_opp s m e l :
  binary_round_aux prec emax (negb s) m e l
  = SFopp (binary_round_aux prec emax s m e l).
Proof.
  unfold binary_round_aux.
  destruct (shr_fexp prec emax m e l) as [mrs e'].
  destruct (shr_fexp prec emax _ e' loc_Exact) as [mrs' e''].
  destruct (shr_m mrs'); simpl; [done| |done].
  by destruct (e'' <=? emax - prec).
Qed.

Lemma binary_round_opp s m e :
  binary_round prec emax (negb s) m e = SFopp (binary_round prec emax s m e).
Proof.
  unfold binary_round. destruct (shl_align _ _ _) as [mz ez].
  apply binary_round_aux_opp.
Qed.

Lemma SFopp_involutive x : SFopp (SFopp x) = x.
Proof. destruct x as [s|s| |s m e]; simpl; by rewrite ?negb_involutive. Qed.

Lemma double_of_int_opp z :
  z <> 0 -> double_of_int (- z) = SFopp (double_of_int z).
Proof.
  unfold double_of_int, binary_normalize.
  destruct z as [|p|p]; [done| |]; intros _.
  - change (- Z.pos p) with (Z.neg p). cbv iota.
    apply (binary_round_opp false).
  - change (- Z.neg p) with (Z.pos p). cbv iota.
    rewrite (binary_round_opp false). by rewrite SFopp_involutive.
Qed.

Lemma dmul_opp_r x y : dmul x (SFopp y) = SFopp (dmul x y).
Proof.
  unfold dmul, SFmul.
  destruct x as [sx|sx| |sx mx ex], y as [sy|sy| |sy my ey]; simpl;
    try done; try (by destruct sx, sy).
  replace (xorb sx (negb sy)) with (negb (xorb sx sy)) by (by destruct sx, sy).
  apply binary_round_aux_opp.
Qed.

Lemma trunc_double_opp x : trunc_double (SFopp x) = Z.opp <$> trunc_double x.
Proof. destruct x as [s|s| |[] m e]; simpl; try done. by rewrite Z.opp_involutive. Qed.

Lemma percent_of_opp max d :
  (percent_of max d + percent_of max (- d)) mod 2 ^ 32 = 0.
Proof.
  unfold percent_of.
  destruct (decide (d = 0)) as [->|Hd].
  - change (- 0) with 0. set (q := ddiv _ _).
    assert (H : int_of_double (dmul q (double_of_int 0)) = 0
                \/ int_of_double (dmul q (double_of_int 0)) = INT_MIN).
    { unfold double_of_int, binary_normalize, dmul, SFmul, int_of_double.
      destruct q; simpl; auto. }
    destruct H as [-> | ->]; reflexivity.
  - rewrite double_of_int_opp, dmul_opp_r by done.
    unfold int_of_double. rewrite trunc_double_opp.
    destruct (trunc_double _) as [z|]; simpl; [|reflexivity].
    unfold in_int, INT_MIN, INT_MAX.
    repeat match goal with
      | |- context [?a <=? ?b] => destruct (Z.leb_spec a b); simpl
      end; try reflexivity; try lia.
    + replace (z + - z) with 0 by lia. reflexivity.
    + assert (z = - 2 ^ 31) as -> by lia. reflexivity.
    + assert (z = 2 ^ 31) as -> by lia. reflexivity.
Qed.

End Binary64.

Import Binary64.

(** ** Events of a run *)

Lemma events_since_app w w' evs :
  trace w' = evs ++ trace w -> events_since w w' = evs.
Proof.
  intros H. unfold events_since. rewrite H, length_app.
  replace (length evs + length (trace w) - length (trace w))%nat
    with (length evs) by lia.
  by rewrite take_app_length.
Qed.

Lemma events_since_refl w w' : trace w' = trace w -> events_since w w' = [].
Proof. intros H. by apply (events_since_app w w' []). Qed.

(** ** The sysfs accessor *)

Lemma path_join_inj dir a b : path_join dir a = path_join dir b -> a = b.
Proof.
  unfold path_join. intros H.
  apply (inj (String.app dir)) in H. by apply (inj (String.app "/")) in H.
Qed.

Lemma brightness_neq_actual dir :
  path_join dir "brightness" <> path_join dir "actual_brightness".
Proof. intros H. by apply path_join_inj in H. Qed.

Lemma read_file_events dir name w :
  forall p val, EvWrite p val ∉ run_events (read_file dir name) w.
Proof.
  intros p val. unfold run_events, read_file. unfold_prims. cbv zeta.
  destruct (fs w !! path_join dir name) as [[[n|]|]|] eqn:E; simpl;
    rewrite ?E; simpl.
  1,2: rewrite (events_since_app _ _ []) by done; apply not_elem_of_nil.
  all: rewrite (events_since_app _ _ [_; _]) by done;
    intros H; repeat (apply elem_of_cons in H as [?|H]; [done|]);
    by apply elem_of_nil in H.
Qed.

(** [read_file] returns without touching the world, or leaves the process. *)
Lemma read_file_cases dir name w :
  (exists r, read_file dir name w = Ret r w) \/
  (exists w', read_file dir name w = Exit EXIT_FAILURE w' /\
              forall p val, EvWrite p val ∉ events_since w w').
Proof.
  pose proof (read_file_events dir name w) as Hev. revert Hev.
  unfold run_events, read_file. unfold_prims. cbv zeta.
  destruct (fs w !! path_join dir name) as [[[n|]|]|] eqn:E; simpl;
    rewrite ?E; simpl; intros Hev; eauto.
Qed.

Lemma read_file_regular dir name w :
  regular_at w (path_join dir name) -> exists r, read_file dir name w = Ret r w.
Proof.
  intros [scan Hs]. unfold read_file. unfold_prims. cbv zeta.
  rewrite !Hs. destruct scan; eauto.
Qed.

Lemma set_backlight_brightness_run dir b max w :
  path_join dir "brightness" ∈ writable w ->
  exists w',
    set_backlight_brightness dir b max w = Ret tt w' /\
    trace w' = EvWrite (path_join dir "brightness") (clamp_brightness b max) :: trace w /\
    writable w' = writable w /\
    same_pipe w w' /\
    (forall path, regular_at w path -> regular_at w' path) /\
    (regular_at w (path_join dir "actual_brightness") ->
     fs w' !! path_join dir "actual_brightness"
     = Some (RegFile (Some (clamp_brightness b max)))).
Proof.
  intros Hw. unfold_prims.
  destruct (decide _) as [_|]; [|done].
  eexists; split; [reflexivity|]. simpl. split_and!; try done.
  - intros path [scan Hs]. unfold regular_at. simpl.
    destruct (decide (path = path_join dir "actual_brightness")) as [->|Hne1].
    + rewrite lookup_alter_eq.
      rewrite !lookup_insert_ne by apply brightness_neq_actual.
      rewrite Hs. by eexists.
    + rewrite lookup_alter_ne by done.
      destruct (decide (path = path_join dir "brightness")) as [->|Hne2].
      * rewrite lookup_insert_eq. by eexists.
      * rewrite !lookup_insert_ne by done. by eexists.
  - intros [scan Hs]. rewrite lookup_alter_eq.
    rewrite !lookup_insert_ne by apply brightness_neq_actual.
    by rewrite Hs.
Qed.

Lemma set_backlight_brightness_fail dir b max w :
  path_join dir "brightness" ∉ writable w ->
  set_backlight_brightness dir b max w
  = Exit EXIT_FAILURE
      (with_trace (EvPerror "Error write to brightness file" :: trace w) w).
Proof.
  intros Hw. unfold_prims. by destruct (decide _).
Qed.

Lemma adjust_brightness_run value max cfg w cur :
  fs w !! path_join (screen_backlight_path cfg) "actual_brightness"
    = Some (RegFile (Some cur)) ->
  path_join (screen_backlight_path cfg) "brightness" ∈ writable w ->
  exists w',
    adjust_brightness value max cfg w = Ret tt w' /\
    trace w' = EvWrite (path_join (screen_backlight_path cfg) "brightness")
                 (clamp_brightness (int_add cur (percent_of max value)) max)
               :: trace w /\
    writable w' = writable w /\
    fs w' !! path_join (screen_backlight_path cfg) "actual_brightness"
    = Some (RegFile (Some (clamp_brightness (int_add cur (percent_of max value)) max))).
Proof.
  intros Hcur Hw. unfold adjust_brightness.
  unfold bind at 1. unfold read_file, bind, fopen_r, fscanf_d, ret.
  cbv beta zeta. rewrite !Hcur.
  destruct (set_backlight_brightness_run (screen_backlight_path cfg)
              (int_add cur (percent_of max value)) max w Hw)
    as (w' & Hrun & Htr & Hwr & _ & _ & Hact).
  exists w'. repeat split; try done. apply Hact. by eexists.
Qed.

(** C3.  Whatever brightness is requested, [set_backlight_brightness]
    writes nothing but a value of [1 .. max_brightness] to the brightness
    file, and it does write one when the file can be opened -- for every
    maximum that is at least 1.  (The function is the same in both
    variants of the program.) *)
Theorem set_backlight_brightness_in_range dir b max w :
  1 <= max ->
  (forall p val,
      EvWrite p val ∈ run_events (set_backlight_brightness dir b max) w ->
      p = path_join dir "brightness" /\ 1 <= val <= max) /\
  (path_join dir "brightness" ∈ writable w ->
   exists w',
     set_backlight_brightness dir b max w = Ret tt w' /\
     events_since w w' = [EvWrite (path_join dir "brightness") (clamp_brightness b max)]).
Proof.
  intros Hmax. unfold run_events.
  destruct (decide (path_join dir "brightness" ∈ writable w)) as [Hw|Hw].
  - destruct (set_backlight_brightness_run dir b max w Hw) as (w' & Hrun & Htr & _).
    apply (events_since_app w w' [_]) in Htr.
    split.
    + intros p val. rewrite Hrun. simpl. rewrite Htr.
      intros [= -> ->]%list_elem_of_singleton.
      split; [done|]. by apply clamp_brightness_in_range.
    + intros _. by exists w'.
  - split; [|done].
    intros p val. rewrite set_backlight_brightness_fail by done. simpl.
    rewrite (events_since_app w _ [EvPerror "Error write to brightness file"]) by done.
    by intros [=]%list_elem_of_singleton.
Qed.

Lemma set_backlight_brightness_in_range_witness :
  (forall p val,
      EvWrite p val ∈ run_events
        (set_backlight_brightness "/sys/class/backlight/panel" (-40) 100)
        (Sample.machine 100 90 3) ->
      p = path_join "/sys/class/backlight/panel" "brightness" /\ 1 <= val <= 100) /\
  (path_join "/sys/class/backlight/panel" "brightness" ∈ writable (Sample.machine 100 90 3) ->
   exists w',
     set_backlight_brightness "/sys/class/backlight/panel" (-40) 100
       (Sample.machine 100 90 3) = Ret tt w' /\
     events_since (Sample.machine 100 90 3) w'
     = [EvWrite (path_join "/sys/class/backlight/panel" "brightness")
          (clamp_brightness (-40) 100)]).
Proof.
  apply (set_backlight_brightness_in_range
           "/sys/class/backlight/panel" (-40) 100 (Sample.machine 100 90 3)).
  lia.
Defined.

(** With a maximum below 1 the interval is empty and the file still gets
    a value: a request of 5 under a maximum of 0 writes 0. *)
Lemma maximum_below_one_is_written :
  run_events (set_backlight_brightness "/sys/class/backlight/panel" 5 0)
    (Sample.machine 0 0 3)
  = [EvWrite (Sample.bl "brightness") 0]
  /\ ~ (1 <= 0 <= 0).
Proof. split; [vm_compute; reflexivity|lia]. Qed.

(** ** Applying a delta *)

Lemma int_add_exact a b : int_range (a + b) -> int_add a b = a + b.
Proof. apply wrap_int_id. Qed.

(** C2.  A pending delta other than 0 makes the loop write
    [current + (int)(max / 100.0 * delta)] clamped to [1 .. max] -- the
    product is cut toward zero by the cast, not rounded, and the sum is a
    32-bit [int] sum, equal to the mathematical one when that fits -- and
    leaves [brightness_adjustment] at 0. *)
Theorem pending_delta_applied v w cur :
  v_brightness_adjustment v <> 0 ->
  fs w !! path_join (screen_backlight_path (v_config v)) "actual_brightness"
    = Some (RegFile (Some cur)) ->
  path_join (screen_backlight_path (v_config v)) "brightness" ∈ writable w ->
  let step := percent_of (v_max_screen_brightness v) (v_brightness_adjustment v) in
  exists v' w',
    apply_pending_delta v w = Ret v' w' /\
    events_since w w'
    = [EvWrite (path_join (screen_backlight_path (v_config v)) "brightness")
         (clamp_brightness (int_add cur step) (v_max_screen_brightness v))] /\
    v_brightness_adjustment v' = 0 /\
    (int_range (cur + step) -> int_add cur step = cur + step).
Proof.
  intros Hd Hcur Hw step.
  destruct (adjust_brightness_run (v_brightness_adjustment v)
              (v_max_screen_brightness v) (v_config v) w cur Hcur Hw)
    as (w' & Hrun & Htr & _).
  exists (set_brightness_adjustment 0 v), w'.
  unfold apply_pending_delta. apply Z.eqb_neq in Hd. rewrite Hd.
  unfold bind, ret. rewrite Hrun. repeat split.
  - by apply (events_since_app w w' [_]).
  - apply int_add_exact.
Qed.

Lemma pending_delta_applied_witness :
  let v := Sample.daemon_locals 100 10 10 false in
  let w := Sample.machine 100 40 3 in
  exists v' w',
    apply_pending_delta v w = Ret v' w' /\
    events_since w w'
    = [EvWrite (path_join (screen_backlight_path (v_config v)) "brightness")
         (clamp_brightness (int_add 40 (percent_of 100 10)) 100)] /\
    v_brightness_adjustment v' = 0 /\
    (int_range (40 + percent_of 100 10) ->
     int_add 40 (percent_of 100 10) = 40 + percent_of 100 10).
Proof.
  apply (pending_delta_applied (Sample.daemon_locals 100 10 10 false)
           (Sample.machine 100 40 3) 40).
  - vm_compute. discriminate.
  - vm_compute. reflexivity.
  - vm_compute. reflexivity.
Defined.

(** The code cuts where the spec rounds: with a maximum of 255 a delta
    of 1 percent is 2.55 units; from 100 the loop writes 102, and
    [100 + round(2.55)] is 103. *)
Lemma delta_is_truncated_not_rounded :
  run_events (apply_pending_delta (Sample.daemon_locals 255 1 25 false))
    (Sample.machine 255 100 3)
  = [EvWrite (Sample.bl "brightness") 102]
  /\ clamp_brightness (spec_delta_target 100 255 1) 255 = 103.
Proof. split; vm_compute; reflexivity. Qed.

(** C7.  A delta of [d] percent followed by one of [-d] percent brings the
    panel back to exactly the clamped value it started from, provided the
    first of the two writes was not itself clamped. *)
Theorem delta_then_opposite_restores cfg max d w cur :
  fs w !! path_join (screen_backlight_path cfg) "actual_brightness"
    = Some (RegFile (Some cur)) ->
  path_join (screen_backlight_path cfg) "brightness" ∈ writable w ->
  int_range cur ->
  1 <= int_add cur (percent_of max d) <= max ->
  exists w',
    (adjust_brightness d max cfg ;;; adjust_brightness (- d) max cfg) w = Ret tt w' /\
    events_since w w'
    = [EvWrite (path_join (screen_backlight_path cfg) "brightness") (clamp_brightness cur max);
       EvWrite (path_join (screen_backlight_path cfg) "brightness") (int_add cur (percent_of max d))] /\
    fs w' !! path_join (screen_backlight_path cfg) "actual_brightness"
    = Some (RegFile (Some (clamp_brightness cur max))).
Proof.
  intros Hcur Hw Hrange Hmid.
  destruct (adjust_brightness_run d max cfg w cur Hcur Hw)
    as (w1 & Hrun1 & Htr1 & Hw1 & Hact1).
  rewrite (clamp_brightness_id _ _ Hmid) in Htr1, Hact1.
  rewrite <- Hw1 in Hw.
  destruct (adjust_brightness_run (- d) max cfg w1 _ Hact1 Hw)
    as (w2 & Hrun2 & Htr2 & Hw2 & Hact2).
  assert (Hback : int_add (int_add cur (percent_of max d)) (percent_of max (- d)) = cur).
  { unfold int_add. transitivity (wrap_int cur); [|by apply wrap_int_id].
    apply wrap_int_congr.
    pose proof (wrap_int_mod (cur + percent_of max d)) as H1.
    pose proof (percent_of_opp max d) as H2.
    apply Z.mod_divide in H1, H2; try lia.
    destruct H1 as [k1 H1], H2 as [k2 H2].
    replace (_ - cur) with ((k1 + k2) * 2 ^ 32) by lia.
    apply Z.mod_mul. lia. }
  rewrite Hback in Htr2, Hact2.
  exists w2. unfold bind. rewrite Hrun1. split; [done|]. split; [|done].
  apply (events_since_app w w2 [_; _]). by rewrite Htr2, Htr1.
Qed.

Lemma delta_then_opposite_restores_witness :
  let cfg := Sample.config in
  let w := Sample.machine 100 40 3 in
  exists w',
    (adjust_brightness 25 100 cfg ;;; adjust_brightness (- 25) 100 cfg) w = Ret tt w' /\
    events_since w w'
    = [EvWrite (path_join (screen_backlight_path cfg) "brightness") (clamp_brightness 40 100);
       EvWrite (path_join (screen_backlight_path cfg) "brightness") (int_add 40 (percent_of 100 25))] /\
    fs w' !! path_join (screen_backlight_path cfg) "actual_brightness"
    = Some (RegFile (Some (clamp_brightness 40 100))).
Proof.
  apply (delta_then_opposite_restores Sample.config 100 25 (Sample.machine 100 40 3) 40).
  - vm_compute. reflexivity.
  - vm_compute. reflexivity.
  - vm_compute. split; discriminate.
  - vm_compute. split; discriminate.
Defined.

(** Once the first write saturates, the way back is lost: from 90 of 100,
    +50 percent (written as 100) and then -50 percent end at 50. *)
Lemma clamped_delta_is_not_restored :
  fs (final_world
        ((adjust_brightness 50 100 Sample.config ;;;
          adjust_brightness (- 50) 100 Sample.config) (Sample.machine 100 90 3)))
    !! Sample.bl "actual_brightness" = Some (RegFile (Some 50))
  /\ ~ (Z.abs (50 - clamp_brightness 90 100) <= 1).
Proof.
  split; [vm_compute; reflexivity|].
  vm_compute. intros H. by apply H.
Qed.

(** ** The loop: what an iteration leaves alone *)

Lemma same_pipe_trans w1 w2 w3 : same_pipe w1 w2 -> same_pipe w2 w3 -> same_pipe w1 w3.
Proof. unfold same_pipe. intros [-> ->] [-> ->]. done. Qed.

Lemma read_file_same_pipe dir name w r w' :
  read_file dir name w = Ret r w' -> same_pipe w w'.
Proof. unfold same_pipe. unfold_prims. cbv zeta. intros H. case_run; done. Qed.

Lemma set_backlight_brightness_same_pipe dir b max w r w' :
  set_backlight_brightness dir b max w = Ret r w' -> same_pipe w w'.
Proof. unfold same_pipe. unfold_prims. cbv zeta. intros H. case_run; done. Qed.

Lemma adjust_brightness_same_pipe value max cfg w r w' :
  adjust_brightness value max cfg w = Ret r w' -> same_pipe w w'.
Proof.
  unfold adjust_brightness, bind at 1. intros H.
  destruct (read_file _ _ w) as [cur w1| |] eqn:Hrd; [|done..].
  eapply same_pipe_trans.
  - eapply read_file_same_pipe, Hrd.
  - eapply set_backlight_brightness_same_pipe, H.
Qed.

Lemma apply_pending_delta_same_pipe v w v' w' :
  apply_pending_delta v w = Ret v' w' ->
  same_pipe w w' /\ v_ambient_mode v' = v_ambient_mode v.
Proof.
  unfold apply_pending_delta. destruct (_ =? 0).
  - unfold ret. intros [= <- <-]. by split.
  - unfold bind, ret. intros H.
    destruct (adjust_brightness _ _ _ w) as [[] w1| |] eqn:Hadj; [|done..].
    injection H as <- <-. split; [|done].
    eapply adjust_brightness_same_pipe, Hadj.
Qed.

Lemma ambient_recompute_same_pipe v w r w' :
  ambient_recompute v w = Ret r w' -> same_pipe w w'.
Proof.
  unfold ambient_recompute. destruct (v_ambient_mode v).
  - unfold bind at 1. intros H.
    destruct (read_file _ _ w) as [cur w1| |] eqn:Hrd; [|done..].
    eapply same_pipe_trans.
    + eapply read_file_same_pipe, Hrd.
    + eapply set_backlight_brightness_same_pipe, H.
  - unfold ret. intros [= <- <-]. by split.
Qed.

(** ** The loop: it keeps running while sysfs answers *)

Lemma sysfs_ready_config v v' w :
  v_config v' = v_config v -> sysfs_ready v w -> sysfs_ready v' w.
Proof. unfold sysfs_ready. by intros ->. Qed.

Lemma sysfs_ready_step v w w' :
  sysfs_ready v w ->
  writable w' = writable w ->
  (forall path, regular_at w path -> regular_at w' path) ->
  sysfs_ready v w'.
Proof.
  unfold sysfs_ready. intros (Hw & Ha & Hs) Hwr Hreg.
  rewrite Hwr. split_and!; auto.
Qed.

Lemma drain_command_returns v w :
  exists v' w',
    drain_command v w = Ret v' w' /\
    v_config v' = v_config v /\ fs w' = fs w /\ writable w' = writable w.
Proof.
  unfold drain_command, read_fifo, pipe_read. unfold_prims.
  destruct (malloc_ok w); [|by eexists _, _].
  destruct (channel w) as [|[d| |] rest]; by eexists _, _.
Qed.

Lemma apply_pending_delta_returns v w :
  sysfs_ready v w ->
  exists v' w',
    apply_pending_delta v w = Ret v' w' /\
    v_config v' = v_config v /\ sysfs_ready v' w'.
Proof.
  intros Hready. pose proof Hready as (Hw & Ha & _).
  unfold apply_pending_delta. destruct (_ =? 0); [by exists v, w|].
  unfold adjust_brightness, bind.
  destruct (read_file_regular _ _ _ Ha) as [cur ->].
  destruct (set_backlight_brightness_run (screen_backlight_path (v_config v))
              (int_add cur (percent_of (v_max_screen_brightness v)
                              (v_brightness_adjustment v)))
              (v_max_screen_brightness v) w Hw)
    as (w' & -> & _ & Hwr & _ & Hreg & _).
  eexists _, w'. split; [reflexivity|]. split; [done|].
  eapply sysfs_ready_config; [|eapply sysfs_ready_step]; done.
Qed.

Lemma ambient_recompute_returns v w :
  sysfs_ready v w ->
  exists w', ambient_recompute v w = Ret tt w' /\ sysfs_ready v w'.
Proof.
  intros Hready. pose proof Hready as (Hw & _ & Hs).
  unfold ambient_recompute. destruct (v_ambient_mode v); [|by exists w].
  unfold bind.
  destruct (read_file_regular _ _ _ Hs) as [reading ->].
  destruct (set_backlight_brightness_run (screen_backlight_path (v_config v))
              (ambient_value (v_config v) reading) (v_max_screen_brightness v) w Hw)
    as (w' & -> & _ & Hwr & _ & Hreg & _).
  exists w'. split; [done|]. by eapply sysfs_ready_step.
Qed.

Lemma loop_iteration_returns v w :
  sysfs_ready v w ->
  exists v' w', loop_iteration v w = Ret v' w' /\ sysfs_ready v' w'.
Proof.
  intros Hready. unfold loop_iteration.
  destruct (drain_command_returns v w) as (v1 & w1 & Hd & Hc1 & Hf1 & Hw1).
  assert (Hready1 : sysfs_ready v1 w1).
  { eapply sysfs_ready_config; [done|].
    eapply sysfs_ready_step; [done..|]. unfold regular_at. by rewrite Hf1. }
  destruct (apply_pending_delta_returns v1 w1 Hready1) as (v2 & w2 & Hp & Hc2 & Hready2).
  destruct (ambient_recompute_returns v2 w2 Hready2) as (w3 & Ha & Hready3).
  unfold bind at 1. rewrite Hd. unfold bind at 1. rewrite Hp.
  unfold bind at 1. rewrite Ha. unfold_prims.
  eexists _, _. split; [reflexivity|]. by eapply sysfs_ready_step.
Qed.

Lemma run_loop_returns n : forall v w,
  sysfs_ready v w -> exists v' w', run_loop n v w = Ret v' w'.
Proof.
  induction n as [|n IH]; intros v w Hready; simpl.
  - by exists v, w.
  - destruct (loop_iteration_returns v w Hready) as (v1 & w1 & Hit & Hready1).
    unfold bind. rewrite Hit. by apply IH.
Qed.

(** ** The loop: what stays fixed *)

Lemma drain_command_keeps v w v' w' :
  drain_command v w = Ret v' w' ->
  v_config v' = v_config v /\
  v_max_screen_brightness v' = v_max_screen_brightness v.
Proof.
  unfold drain_command, bind, ret.
  destruct (read_fifo (v_fd v) w) as [[d|] w1| |]; [| |done..];
    by intros [= <- <-].
Qed.

Lemma apply_pending_delta_keeps v w v' w' :
  apply_pending_delta v w = Ret v' w' ->
  v_config v' = v_config v /\
  v_max_screen_brightness v' = v_max_screen_brightness v.
Proof.
  unfold apply_pending_delta, bind, ret.
  destruct (_ =? 0); [by intros [= <- <-]|].
  destruct (adjust_brightness _ _ _ w) as [[] w1| |]; [|done..].
  by intros [= <- <-].
Qed.

(** A completed iteration has kept the configuration and the maximum,
    and the last thing it did was to sleep. *)
Lemma loop_iteration_keeps v w v' w' :
  loop_iteration v w = Ret v' w' ->
  v_config v' = v_config v /\
  v_max_screen_brightness v' = v_max_screen_brightness v /\
  head (trace w') = Some (EvSleep (update_rate (v_config v))).
Proof.
  unfold loop_iteration. unfold bind at 1.
  destruct (drain_command v w) as [v1 w1| |] eqn:Hd; [|done..].
  apply drain_command_keeps in Hd as [Hc1 Hm1].
  unfold bind at 1.
  destruct (apply_pending_delta v1 w1) as [v2 w2| |] eqn:Hp; [|done..].
  apply apply_pending_delta_keeps in Hp as [Hc2 Hm2].
  unfold bind at 1.
  destruct (ambient_recompute v2 w2) as [[] w3| |]; [|done..].
  unfold_prims. intros [= <- <-]. simpl.
  by rewrite Hc2, Hc1, Hm2, Hm1.
Qed.

Lemma run_loop_keeps n : forall v w v' w',
  run_loop n v w = Ret v' w' ->
  v_config v' = v_config v /\
  v_max_screen_brightness v' = v_max_screen_brightness v.
Proof.
  induction n as [|n IH]; intros v w v' w'; simpl.
  - unfold ret. by intros [= <- <-].
  - unfold bind. destruct (loop_iteration v w) as [v1 w1| |] eqn:Hit; [|done..].
    intros Hrun. apply IH in Hrun as [-> ->].
    by apply loop_iteration_keeps in Hit as (-> & -> & _).
Qed.

(** ** The loop: ambient mode *)

Lemma next_ambient_mode_xorb current data :
  next_ambient_mode current data = xorb current (ambient_mode data).
Proof. unfold next_ambient_mode. by destruct (ambient_mode data), current. Qed.

Lemma toggle_requests_messages ms :
  toggle_requests (RdMsg <$> ms) = ambient_requests ms.
Proof. induction ms as [|m ms IH]; [done|]. rewrite fmap_cons. simpl. by f_equal. Qed.

Lemma drain_command_pop v w r rest :
  malloc_ok w = true -> channel w = r :: rest ->
  exists w',
    drain_command v w
    = Ret (match r with RdMsg d => apply_message d v | _ => v end) w' /\
    channel w' = rest /\ malloc_ok w' = true.
Proof.
  intros Hm Hc. unfold drain_command, read_fifo, pipe_read. unfold_prims.
  rewrite Hm, Hc. destruct r; eexists; (split; [reflexivity|]); done.
Qed.

Lemma loop_iteration_ambient v w r rest v' w' :
  malloc_ok w = true -> channel w = r :: rest ->
  loop_iteration v w = Ret v' w' ->
  channel w' = rest /\ malloc_ok w' = true /\
  v_ambient_mode v' = xorb (v_ambient_mode v) (requests_toggle r).
Proof.
  intros Hm Hc. unfold loop_iteration.
  destruct (drain_command_pop v w r rest Hm Hc) as (w1 & Hd & Hc1 & Hm1).
  unfold bind at 1. rewrite Hd.
  unfold bind at 1.
  destruct (apply_pending_delta _ w1) as [v2 w2| |] eqn:Hap; [|done..].
  apply apply_pending_delta_same_pipe in Hap as [[Hc2 Hm2] Ha2].
  unfold bind at 1.
  destruct (ambient_recompute v2 w2) as [[] w3| |] eqn:Ham; [|done..].
  apply ambient_recompute_same_pipe in Ham as [Hc3 Hm3].
  unfold_prims. intros [= <- <-]. simpl.
  rewrite Hc3, Hc2, Hc1, Hm3, Hm2, Hm1, Ha2. repeat split.
  destruct r; simpl; [|by rewrite xorb_false_r..].
  apply next_ambient_mode_xorb.
Qed.

Lemma run_loop_ambient rs : forall v w v' w',
  malloc_ok w = true -> channel w = rs ->
  run_loop (length rs) v w = Ret v' w' ->
  v_ambient_mode v' = xorb (v_ambient_mode v) (Nat.odd (toggle_requests rs)).
Proof.
  induction rs as [|r rs IH]; intros v w v' w' Hm Hc; simpl.
  - unfold ret. intros [= <- <-]. by rewrite xorb_false_r.
  - unfold bind. destruct (loop_iteration v w) as [v1 w1| |] eqn:Hit; [|done..].
    intros Hrun.
    destruct (loop_iteration_ambient _ _ _ _ _ _ Hm Hc Hit) as (Hc1 & Hm1 & Ha1).
    rewrite (IH _ _ _ _ Hm1 Hc1 Hrun), Ha1.
    destruct (requests_toggle r); simpl.
    + rewrite Nat.odd_succ, <- Nat.negb_odd. by destruct (v_ambient_mode v), (Nat.odd _).
    + by rewrite xorb_false_r.
Qed.

(** C1.  The loop reads the messages [ms] one per iteration.  Whatever the
    ambient mode was before, after these iterations it is that value XORed
    with the parity of the number of messages whose [ambient_mode] field is
    true; the iterations all complete while the sysfs files can be opened;
    and a message whose field is false leaves the mode as it is. *)
Theorem ambient_mode_parity (ms : list PipeData) v w :
  malloc_ok w = true ->
  channel w = RdMsg <$> ms ->
  (forall v' w',
      run_loop (length ms) v w = Ret v' w' ->
      v_ambient_mode v' = xorb (v_ambient_mode v) (Nat.odd (ambient_requests ms))) /\
  (sysfs_ready v w -> exists v' w', run_loop (length ms) v w = Ret v' w') /\
  (forall d u, ambient_mode d = false ->
               v_ambient_mode (apply_message d u) = v_ambient_mode u).
Proof.
  intros Hm Hc. split_and!.
  - intros v' w' Hrun. rewrite <- toggle_requests_messages.
    eapply run_loop_ambient; [exact Hm|exact Hc|].
    by rewrite length_fmap.
  - apply run_loop_returns.
  - intros d u Hd. unfold apply_message, next_ambient_mode. simpl. by rewrite Hd.
Qed.

Lemma ambient_mode_parity_witness :
  let ms := [mkPipeData 5 true; mkPipeData 0 false; mkPipeData (- 5) true] in
  let v := Sample.daemon_locals 100 0 10 true in
  let w := with_channel (RdMsg <$> ms) (Sample.machine 100 40 3) in
  (forall v' w',
      run_loop (length ms) v w = Ret v' w' ->
      v_ambient_mode v' = xorb (v_ambient_mode v) (Nat.odd (ambient_requests ms))) /\
  (sysfs_ready v w -> exists v' w', run_loop (length ms) v w = Ret v' w') /\
  (forall d u, ambient_mode d = false ->
               v_ambient_mode (apply_message d u) = v_ambient_mode u).
Proof.
  apply (ambient_mode_parity
           [mkPipeData 5 true; mkPipeData 0 false; mkPipeData (- 5) true]
           (Sample.daemon_locals 100 0 10 true)
           (with_channel (RdMsg <$> [mkPipeData 5 true; mkPipeData 0 false;
                                     mkPipeData (- 5) true])
              (Sample.machine 100 40 3))).
  - reflexivity.
  - reflexivity.
Defined.

(** ** The loop: reads that bring nothing *)

(** C6.  A read of zero bytes is no command: [drain_command] hands the
    locals back as they were, nothing is reported and no file changes, the
    iteration goes on with the delta step, the ambient step and the sleep,
    and it reaches the sleep whenever the sysfs files can be opened. *)
Theorem zero_bytes_is_no_command v w w1 :
  malloc_ok w = true ->
  pipe_read w = Ret RdNone w1 ->
  drain_command v w = Ret v w1 /\
  trace w1 = trace w /\ fs w1 = fs w /\
  loop_iteration v w
  = (v2 <- apply_pending_delta v ;;
     ambient_recompute v2 ;;;
     sleep (update_rate (v_config v2)) ;;;
     ret v2) w1 /\
  (sysfs_ready v w ->
   exists v' w',
     loop_iteration v w = Ret v' w' /\
     head (trace w') = Some (EvSleep (update_rate (v_config v)))).
Proof.
  intros Hm Hrd.
  assert (Hdrain : drain_command v w = Ret v w1).
  { unfold drain_command, read_fifo. unfold bind, ret. by rewrite Hm, Hrd. }
  split; [done|].
  assert (trace w1 = trace w /\ fs w1 = fs w) as [Ht Hf].
  { unfold pipe_read in Hrd. destruct (channel w); by simplify_eq. }
  split; [done|]. split; [done|]. split.
  - unfold loop_iteration. unfold bind at 1. by rewrite Hdrain.
  - intros Hready.
    destruct (loop_iteration_returns v w Hready) as (v' & w' & Hit & _).
    exists v', w'. split; [done|].
    by apply loop_iteration_keeps in Hit as (_ & _ & ?).
Qed.

Lemma zero_bytes_is_no_command_witness :
  let v := Sample.daemon_locals 100 0 10 false in
  let w := with_channel [RdNone] (Sample.machine 100 90 3) in
  let w1 := with_channel [] (Sample.machine 100 90 3) in
  drain_command v w = Ret v w1 /\
  trace w1 = trace w /\ fs w1 = fs w /\
  loop_iteration v w
  = (v2 <- apply_pending_delta v ;;
     ambient_recompute v2 ;;;
     sleep (update_rate (v_config v2)) ;;;
     ret v2) w1 /\
  (sysfs_ready v w ->
   exists v' w',
     loop_iteration v w = Ret v' w' /\
     head (trace w') = Some (EvSleep (update_rate (v_config v)))).
Proof.
  apply (zero_bytes_is_no_command (Sample.daemon_locals 100 0 10 false)
           (with_channel [RdNone] (Sample.machine 100 90 3))
           (with_channel [] (Sample.machine 100 90 3))).
  - reflexivity.
  - reflexivity.
Defined.

Lemma read_fifo_no_message fd w :
  (forall d w1, read_fifo fd w <> Ret (Some d) w1) ->
  exists w1 evs,
    read_fifo fd w = Ret None w1 /\ fs w1 = fs w /\
    trace w1 = evs ++ trace w /\
    forall p val, EvWrite p val ∉ evs.
Proof.
  intros Hno. unfold read_fifo, pipe_read in *. unfold_prims.
  destruct (malloc_ok w).
  - destruct (channel w) as [|[d| |] rest].
    + exists w, []. repeat split; try done. intros p val H. by apply elem_of_nil in H.
    + by destruct (Hno d (with_channel rest w)).
    + eexists _, []. repeat split; try done. intros p val H. by apply elem_of_nil in H.
    + eexists _, [_]. repeat split; try done.
      by intros p val [=]%list_elem_of_singleton.
  - eexists _, [_]. repeat split; try done.
    by intros p val [=]%list_elem_of_singleton.
Qed.

(** C9.  An iteration that reads no message, with no delta pending and
    ambient mode off, returns the locals it was given (ambient mode, pending
    delta and maximum included), changes no file and writes no brightness. *)
Theorem idle_iteration_writes_nothing v w :
  (forall d w1, read_fifo (v_fd v) w <> Ret (Some d) w1) ->
  v_brightness_adjustment v = 0 ->
  v_ambient_mode v = false ->
  exists w',
    loop_iteration v w = Ret v w' /\
    fs w' = fs w /\
    (forall p val, EvWrite p val ∉ events_since w w').
Proof.
  intros Hno Hd Ha.
  destruct (read_fifo_no_message _ _ Hno) as (w1 & evs & Hrd & Hfs & Htr & Hev).
  assert (Hdrain : drain_command v w = Ret v w1).
  { unfold drain_command, bind. by rewrite Hrd. }
  unfold loop_iteration. unfold bind at 1. rewrite Hdrain.
  unfold apply_pending_delta. rewrite Hd.
  change (0 =? 0) with true. cbv iota. unfold bind at 1, ret at 1.
  unfold ambient_recompute. rewrite Ha. unfold_prims.
  eexists. split; [reflexivity|]. simpl. split; [done|].
  intros p val.
  rewrite (events_since_app w _ (EvSleep (update_rate (v_config v)) :: evs))
    by (simpl; by rewrite Htr).
  intros [H|H]%elem_of_cons; [done|]. by apply (Hev p val).
Qed.

Lemma idle_iteration_writes_nothing_witness :
  let v := Sample.daemon_locals 100 0 10 false in
  let w := Sample.machine 100 90 3 in
  exists w',
    loop_iteration v w = Ret v w' /\
    fs w' = fs w /\
    (forall p val, EvWrite p val ∉ events_since w w').
Proof.
  apply (idle_iteration_writes_nothing (Sample.daemon_locals 100 0 10 false)
           (Sample.machine 100 90 3)).
  - intros d w1. simpl. discriminate.
  - reflexivity.
  - reflexivity.
Defined.

(** ** Lifecycle *)

Lemma pid_neq_fifo : PID_FILE_PATH <> FIFO_PATH.
Proof. done. Qed.

(** The handler touches no node but the PID marker. *)
Lemma signal_handler_keeps_other_nodes s w path :
  path <> PID_FILE_PATH ->
  fs (final_world (signal_handler s w)) !! path = fs w !! path.
Proof.
  intros Hne. unfold signal_handler, remove. unfold_prims.
  destruct (fs w !! PID_FILE_PATH) eqn:Hpid; simpl; [|done].
  by rewrite lookup_delete_ne.
Qed.

(** [stop_daemon], the other way out, removes both nodes (when the
    number in the marker does not make [kill] signal the caller). *)
Lemma stop_daemon_removes_both w scan :
  fs w !! PID_FILE_PATH = Some (RegFile scan) ->
  (forall pid, scan = Some pid -> kill_reaches_caller pid w = false) ->
  exists w',
    stop_daemon w = Ret tt w' /\
    fs w' !! PID_FILE_PATH = None /\ fs w' !! FIFO_PATH = None.
Proof.
  intros Hpid Hself. unfold stop_daemon, kill. unfold_prims. rewrite !Hpid.
  destruct scan as [pid|];
    [rewrite (Hself pid eq_refl); destruct (decide (pid ∈ procs w))|]; simpl;
    rewrite ?Hpid; simpl;
    (destruct (delete PID_FILE_PATH (fs w) !! FIFO_PATH) eqn:Hf; simpl;
     eexists; (split; [reflexivity|]); simpl; split_and!;
     first [ by rewrite lookup_delete_eq
           | by rewrite lookup_delete_ne, lookup_delete_eq
           | done ]).
Qed.

(** C4.  What the code does when a daemon started by [start_daemon]
    receives SIGTERM or SIGINT: both signals run [signal_handler], the
    process exits with 0 and the PID marker is gone, but the node of the
    pipe is still in the file system. *)
Lemma signal_handler_forgets_pipe :
  let w1 := final_world (start_daemon (Sample.machine 100 90 3)) in
  disposition w1 SIGTERM = SigHandler /\
  disposition w1 SIGINT = SigHandler /\
  fs w1 !! PID_FILE_PATH = Some (RegFile (Some 4242)) /\
  fs w1 !! FIFO_PATH = Some Fifo /\
  exit_code (deliver SIGTERM w1) = Some 0 /\
  fs (final_world (deliver SIGTERM w1)) !! PID_FILE_PATH = None /\
  fs (final_world (deliver SIGTERM w1)) !! FIFO_PATH = Some Fifo /\
  exit_code (deliver SIGINT w1) = Some 0 /\
  fs (final_world (deliver SIGINT w1)) !! PID_FILE_PATH = None /\
  fs (final_world (deliver SIGINT w1)) !! FIFO_PATH = Some Fifo.
Proof. split_and!; vm_compute; reflexivity. Qed.

Lemma stop_daemon_without_pid w :
  (forall pid, fs w !! PID_FILE_PATH <> Some (RegFile (Some pid))) ->
  exists w' evs,
    stop_daemon w = Ret tt w' /\
    trace w' = evs ++ trace w /\
    (forall pid s, EvKill pid s ∉ evs) /\
    (EvPerror "Error opening the PID file" ∈ evs
     \/ EvPrint "Invalid PID file content" ∈ evs).
Proof.
  intros Hno. unfold stop_daemon. unfold_prims.
  destruct (fs w !! PID_FILE_PATH) as [[[pid|]|]|] eqn:Hpid; simpl.
  - by destruct (Hno pid).
  - repeat (rewrite Hpid; simpl).
    destruct (delete PID_FILE_PATH (fs w) !! FIFO_PATH); simpl.
    + eexists _, [_; _; _]. split; [reflexivity|]. split; [done|]. split.
      * intros pid s H. by repeat (apply elem_of_cons in H as [?|H]; [done|]);
          apply elem_of_nil in H.
      * right. set_solver.
    + eexists _, [_; _; _]. split; [reflexivity|]. split; [done|]. split.
      * intros pid s H. by repeat (apply elem_of_cons in H as [?|H]; [done|]);
          apply elem_of_nil in H.
      * right. set_solver.
  - eexists _, [_]. split; [reflexivity|]. split; [done|]. split.
    + by intros pid s [=]%list_elem_of_singleton.
    + left. set_solver.
  - eexists _, [_]. split; [reflexivity|]. split; [done|]. split.
    + by intros pid s [=]%list_elem_of_singleton.
    + left. set_solver.
Qed.

(** Options that only fill in the request are consumed without effect on
    the world. *)
Lemma parse_options_requests_app pre rest : forall v w,
  forallb request_option pre = true ->
  parse_options (pre ++ rest) v w
  = parse_options rest
      (mkLocals (v_ambient_mode v || has_ambient pre)
         (last_set pre (v_brightness_adjustment v))
         (v_daemon_mode v) (v_print_status v) (v_config v) (v_fd v)
         (v_pid_file v) (v_max_screen_brightness v)) w.
Proof.
  induction pre as [|o pre IH]; intros v w Hall.
  - simpl. rewrite orb_false_r. by destruct v.
  - simpl in Hall. apply andb_prop in Hall as [Ho Hall].
    destruct o; try done; simpl; rewrite IH by done; simpl.
    + by rewrite orb_true_r.
    + done.
Qed.

Lemma parse_options_requests opts v w :
  forallb request_option opts = true ->
  parse_options opts v w
  = Ret (mkLocals (v_ambient_mode v || has_ambient opts)
           (last_set opts (v_brightness_adjustment v))
           (v_daemon_mode v) (v_print_status v) (v_config v) (v_fd v)
           (v_pid_file v) (v_max_screen_brightness v)) w.
Proof.
  intros Hall. rewrite <- (app_nil_r opts) at 1.
  by rewrite parse_options_requests_app.
Qed.

(** C8.  [--kill] (after any [-a] and [-s] options) with the PID marker
    missing or holding no number: [stop_daemon] reports it and returns, no
    process is signalled, and the command exits with code 0. *)
Theorem kill_without_pid_exits_zero n pre rest c w :
  config_src w = Some c ->
  forallb request_option pre = true ->
  (forall pid, fs w !! PID_FILE_PATH <> Some (RegFile (Some pid))) ->
  exists w' evs,
    stop_daemon w = Ret tt w' /\
    main n (pre ++ OptKill :: rest) w = Exit 0 w' /\
    trace w' = evs ++ trace w /\
    (forall pid s, EvKill pid s ∉ evs) /\
    (EvPerror "Error opening the PID file" ∈ evs
     \/ EvPrint "Invalid PID file content" ∈ evs).
Proof.
  intros Hc Hpre Hno.
  destruct (stop_daemon_without_pid w Hno) as (w' & evs & Hstop & Htr & Hk & Hrep).
  exists w', evs. split; [done|]. split; [|done].
  unfold main, main_startup, read_config_data, fopen_r.
  unfold bind at 1. unfold bind at 1. rewrite Hc.
  unfold bind at 1. unfold bind at 1.
  rewrite parse_options_requests_app by done. simpl parse_options.
  unfold bind at 1. by rewrite Hstop.
Qed.

Lemma kill_without_pid_exits_zero_witness :
  let w := Sample.with_daemon 77 None (Sample.machine 100 90 3) in
  exists w' evs,
    stop_daemon w = Ret tt w' /\
    main 0 ([OptSet 5] ++ OptKill :: []) w = Exit 0 w' /\
    trace w' = evs ++ trace w /\
    (forall pid s, EvKill pid s ∉ evs) /\
    (EvPerror "Error opening the PID file" ∈ evs
     \/ EvPrint "Invalid PID file content" ∈ evs).
Proof.
  apply (kill_without_pid_exits_zero 0 [OptSet 5] [] Sample.config
           (Sample.with_daemon 77 None (Sample.machine 100 90 3))).
  - reflexivity.
  - reflexivity.
  - intros pid. vm_compute. discriminate.
Defined.

(** ** The client side *)

(** C10.  With the PID marker present and only [-a] and [-s] options on
    the command line, a client whose startup succeeds (configuration
    loaded, [max_brightness] readable, the pipe present with the daemon
    reading it) writes exactly one record to the pipe and exits with 0.
    With no option at all the record is [{0, false}], and a record with
    delta 0 puts 0 in place of whatever delta the daemon still holds
    without touching its ambient mode. *)
Theorem client_sends_one_message n opts c w scan mx :
  config_src w = Some c ->
  fs w !! PID_FILE_PATH = Some (RegFile scan) ->
  forallb request_option opts = true ->
  fs w !! path_join (screen_backlight_path c) "max_brightness" = Some (RegFile mx) ->
  fs w !! FIFO_PATH = Some Fifo ->
  reader_open w = true ->
  (exists w',
      main n opts w = Exit 0 w' /\
      events_since w w' = [EvPipeWrite (message_of opts)] /\
      channel w' = channel w ++ [RdMsg (message_of opts)]) /\
  message_of [] = mkPipeData 0 false /\
  (forall u,
      v_brightness_adjustment (apply_message (mkPipeData 0 false) u) = 0 /\
      v_ambient_mode (apply_message (mkPipeData 0 false) u) = v_ambient_mode u).
Proof.
  intros Hc Hpid Hall Hmax Hfifo Hrd. split; [|by split].
  unfold main, main_startup, read_config_data, fopen_r.
  unfold bind at 1. unfold bind at 1. rewrite Hc.
  unfold bind at 1. rewrite Hpid.
  unfold bind at 1. rewrite parse_options_requests by done. simpl.
  unfold bind at 1. unfold ret at 1.
  unfold bind at 1. unfold read_file, bind, fopen_r, fscanf_d, ret. cbv zeta.
  rewrite !Hmax. unfold write_fifo.
  destruct mx as [m|]; simpl; rewrite Hfifo, Hrd;
    (eexists; split; [reflexivity|]; split; [by apply (events_since_app _ _ [_])|done]).
Qed.

Lemma client_sends_one_message_witness :
  let w := Sample.with_daemon 77 (Some 77) (Sample.machine 100 90 3) in
  (exists w',
      main 0 [OptSet 5; OptAmbient] w = Exit 0 w' /\
      events_since w w' = [EvPipeWrite (message_of [OptSet 5; OptAmbient])] /\
      channel w' = channel w ++ [RdMsg (message_of [OptSet 5; OptAmbient])]) /\
  message_of [] = mkPipeData 0 false /\
  (forall u,
      v_brightness_adjustment (apply_message (mkPipeData 0 false) u) = 0 /\
      v_ambient_mode (apply_message (mkPipeData 0 false) u) = v_ambient_mode u).
Proof.
  apply (client_sends_one_message 0 [OptSet 5; OptAmbient] Sample.config
           (Sample.with_daemon 77 (Some 77) (Sample.machine 100 90 3))
           (Some 77) (Some 100)).
  - reflexivity.
  - vm_compute. reflexivity.
  - reflexivity.
  - vm_compute. reflexivity.
  - vm_compute. reflexivity.
  - reflexivity.
Defined.

(** An option [getopt_long] does not know is none of [--daemon],
    [--kill], [--help], [--print-status], and it ends [main] with code 1
    before anything is sent, PID marker or not. *)
Lemma unknown_option_sends_nothing :
  let w := Sample.with_daemon 77 (Some 77) (Sample.machine 100 90 3) in
  fs w !! PID_FILE_PATH = Some (RegFile (Some 77)) /\
  exit_code (main 0 [OptUnknown] w) = Some 1 /\
  run_events (main 0 [OptUnknown]) w = [EvPrint "Unknown option"] /\
  channel (final_world (main 0 [OptUnknown] w)) = channel w.
Proof. split_and!; vm_compute; reflexivity. Qed.

(** ** Startup: the minimum is converted once *)

Lemma parse_options_keeps opts : forall v w v' w',
  parse_options opts v w = Ret v' w' ->
  v_config v' = v_config v /\ v_pid_file v' = v_pid_file v.
Proof.
  induction opts as [|o opts IH]; intros v w v' w'; simpl.
  - unfold ret. by intros [= <- <-].
  - destruct o; try (intros H; by apply IH in H).
    + unfold bind, display_usage. unfold_prims. done.
    + unfold bind at 1.
      destruct ((if v_pid_file v then ret tt else start_daemon) w) as [[] w1| |];
        [|done..].
      intros H. by apply IH in H.
    + unfold bind at 1. destruct (stop_daemon w); done.
    + unfold_prims. done.
Qed.

Lemma main_startup_min_brightness opts c w v w' :
  config_src w = Some c ->
  main_startup opts w = Ret v w' ->
  min_brightness (v_config v)
  = percent_of (v_max_screen_brightness v) (min_brightness c).
Proof.
  intros Hc. unfold main_startup, read_config_data, fopen_r.
  unfold bind at 1. rewrite Hc. unfold bind at 1. unfold bind at 1.
  destruct (parse_options opts _ w) as [v1 w1| |] eqn:Hparse; [|done..].
  apply parse_options_keeps in Hparse as [Hcfg _]. simpl in Hcfg.
  destruct (v_print_status v1).
  { unfold bind, print_info. unfold_prims. done. }
  unfold bind at 1.
  destruct ((if v_daemon_mode v1 then open_pipe else ret (v_fd v1)) w1)
    as [fd w2| |]; [|done..].
  unfold bind at 1. simpl.
  destruct (read_file _ _ w2) as [max w3| |]; [|done..].
  unfold bind at 1. simpl.
  match goal with |- context [match ?m w3 with _ => _ end] => destruct (m w3) as [[] w4| |] end;
    [|done..].
  unfold ret. intros [= <- <-]. simpl. by rewrite Hcfg.
Qed.

(** ** Ambient recomputation *)

Lemma ambient_value_floor cfg reading : min_brightness cfg <= ambient_value cfg reading.
Proof.
  unfold ambient_value. cbv zeta.
  destruct (Z.gtb_spec (int_of_double (dmul (double_of_int reading) (brightness_factor cfg)))
              (min_brightness cfg)); lia.
Qed.

Lemma clamp_brightness_floor a lo max :
  lo <= a -> lo <= max -> lo <= clamp_brightness a max.
Proof.
  intros. unfold clamp_brightness.
  destruct (Z.ltb_spec a 1); [lia|].
  destruct (Z.gtb_spec a max); lia.
Qed.

(** C5.  With [min_brightness] a percentage of 0 to 100 converted at
    startup against a maximum the device can report (0 to [INT_MAX]), the
    ambient step never writes a value below the converted minimum,
    whatever the sensor reads and whatever the factor is (negative, zero,
    infinite or NaN included); and it does write when the sensor file and
    the brightness file can be opened. *)
Theorem ambient_never_below_minimum v w pct :
  0 <= pct <= 100 ->
  0 <= v_max_screen_brightness v <= INT_MAX ->
  min_brightness (v_config v) = percent_of (v_max_screen_brightness v) pct ->
  (forall p val,
      EvWrite p val ∈ run_events (ambient_recompute v) w ->
      min_brightness (v_config v) <= val) /\
  (v_ambient_mode v = true ->
   regular_at w (path_join (sensor_file_path (v_config v)) (sensor_file (v_config v))) ->
   path_join (screen_backlight_path (v_config v)) "brightness" ∈ writable w ->
   exists w' val,
     ambient_recompute v w = Ret tt w' /\
     events_since w w'
     = [EvWrite (path_join (screen_backlight_path (v_config v)) "brightness") val] /\
     min_brightness (v_config v) <= val).
Proof.
  intros Hpct Hmax Hmin.
  assert (Hle : min_brightness (v_config v) <= v_max_screen_brightness v).
  { rewrite Hmin. by apply percent_of_le_max. }
  assert (Hfloor : forall reading,
             min_brightness (v_config v)
             <= clamp_brightness (ambient_value (v_config v) reading)
                  (v_max_screen_brightness v)).
  { intros reading. apply clamp_brightness_floor; [apply ambient_value_floor|done]. }
  split.
  - intros p val. unfold run_events, ambient_recompute.
    destruct (v_ambient_mode v).
    + unfold bind.
      destruct (read_file_cases (sensor_file_path (v_config v)) (sensor_file (v_config v)) w)
        as [[r ->]|(w' & -> & Hev)].
      * destruct (decide (path_join (screen_backlight_path (v_config v)) "brightness"
                            ∈ writable w)) as [Hw|Hw].
        -- destruct (set_backlight_brightness_run (screen_backlight_path (v_config v))
                       (ambient_value (v_config v) r) (v_max_screen_brightness v) w Hw)
             as (w' & -> & Htr & _).
           simpl. rewrite (events_since_app w w' [_]) by done.
           intros [= _ ->]%list_elem_of_singleton. apply Hfloor.
        -- rewrite set_backlight_brightness_fail by done. simpl.
           rewrite (events_since_app w _ [_]) by done.
           by intros [=]%list_elem_of_singleton.
      * simpl. intros H. by apply Hev in H.
    + simpl. rewrite events_since_refl by done. by intros H%elem_of_nil.
  - intros Ha Hs Hw. unfold ambient_recompute. rewrite Ha.
    unfold bind.
    destruct (read_file_regular _ _ _ Hs) as [r ->].
    destruct (set_backlight_brightness_run (screen_backlight_path (v_config v))
                (ambient_value (v_config v) r) (v_max_screen_brightness v) w Hw)
      as (w' & -> & Htr & _).
    exists w', (clamp_brightness (ambient_value (v_config v) r) (v_max_screen_brightness v)).
    split; [done|]. split; [by apply (events_since_app w w' [_])|apply Hfloor].
Qed.

Lemma ambient_never_below_minimum_witness :
  let v := Sample.daemon_locals 100 0 10 true in
  let w := Sample.machine 100 90 3 in
  (forall p val,
      EvWrite p val ∈ run_events (ambient_recompute v) w ->
      min_brightness (v_config v) <= val) /\
  (v_ambient_mode v = true ->
   regular_at w (path_join (sensor_file_path (v_config v)) (sensor_file (v_config v))) ->
   path_join (screen_backlight_path (v_config v)) "brightness" ∈ writable w ->
   exists w' val,
     ambient_recompute v w = Ret tt w' /\
     events_since w w'
     = [EvWrite (path_join (screen_backlight_path (v_config v)) "brightness") val] /\
     min_brightness (v_config v) <= val).
Proof.
  apply (ambient_never_below_minimum (Sample.daemon_locals 100 0 10 true)
           (Sample.machine 100 90 3) 10).
  - lia.
  - vm_compute. split; discriminate.
  - vm_compute. reflexivity.
Defined.

(** The end-to-end example of the spec: factor 2.0, minimum 10 percent,
    maximum 100; a reading of 3 gives max(6, 10) = 10 and a reading of 60
    gives max(120, 10) clamped to 100. *)
Example ambient_end_to_end :
  run_events (ambient_recompute (Sample.daemon_locals 100 0 (percent_of 100 10) true))
    (Sample.machine 100 50 3)
  = [EvWrite (Sample.bl "brightness") 10] /\
  run_events (ambient_recompute (Sample.daemon_locals 100 0 (percent_of 100 10) true))
    (Sample.machine 100 50 60)
  = [EvWrite (Sample.bl "brightness") 100].
Proof. split; vm_compute; reflexivity. Qed.

(** Outside the range of a percentage the maximum wins over the minimum:
    [min_brightness=150] against a maximum of 100 converts to 150, and the
    ambient step writes 100. *)
Example minimum_above_maximum_is_capped :
  percent_of 100 150 = 150 /\
  run_events (ambient_recompute (Sample.daemon_locals 100 0 (percent_of 100 150) true))
    (Sample.machine 100 50 3)
  = [EvWrite (Sample.bl "brightness") 100].
Proof. split; vm_compute; reflexivity. Qed.

(** The same input read against the claim: the minimum converted at
    startup is 150, the ambient step runs to its end, and the one value it
    writes, 100, is below that minimum. *)
Lemma ambient_writes_below_minimum :
  let v := Sample.daemon_locals 100 0 (percent_of 100 150) true in
  let w := Sample.machine 100 50 3 in
  (min_brightness (v_config v) = percent_of (v_max_screen_brightness v) 150 /\
   min_brightness (v_config v) = 150) /\
  run_events (ambient_recompute v) w = [EvWrite (Sample.bl "brightness") 100] /\
  exists p val,
    EvWrite p val ∈ run_events (ambient_recompute v) w /\
    val < min_brightness (v_config v).
Proof.
  split; [split; vm_compute; reflexivity|].
  split; [vm_compute; reflexivity|].
  exists (Sample.bl "brightness"), 100. split.
  - replace (run_events _ _) with [EvWrite (Sample.bl "brightness") 100]
      by (vm_compute; reflexivity).
    apply list_elem_of_singleton. reflexivity.
  - vm_compute. reflexivity.
Qed.

(** ** Counting events *)

Lemma count_events_app f a b :
  count_events f (a ++ b) = (count_events f a + count_events f b)%nat.
Proof. induction a as [|e a IH]; simpl; [done|]. rewrite IH. lia. Qed.

(** ** Lifecycle: starting and stopping *)

Lemma start_daemon_success w :
  fork_ret w = 0 -> 0 <= setsid_ret w -> PID_FILE_PATH ∈ writable w ->
  exists w',
    start_daemon w = Ret tt w' /\
    fs w' = (match fs w !! FIFO_PATH with
             | Some _ => <[PID_FILE_PATH := RegFile (Some (self_pid w))]> (fs w)
             | None => <[FIFO_PATH := Fifo]>
                         (<[PID_FILE_PATH := RegFile (Some (self_pid w))]> (fs w))
             end) /\
    trace w' = EvWrite PID_FILE_PATH (self_pid w) :: trace w /\
    writable w' = writable w /\ procs w' = procs w /\
    fork_ret w' = 0 /\ setsid_ret w' = setsid_ret w /\ self_pid w' = self_pid w /\
    config_src w' = config_src w /\ channel w' = channel w /\
    malloc_ok w' = malloc_ok w /\ reader_open w' = reader_open w /\
    disposition w' SIGTERM = SigHandler /\
    disposition w' SIGINT = SigHandler /\
    disposition w' SIGHUP = disposition w SIGHUP.
Proof.
  intros Hf Hs Hw. unfold start_daemon. unfold_prims. rewrite Hf. simpl.
  destruct (Z.ltb_spec (setsid_ret w) 0); [lia|]. simpl.
  destruct (decide _) as [_|]; [|done]. simpl.
  rewrite lookup_insert_ne by done.
  rewrite lookup_insert_ne by done.
  destruct (fs w !! FIFO_PATH) eqn:Hfifo; simpl;
    eexists; (split; [reflexivity|]); simpl;
    rewrite insert_insert_eq; split_and!; done.
Qed.

(** X1.  [start_daemon] returns only in the child of a successful [fork]
    with a new session and a PID file it could create; then the marker holds
    the process id, a node sits at the path of the pipe and the handler is
    installed for SIGTERM and SIGINT only.  In every other case the process
    leaves (code 0 in the parent, 1 on failure) and the file system is as it
    was: no marker is left behind by a start that failed. *)
Theorem start_daemon_outcome w :
  (fork_ret w = 0 /\ 0 <= setsid_ret w /\ PID_FILE_PATH ∈ writable w ->
   exists w',
     start_daemon w = Ret tt w' /\
     fs w' !! PID_FILE_PATH = Some (RegFile (Some (self_pid w))) /\
     is_Some (fs w' !! FIFO_PATH) /\
     (fs w !! FIFO_PATH = None -> fs w' !! FIFO_PATH = Some Fifo) /\
     disposition w' SIGTERM = SigHandler /\
     disposition w' SIGINT = SigHandler /\
     disposition w' SIGHUP = disposition w SIGHUP) /\
  (~ (fork_ret w = 0 /\ 0 <= setsid_ret w /\ PID_FILE_PATH ∈ writable w) ->
   exists code w',
     start_daemon w = Exit code w' /\
     fs w' = fs w /\
     (code = 0 <-> 0 < fork_ret w) /\
     (code = 0 \/ code = EXIT_FAILURE)).
Proof.
  split.
  - intros (Hf & Hs & Hw).
    destruct (start_daemon_success w Hf Hs Hw)
      as (w' & Hrun & Hfs & _ & _ & _ & _ & _ & _ & _ & _ & _ & _ & Ht & Hi & Hh).
    exists w'. split; [done|]. rewrite Hfs.
    destruct (fs w !! FIFO_PATH) eqn:Hfifo.
    + rewrite lookup_insert_eq, lookup_insert_ne, Hfifo by done.
      split_and!; first [done|by eexists].
    + rewrite lookup_insert_ne, !lookup_insert_eq by done.
      split_and!; first [done|by eexists].
  - intros Hnot. unfold start_daemon. unfold_prims.
    destruct (Z.ltb_spec (fork_ret w) 0) as [Hneg|Hnn]; simpl.
    { eexists _, _. split; [reflexivity|]. simpl. unfold EXIT_FAILURE.
      split_and!; [done|lia|by right]. }
    destruct (Z.gtb_spec (fork_ret w) 0) as [Hpos|Hzero]; simpl.
    { eexists _, _. split; [reflexivity|]. split_and!; [done|lia|by left]. }
    destruct (Z.ltb_spec (setsid_ret w) 0) as [Hsid|Hsid]; simpl.
    { eexists _, _. split; [reflexivity|]. simpl. unfold EXIT_FAILURE.
      split_and!; [done|lia|by right]. }
    destruct (decide (PID_FILE_PATH ∈ writable w)) as [Hw|Hw]; simpl.
    { exfalso. apply Hnot. split_and!; [lia|done|done]. }
    eexists _, _. split; [reflexivity|]. simpl. unfold EXIT_FAILURE.
    split_and!; [done|lia|by right].
Qed.




(** The number in the marker makes [kill] signal the caller itself: under
    the default disposition the process is ended by the signal inside
    [stop_daemon], before anything is removed. *)
Lemma stop_daemon_signals_caller w pid :
  fs w !! PID_FILE_PATH = Some (RegFile (Some pid)) ->
  kill_reaches_caller pid w = true ->
  disposition w SIGTERM = SigDefault ->
  stop_daemon w
  = Exit (128 + signum SIGTERM) (with_trace (EvKill pid SIGTERM :: trace w) w).
Proof.
  intros Hpid Hself Hdisp. unfold stop_daemon, kill, deliver. unfold_prims.
  rewrite !Hpid, Hself. simpl. by rewrite Hdisp.
Qed.









(** ** The pipe: order of delivery *)

Lemma write_fifo_queues value ambient w :
  fs w !! FIFO_PATH = Some Fifo -> reader_open w = true ->
  exists w',
    write_fifo value ambient w = Ret tt w' /\
    channel w' = channel w ++ [RdMsg (mkPipeData value ambient)] /\
    fs w' = fs w /\ reader_open w' = true /\ malloc_ok w' = malloc_ok w /\
    trace w' = EvPipeWrite (mkPipeData value ambient) :: trace w.
Proof. intros Hf Hr. unfold write_fifo. rewrite Hf, Hr. by eexists. Qed.

Lemma send_all_queues ms : forall w,
  fs w !! FIFO_PATH = Some Fifo -> reader_open w = true ->
  exists w',
    send_all ms w = Ret tt w' /\
    channel w' = channel w ++ (RdMsg <$> ms) /\
    malloc_ok w' = malloc_ok w /\
    trace w' = reverse (EvPipeWrite <$> ms) ++ trace w.
Proof.
  induction ms as [|[d a] ms IH]; intros w Hf Hr.
  - exists w. simpl. by rewrite app_nil_r.
  - destruct (write_fifo_queues d a w Hf Hr)
      as (w1 & Hrun1 & Hc1 & Hf1 & Hr1 & Hm1 & Htr1).
    destruct (IH w1) as (w2 & Hrun2 & Hc2 & Hm2 & Htr2); [congruence|done|].
    exists w2. split_and!.
    + simpl. unfold bind. by rewrite Hrun1.
    + rewrite Hc2, Hc1, <- app_assoc. done.
    + congruence.
    + rewrite Htr2, Htr1, fmap_cons, reverse_cons, <- app_assoc. done.
Qed.

Lemma read_all_drains ms fd : forall w,
  malloc_ok w = true -> channel w = RdMsg <$> ms ->
  exists w',
    read_all (S (length ms)) fd w = Ret ((Some <$> ms) ++ [None]) w' /\
    channel w' = [] /\ trace w' = trace w.
Proof.
  induction ms as [|m ms IH]; intros w Hm Hc.
  - simpl. unfold bind, read_fifo, pipe_read. unfold_prims.
    rewrite Hm. simpl in Hc. rewrite Hc. by exists w.
  - change (read_all (S (length (m :: ms))) fd)
      with (d <- read_fifo fd ;; rest <- read_all (S (length ms)) fd ;; ret (d :: rest)).
    unfold bind at 1. unfold read_fifo, pipe_read. unfold bind at 1 2.
    rewrite Hm. rewrite fmap_cons in Hc. rewrite Hc. unfold ret at 1.
    edestruct (IH (with_channel (RdMsg <$> ms) w)) as (w' & Hrun & Hc' & Htr'); [done..|].
    unfold bind. rewrite Hrun. by exists w'.
Qed.

(** X5.  The pipe keeps the order of the clients: records written by
    successive [write_fifo] calls come out of successive [read_fifo] calls
    in the same order, each once, and the read after the last one returns
    NULL. *)
Theorem pipe_delivers_in_order ms fd w :
  fs w !! FIFO_PATH = Some Fifo ->
  reader_open w = true ->
  malloc_ok w = true ->
  channel w = [] ->
  exists w',
    (send_all ms ;;; read_all (S (length ms)) fd) w
    = Ret ((Some <$> ms) ++ [None]) w' /\
    channel w' = [] /\
    events_since w w' = reverse (EvPipeWrite <$> ms).
Proof.
  intros Hf Hr Hm Hc.
  destruct (send_all_queues ms w Hf Hr) as (w1 & Hrun & Hc1 & Hm1 & Htr1).
  rewrite Hc in Hc1. simpl in Hc1.
  destruct (read_all_drains ms fd w1) as (w2 & Hrun2 & Hc2 & Htr2); [congruence|done|].
  exists w2. unfold bind. rewrite Hrun. split_and!; try done.
  apply events_since_app. congruence.
Qed.

Lemma pipe_delivers_in_order_witness :
  let ms := [mkPipeData 10 false; mkPipeData 0 true; mkPipeData (- 10) false] in
  let w := Sample.with_daemon 77 (Some 77) (Sample.machine 100 90 3) in
  exists w',
    (send_all ms ;;; read_all (S (length ms)) 3) w
    = Ret ((Some <$> ms) ++ [None]) w' /\
    channel w' = [] /\
    events_since w w' = reverse (EvPipeWrite <$> ms).
Proof.
  apply (pipe_delivers_in_order
           [mkPipeData 10 false; mkPipeData 0 true; mkPipeData (- 10) false] 3
           (Sample.with_daemon 77 (Some 77) (Sample.machine 100 90 3))).
  - vm_compute. reflexivity.
  - reflexivity.
  - reflexivity.
  - reflexivity.
Defined.

(** ** The command line *)

Lemma parse_options_flags_app pre rest : forall v w,
  forallb flag_option pre = true ->
  parse_options (pre ++ rest) v w = parse_options rest (after_flags pre v) w.
Proof.
  induction pre as [|o pre IH]; intros v w Hall.
  - simpl. unfold after_flags. simpl. rewrite !orb_false_r. by destruct v.
  - simpl in Hall. apply andb_prop in Hall as [Ho Hall].
    destruct o; try done; simpl; rewrite IH by done; unfold after_flags; simpl;
      by rewrite ?orb_true_r.
Qed.

Lemma request_option_flag opts :
  forallb request_option opts = true ->
  forallb flag_option opts = true /\ has_print_status opts = false.
Proof.
  induction opts as [|o opts IH]; [done|]. simpl.
  intros [Ho Hall]%andb_prop. destruct (IH Hall) as [-> ->].
  by destruct o.
Qed.

Lemma main_startup_eq opts c w :
  config_src w = Some c ->
  main_startup opts w
  = (v <- parse_options opts (initial_locals c (pid_file_open w)) ;;
     after_options v) w.
Proof.
  intros Hc. unfold main_startup, read_config_data, fopen_r.
  unfold bind at 1. rewrite Hc. reflexivity.
Qed.

Lemma main_flags pre rest n c w :
  config_src w = Some c ->
  forallb flag_option pre = true ->
  main n (pre ++ rest) w
  = (v <- (v <- parse_options rest
                  (after_flags pre (initial_locals c (pid_file_open w))) ;;
           after_options v) ;;
     if v_daemon_mode v then run_loop n v else exit 0) w.
Proof.
  intros Hc Hpre. unfold main. unfold bind at 1.
  rewrite (main_startup_eq _ c) by done.
  unfold bind at 1. rewrite parse_options_flags_app by done. reflexivity.
Qed.

Lemma main_only_flags opts n c w :
  config_src w = Some c ->
  forallb flag_option opts = true ->
  main n opts w
  = (v <- after_options (after_flags opts (initial_locals c (pid_file_open w))) ;;
     if v_daemon_mode v then run_loop n v else exit 0) w.
Proof.
  intros Hc Hflags. rewrite <- (app_nil_r opts) at 1.
  by rewrite (main_flags _ _ _ c).
Qed.

(** X6.  [--help] and an option [getopt_long] does not know end the run on
    the spot, whatever [-a], [-s] and [-p] options precede them and whatever
    follows on the command line: the usage text or the complaint is printed,
    the exit code is 0 for help and 1 for the unknown option, and nothing is
    written, removed, signalled or sent. *)
Theorem help_and_unknown_end_the_run n pre rest c w :
  config_src w = Some c ->
  forallb flag_option pre = true ->
  (exists w',
     main n (pre ++ OptHelp :: rest) w = Exit 0 w' /\
     fs w' = fs w /\ channel w' = channel w /\
     length (events_since w w') = 6%nat /\
     forallb is_output (events_since w w') = true) /\
  main n (pre ++ OptUnknown :: rest) w
  = Exit 1 (with_trace (EvPrint "Unknown option" :: trace w) w).
Proof.
  intros Hc Hpre. rewrite !(main_flags _ _ _ c) by done. split; [|done].
  eexists. split; [reflexivity|]. simpl.
  rewrite (events_since_app _ _ [_; _; _; _; _; _]) by done. done.
Qed.

Lemma help_and_unknown_end_the_run_witness :
  let w := Sample.with_daemon 77 (Some 77) (Sample.machine 100 90 3) in
  (exists w',
     main 5 ([OptSet 10; OptPrintStatus] ++ OptHelp :: [OptKill]) w = Exit 0 w' /\
     fs w' = fs w /\ channel w' = channel w /\
     length (events_since w w') = 6%nat /\
     forallb is_output (events_since w w') = true) /\
  main 5 ([OptSet 10; OptPrintStatus] ++ OptUnknown :: [OptKill]) w
  = Exit 1 (with_trace (EvPrint "Unknown option" :: trace w) w).
Proof.
  apply (help_and_unknown_end_the_run 5 [OptSet 10; OptPrintStatus] [OptKill]
           Sample.config
           (Sample.with_daemon 77 (Some 77) (Sample.machine 100 90 3))).
  - reflexivity.
  - reflexivity.
Defined.

(** X7.  [--print-status] turns the invocation into a report: with only
    [-a], [-s] and [-p] on the command line and [-p] among them, the
    configuration is printed and the program exits with 0; the requested
    delta is not applied, no record is sent to a running daemon, and no
    file is touched. *)
Theorem print_status_only_reports n opts c w :
  config_src w = Some c ->
  forallb flag_option opts = true ->
  has_print_status opts = true ->
  exists w',
    main n opts w = Exit 0 w' /\
    fs w' = fs w /\ channel w' = channel w /\
    forallb is_output (events_since w w') = true /\
    EvPrint ("  Screen Backlight Path: " +:+ screen_backlight_path c)
      ∈ events_since w w'.
Proof.
  intros Hc Hflags Hp.
  rewrite (main_only_flags _ _ c) by done.
  unfold bind at 1. unfold after_options. simpl. rewrite Hp. simpl.
  eexists. split; [reflexivity|]. simpl.
  rewrite (events_since_app _ _ [_; _; _; _; _; _; _; _]) by done.
  split_and!; try done. set_solver.
Qed.

Lemma print_status_only_reports_witness :
  let w := Sample.with_daemon 77 (Some 77) (Sample.machine 100 90 3) in
  exists w',
    main 5 [OptSet 10; OptPrintStatus; OptAmbient] w = Exit 0 w' /\
    fs w' = fs w /\ channel w' = channel w /\
    forallb is_output (events_since w w') = true /\
    EvPrint ("  Screen Backlight Path: " +:+ screen_backlight_path Sample.config)
      ∈ events_since w w'.
Proof.
  apply (print_status_only_reports 5 [OptSet 10; OptPrintStatus; OptAmbient]
           Sample.config
           (Sample.with_daemon 77 (Some 77) (Sample.machine 100 90 3))).
  - reflexivity.
  - reflexivity.
  - reflexivity.
Defined.

(** ** One-shot invocations *)

Lemma read_file_value dir name w n :
  fs w !! path_join dir name = Some (RegFile (Some n)) ->
  read_file dir name w = Ret n w.
Proof.
  intros H. unfold read_file, bind, fopen_r, fscanf_d, ret. cbv zeta.
  by rewrite !H.
Qed.

(** X8.  Without a PID marker and without [--daemon] the program is a
    one-shot command: with only [-a] and [-s] options it reads the panel,
    applies the last [-s] delta once, clamped, and exits with 0 without
    entering the loop.  A delta of 0 writes nothing, and [-a] has no effect
    at all: ambient mode only exists inside a daemon. *)
Theorem one_shot_without_daemon n opts c w mx cur :
  config_src w = Some c ->
  pid_file_open w = false ->
  forallb request_option opts = true ->
  fs w !! path_join (screen_backlight_path c) "max_brightness"
    = Some (RegFile (Some mx)) ->
  fs w !! path_join (screen_backlight_path c) "actual_brightness"
    = Some (RegFile (Some cur)) ->
  path_join (screen_backlight_path c) "brightness" ∈ writable w ->
  exists w',
    main n opts w = Exit 0 w' /\
    channel w' = channel w /\
    events_since w w'
    = if last_set opts 0 =? 0 then []
      else [EvWrite (path_join (screen_backlight_path c) "brightness")
              (clamp_brightness
                 (int_add cur (percent_of mx (last_set opts 0))) mx)].
Proof.
  intros Hc Hpid Hall Hmax Hcur Hwr.
  destruct (request_option_flag opts Hall) as [Hflags Hnp].
  rewrite (main_only_flags _ _ c) by done.
  unfold bind at 1. unfold after_options. simpl. rewrite Hnp, Hpid. simpl.
  unfold bind at 1. unfold ret at 1. unfold bind at 1. simpl.
  rewrite (read_file_value _ _ _ mx) by done.
  unfold bind at 1. simpl.
  destruct (last_set opts 0 =? 0) eqn:Hz.
  - unfold ret. simpl. exists w. split_and!; try done.
    by apply events_since_refl.
  - set (c' := set_min_brightness _ c).
    destruct (adjust_brightness_run (last_set opts 0) mx c' w cur)
      as (w' & Hrun & Htr & _); [done..|].
    rewrite Hrun. unfold ret. simpl. exists w'. split_and!; try done.
    + apply adjust_brightness_same_pipe in Hrun as [? _]. done.
    + by apply (events_since_app _ _ [_]).
Qed.

Lemma one_shot_without_daemon_witness :
  let w := Sample.machine 100 90 3 in
  exists w',
    main 5 [OptAmbient; OptSet 20; OptSet (-50)] w = Exit 0 w' /\
    channel w' = channel w /\
    events_since w w'
    = if last_set [OptAmbient; OptSet 20; OptSet (-50)] 0 =? 0 then []
      else [EvWrite (path_join (screen_backlight_path Sample.config) "brightness")
              (clamp_brightness
                 (int_add 90 (percent_of 100
                    (last_set [OptAmbient; OptSet 20; OptSet (-50)] 0))) 100)].
Proof.
  apply (one_shot_without_daemon 5 [OptAmbient; OptSet 20; OptSet (-50)]
           Sample.config (Sample.machine 100 90 3) 100 90).
  - reflexivity.
  - vm_compute. reflexivity.
  - reflexivity.
  - vm_compute. reflexivity.
  - vm_compute. reflexivity.
  - vm_compute. set_solver.
Defined.

(** ** A client and a pipe nobody serves *)

Lemma client_blocks_without_reader n opts c w mx :
  config_src w = Some c ->
  pid_file_open w = true ->
  forallb request_option opts = true ->
  fs w !! path_join (screen_backlight_path c) "max_brightness"
    = Some (RegFile (Some mx)) ->
  fs w !! FIFO_PATH = Some Fifo -> reader_open w = false ->
  main n opts w = Block w.
Proof.
  intros Hc Hpid Hall Hmax Hfifo Hrd.
  destruct (request_option_flag opts Hall) as [Hflags Hnp].
  rewrite (main_only_flags _ _ c) by done.
  unfold after_options. simpl. rewrite Hnp, Hpid. simpl.
  unfold bind, ret. simpl.
  rewrite (read_file_value _ _ _ mx) by done.
  unfold write_fifo. by rewrite Hfifo, Hrd.
Qed.

(** X9.  With the PID marker present the invocation is a client, and it
    depends on the other end of the pipe: when the node of the pipe is
    gone the client complains and exits with 1; when the node is there but
    no process has it open for reading, [open(FIFO_PATH, O_WRONLY)] does
    not return and neither does the client.  In both cases nothing has
    been sent and the panel is untouched. *)
Theorem client_needs_a_reader n opts c w mx :
  config_src w = Some c ->
  pid_file_open w = true ->
  forallb request_option opts = true ->
  fs w !! path_join (screen_backlight_path c) "max_brightness"
    = Some (RegFile (Some mx)) ->
  (fs w !! FIFO_PATH = None ->
   main n opts w
   = Exit EXIT_FAILURE
       (with_trace (EvPerror "Error opening the named pipe" :: trace w) w)) /\
  (fs w !! FIFO_PATH = Some Fifo -> reader_open w = false ->
   main n opts w = Block w).
Proof.
  intros Hc Hpid Hall Hmax.
  split.
  - intros Hfifo.
    destruct (request_option_flag opts Hall) as [Hflags Hnp].
    rewrite (main_only_flags _ _ c) by done.
    unfold after_options. simpl. rewrite Hnp, Hpid. simpl.
    unfold bind, ret. simpl.
    rewrite (read_file_value _ _ _ mx) by done.
    unfold write_fifo. by rewrite Hfifo.
  - intros Hfifo Hrd. by apply (client_blocks_without_reader n opts c w mx).
Qed.

Lemma client_needs_a_reader_witness :
  let w := with_reader false
             (Sample.with_daemon 77 (Some 77) (Sample.machine 100 90 3)) in
  (fs w !! FIFO_PATH = None ->
   main 5 [OptSet 10] w
   = Exit EXIT_FAILURE
       (with_trace (EvPerror "Error opening the named pipe" :: trace w) w)) /\
  (fs w !! FIFO_PATH = Some Fifo -> reader_open w = false ->
   main 5 [OptSet 10] w = Block w).
Proof.
  apply (client_needs_a_reader 5 [OptSet 10] Sample.config
           (with_reader false
              (Sample.with_daemon 77 (Some 77) (Sample.machine 100 90 3))) 100).
  - reflexivity.
  - vm_compute. reflexivity.
  - reflexivity.
  - vm_compute. reflexivity.
Defined.

(** ** Paths under sysfs and the two nodes in /tmp *)

Lemma last_char_app s t : t <> EmptyString -> last_char (s +:+ t) = last_char t.
Proof.
  intros Ht. induction s as [|a s IH]; [done|].
  change (String a s +:+ t) with (String a (s +:+ t)).
  change (last_char (String a (s +:+ t)))
    with (match s +:+ t with
          | EmptyString => String a EmptyString
          | String _ _ => last_char (s +:+ t)
          end).
  destruct (s +:+ t) eqn:E; [|done].
  destruct s; [by destruct t|done].
Qed.

Lemma sysfs_file_not_in_tmp dir name :
  last_char name = "s" ->
  path_join dir name <> PID_FILE_PATH /\ path_join dir name <> FIFO_PATH.
Proof.
  intros Hlast.
  assert (H : last_char (path_join dir name) = "s").
  { unfold path_join. rewrite last_char_app by done.
    rewrite (last_char_app "/") by (by destruct name). done. }
  split; intros Heq; rewrite Heq in H; done.
Qed.

(** ** [--daemon] together with other options *)

(** X10.  [--daemon --set d] with no PID marker applies the delta twice.
    [pid_file] was NULL when [main] opened the marker, so after
    [start_daemon] the one-shot branch still runs [adjust_brightness], and
    the first pass of the loop finds [brightness_adjustment] unchanged and
    applies it again before resetting it. *)
Theorem daemon_with_set_applies_delta_twice d c w mx cur :
  config_src w = Some c ->
  fs w !! PID_FILE_PATH = None ->
  fork_ret w = 0 -> 0 <= setsid_ret w -> PID_FILE_PATH ∈ writable w ->
  malloc_ok w = true -> channel w = [] ->
  fs w !! path_join (screen_backlight_path c) "max_brightness"
    = Some (RegFile (Some mx)) ->
  fs w !! path_join (screen_backlight_path c) "actual_brightness"
    = Some (RegFile (Some cur)) ->
  path_join (screen_backlight_path c) "brightness" ∈ writable w ->
  d <> 0 ->
  let once := clamp_brightness (int_add cur (percent_of mx d)) mx in
  let twice := clamp_brightness (int_add once (percent_of mx d)) mx in
  exists v w',
    main 1 [OptDaemon; OptSet d] w = Ret v w' /\
    v_brightness_adjustment v = 0 /\
    events_since w w'
    = [EvSleep (update_rate c);
       EvWrite (path_join (screen_backlight_path c) "brightness") twice;
       EvWrite (path_join (screen_backlight_path c) "brightness") once;
       EvWrite PID_FILE_PATH (self_pid w)].
Proof.
  intros Hc Hpid Hfork Hsid Hpw Hmal Hch Hmax Hcur Hbw Hd once twice.
  destruct (sysfs_file_not_in_tmp (screen_backlight_path c) "max_brightness" eq_refl)
    as [Hm1 Hm2].
  destruct (sysfs_file_not_in_tmp (screen_backlight_path c) "actual_brightness" eq_refl)
    as [Ha1 Ha2].
  destruct (start_daemon_success w Hfork Hsid Hpw)
    as (w1 & Hstart & Hfs1 & Htr1 & Hwr1 & _ & _ & _ & _ & _ & Hch1 & Hmal1 & _).
  assert (Hfifo1 : is_Some (fs w1 !! FIFO_PATH)).
  { rewrite Hfs1. destruct (fs w !! FIFO_PATH) eqn:Hf.
    - rewrite lookup_insert_ne, Hf by done. by eexists.
    - rewrite lookup_insert_eq. by eexists. }
  assert (Hkeep : forall p, p <> PID_FILE_PATH -> p <> FIFO_PATH ->
                            fs w1 !! p = fs w !! p).
  { intros p Hp1 Hp2. rewrite Hfs1. destruct (fs w !! FIFO_PATH);
      by rewrite !lookup_insert_ne by done. }
  set (cfg := set_min_brightness (percent_of mx (min_brightness c)) c).
  set (w2 := with_reader true w1).
  destruct (adjust_brightness_run d mx cfg w2 cur) as (w3 & Hadj1 & Htr3 & Hwr3 & Hact3).
  { simpl. rewrite Hkeep by done. done. }
  { simpl. by rewrite Hwr1. }
  pose proof (adjust_brightness_same_pipe _ _ _ _ _ _ Hadj1) as [Hch3 Hmal3].
  destruct (adjust_brightness_run d mx cfg w3 once) as (w4 & Hadj2 & Htr4 & _).
  { done. }
  { rewrite Hwr3. simpl. by rewrite Hwr1. }
  assert (Hpo : pid_file_open w = false) by (unfold pid_file_open; by rewrite Hpid).
  unfold main. unfold bind at 1. rewrite (main_startup_eq _ c) by done.
  unfold bind at 1. simpl parse_options. rewrite Hpo.
  unfold bind at 1. simpl. rewrite Hstart.
  unfold ret at 1. unfold after_options. simpl.
  unfold bind at 1. unfold open_pipe.
  destruct Hfifo1 as [nd Hnd]. rewrite Hnd.
  unfold bind at 1. fold w2.
  rewrite (read_file_value _ _ w2 mx) by (simpl; by rewrite Hkeep).
  simpl. apply Z.eqb_neq in Hd. rewrite Hd.
  unfold bind at 1. fold cfg. rewrite Hadj1. unfold ret at 1. simpl.
  unfold bind at 1. unfold loop_iteration.
  unfold bind at 1. unfold drain_command. unfold bind at 1.
  unfold read_fifo, pipe_read. unfold bind at 1 2.
  simpl in Hch3, Hmal3.
  rewrite Hmal3, Hmal1, Hmal, Hch3, Hch1, Hch. unfold ret at 1 2.
  unfold bind at 1. unfold apply_pending_delta. simpl. rewrite Hd.
  unfold bind at 1. fold cfg. rewrite Hadj2. unfold ret at 1.
  eexists _, _. split; [reflexivity|]. split; [done|].
  apply events_since_app. simpl. rewrite Htr4, Htr3. simpl. by rewrite Htr1.
Qed.

Lemma daemon_with_set_applies_delta_twice_witness :
  let w := Sample.machine 100 50 3 in
  let once := clamp_brightness (int_add 50 (percent_of 100 10)) 100 in
  let twice := clamp_brightness (int_add once (percent_of 100 10)) 100 in
  exists v w',
    main 1 [OptDaemon; OptSet 10] w = Ret v w' /\
    v_brightness_adjustment v = 0 /\
    events_since w w'
    = [EvSleep (update_rate Sample.config);
       EvWrite (path_join (screen_backlight_path Sample.config) "brightness") twice;
       EvWrite (path_join (screen_backlight_path Sample.config) "brightness") once;
       EvWrite PID_FILE_PATH (self_pid w)].
Proof.
  apply (daemon_with_set_applies_delta_twice 10 Sample.config
           (Sample.machine 100 50 3) 100 50).
  - reflexivity.
  - vm_compute. reflexivity.
  - reflexivity.
  - simpl. lia.
  - vm_compute. set_solver.
  - reflexivity.
  - reflexivity.
  - vm_compute. reflexivity.
  - vm_compute. reflexivity.
  - vm_compute. set_solver.
  - lia.
Defined.

(** X11.  [--daemon] while the PID marker exists starts no daemon: nothing
    is forked, no handler is installed and the marker keeps its content.
    The process opens the pipe for reading, keeps the descriptor [open]
    returned (the lowest free one: 4 rather than 3 when [main] still holds
    the marker open) and enters the loop in the foreground; nothing is sent
    to the daemon that owns the marker, and a [-s] delta given along is not
    applied at startup but left for the first pass of the loop. *)
Theorem daemon_option_with_marker post c w mx node :
  config_src w = Some c ->
  pid_file_open w = true ->
  forallb request_option post = true ->
  fs w !! FIFO_PATH = Some node ->
  fs w !! path_join (screen_backlight_path c) "max_brightness"
    = Some (RegFile (Some mx)) ->
  exists v,
    main 0 (OptDaemon :: post) w = Ret v (with_reader true w) /\
    v_daemon_mode v = true /\ v_fd v = open_ret w /\
    v_brightness_adjustment v = last_set post 0 /\
    v_ambient_mode v = has_ambient post /\
    v_max_screen_brightness v = mx.
Proof.
  intros Hc Hpid Hall Hfifo Hmax.
  destruct (request_option_flag post Hall) as [Hflags Hnp].
  unfold main. unfold bind at 1. rewrite (main_startup_eq _ c) by done.
  unfold bind at 1. simpl parse_options. rewrite Hpid.
  unfold bind at 1. simpl. unfold ret at 1.
  rewrite parse_options_requests by done. simpl.
  unfold after_options. simpl.
  unfold bind at 1. unfold open_pipe. rewrite Hfifo.
  unfold bind at 1.
  rewrite (read_file_value _ _ (with_reader true w) mx) by done.
  simpl. unfold bind, ret. simpl. eexists. split; [reflexivity|]. done.
Qed.

Lemma daemon_option_with_marker_witness :
  let w := with_open_ret 4
             (Sample.with_daemon 77 (Some 77) (Sample.machine 100 90 3)) in
  exists v,
    main 0 (OptDaemon :: [OptSet 10; OptAmbient]) w = Ret v (with_reader true w) /\
    v_daemon_mode v = true /\ v_fd v = open_ret w /\
    v_brightness_adjustment v = last_set [OptSet 10; OptAmbient] 0 /\
    v_ambient_mode v = has_ambient [OptSet 10; OptAmbient] /\
    v_max_screen_brightness v = 100.
Proof.
  apply (daemon_option_with_marker [OptSet 10; OptAmbient] Sample.config
           (with_open_ret 4
              (Sample.with_daemon 77 (Some 77) (Sample.machine 100 90 3)))
           100 Fifo).
  - reflexivity.
  - vm_compute. reflexivity.
  - reflexivity.
  - vm_compute. reflexivity.
  - vm_compute. reflexivity.
Defined.

(** X12.  [--daemon --print-status] with no PID marker leaves a marker
    without a daemon: [start_daemon] writes the PID file and creates the
    pipe, then the status is printed and the process returns 0 without
    removing either.  The marker turns every later [-a]/[-s] invocation into
    a client, and with no process reading the pipe that client never
    returns. *)
Theorem daemon_with_print_status_leaves_marker n n' opts c w mx :
  config_src w = Some c ->
  fs w !! PID_FILE_PATH = None ->
  fs w !! FIFO_PATH = None ->
  reader_open w = false ->
  fork_ret w = 0 -> 0 <= setsid_ret w -> PID_FILE_PATH ∈ writable w ->
  fs w !! path_join (screen_backlight_path c) "max_brightness"
    = Some (RegFile (Some mx)) ->
  forallb request_option opts = true ->
  exists w',
    main n [OptDaemon; OptPrintStatus] w = Exit 0 w' /\
    fs w' !! PID_FILE_PATH = Some (RegFile (Some (self_pid w))) /\
    fs w' !! FIFO_PATH = Some Fifo /\
    main n' opts w' = Block w'.
Proof.
  intros Hc Hpid Hfifo Hrd Hfork Hsid Hpw Hmax Hall.
  destruct (sysfs_file_not_in_tmp (screen_backlight_path c) "max_brightness" eq_refl)
    as [Hm1 Hm2].
  destruct (start_daemon_success w Hfork Hsid Hpw)
    as (w1 & Hstart & Hfs1 & Htr1 & Hwr1 & _ & _ & _ & _ & Hc1 & Hch1 & Hmal1 & Hrd1 & _).
  rewrite Hfifo in Hfs1.
  assert (Hpo : pid_file_open w = false) by (unfold pid_file_open; by rewrite Hpid).
  unfold main at 1. unfold bind at 1. rewrite (main_startup_eq _ c) by done.
  unfold bind at 1. simpl parse_options. rewrite Hpo.
  unfold bind at 1. simpl. rewrite Hstart.
  unfold ret at 1. unfold after_options. simpl.
  unfold print_info. unfold_prims. simpl.
  eexists. split; [reflexivity|]. simpl. rewrite Hfs1.
  split; [by rewrite lookup_insert_ne, lookup_insert_eq|].
  split; [by rewrite lookup_insert_eq|].
  match goal with |- main n' opts ?w2 = _ => set (w' := w2) end.
  apply (client_blocks_without_reader n' opts c w' mx); try done.
  - simpl. by rewrite Hc1.
  - unfold pid_file_open. simpl. rewrite Hfs1.
    by rewrite lookup_insert_ne, lookup_insert_eq.
  - simpl. rewrite Hfs1. by rewrite !lookup_insert_ne.
  - simpl. rewrite Hfs1. by rewrite lookup_insert_eq.
  - simpl. by rewrite Hrd1.
Qed.

Lemma daemon_with_print_status_leaves_marker_witness :
  let w := Sample.machine 100 90 3 in
  exists w',
    main 3 [OptDaemon; OptPrintStatus] w = Exit 0 w' /\
    fs w' !! PID_FILE_PATH = Some (RegFile (Some (self_pid w))) /\
    fs w' !! FIFO_PATH = Some Fifo /\
    main 0 [OptSet 10] w' = Block w'.
Proof.
  apply (daemon_with_print_status_leaves_marker 3 0 [OptSet 10] Sample.config
           (Sample.machine 100 90 3) 100).
  - reflexivity.
  - vm_compute. reflexivity.
  - vm_compute. reflexivity.
  - reflexivity.
  - reflexivity.
  - simpl. lia.
  - vm_compute. set_solver.
  - vm_compute. reflexivity.
  - reflexivity.
Defined.

(** ** The loop: what it shows to the outside *)

Lemma emits_only_bind {A B} (P : event -> Prop) (m : M A) (k : A -> M B) w :
  emits_only P m w ->
  (forall a w1, m w = Ret a w1 -> emits_only P (k a) w1) ->
  emits_only P (bind m k) w.
Proof.
  intros (evs & Htr & Hall) Hk. unfold emits_only, bind.
  destruct (m w) as [a w1| |] eqn:Hm; simpl in *.
  - destruct (Hk a w1 eq_refl) as (evs2 & Htr2 & Hall2).
    exists (evs2 ++ evs). rewrite Htr2, Htr, app_assoc. split; [done|].
    by apply Forall_app.
  - by exists evs.
  - by exists evs.
Qed.

Lemma emits_only_silent {A} (P : event -> Prop) (m : M A) w :
  trace (final_world (m w)) = trace w -> emits_only P m w.
Proof. intros H. exists []. by split. Qed.

Lemma emits_only_mono {A} (P Q : event -> Prop) (m : M A) w :
  (forall e, P e -> Q e) -> emits_only P m w -> emits_only Q m w.
Proof.
  intros HPQ (evs & Htr & Hall). exists evs. split; [done|].
  eapply Forall_impl; eauto.
Qed.

Lemma read_file_emits dir name w :
  emits_only (fun e => is_output e = true) (read_file dir name) w.
Proof.
  unfold emits_only, read_file. unfold_prims. cbv zeta.
  destruct (fs w !! path_join dir name) as [[[n|]|]|] eqn:E; simpl;
    rewrite ?E; simpl.
  1,2: by exists [].
  all: eexists [_; _]; split; [done|]; by repeat constructor.
Qed.

Lemma set_backlight_brightness_emits dir b max w :
  emits_only (fun e => e = EvWrite (path_join dir "brightness") (clamp_brightness b max)
                       \/ is_output e = true)
    (set_backlight_brightness dir b max) w.
Proof.
  unfold emits_only. unfold_prims.
  destruct (decide _); simpl; eexists [_]; (split; [done|]);
    apply Forall_singleton; first [by left | by right].
Qed.

Lemma read_fifo_emits fd w :
  emits_only (fun e => is_output e = true) (read_fifo fd) w.
Proof.
  unfold emits_only, read_fifo, pipe_read. unfold_prims.
  destruct (malloc_ok w); simpl.
  - destruct (channel w) as [|[d| |] rest]; simpl.
    1,2,3: by exists [].
    eexists [_]; split; [done|]; by repeat constructor.
  - eexists [_]; split; [done|]; by repeat constructor.
Qed.

Lemma loop_event_output v e : is_output e = true -> loop_event v e.
Proof. by destruct e. Qed.

Lemma loop_event_ext v v' e :
  v_config v' = v_config v ->
  v_max_screen_brightness v' = v_max_screen_brightness v ->
  loop_event v' e -> loop_event v e.
Proof. unfold loop_event. by intros -> ->. Qed.

Lemma loop_event_store v b e :
  1 <= v_max_screen_brightness v ->
  e = EvWrite (path_join (screen_backlight_path (v_config v)) "brightness")
        (clamp_brightness b (v_max_screen_brightness v))
  \/ is_output e = true ->
  loop_event v e.
Proof.
  intros Hmax [->|Ho]; [|by apply loop_event_output].
  simpl. split; [done|]. by apply clamp_brightness_in_range.
Qed.

Lemma adjust_brightness_emits v w :
  1 <= v_max_screen_brightness v ->
  emits_only (loop_event v)
    (adjust_brightness (v_brightness_adjustment v) (v_max_screen_brightness v)
       (v_config v)) w.
Proof.
  intros Hmax. unfold adjust_brightness. apply emits_only_bind.
  - eapply emits_only_mono; [|apply read_file_emits].
    intros e. apply loop_event_output.
  - intros cur w1 _. eapply emits_only_mono; [|apply set_backlight_brightness_emits].
    intros e He. simpl in He. by eapply loop_event_store.
Qed.

Lemma loop_iteration_emits v w :
  1 <= v_max_screen_brightness v ->
  emits_only (loop_event v) (loop_iteration v) w.
Proof.
  intros Hmax. unfold loop_iteration. apply emits_only_bind.
  { unfold drain_command. apply emits_only_bind.
    - eapply emits_only_mono; [|apply read_fifo_emits].
      intros e. apply loop_event_output.
    - intros [d|] w1 _; by apply emits_only_silent. }
  intros v1 w1 [Hc1 Hm1]%drain_command_keeps.
  apply emits_only_bind.
  { eapply emits_only_mono; [intros e; by apply loop_event_ext|].
    unfold apply_pending_delta. destruct (_ =? 0); [by apply emits_only_silent|].
    apply emits_only_bind.
    - apply adjust_brightness_emits. lia.
    - intros. by apply emits_only_silent. }
  intros v2 w2 [Hc2 Hm2]%apply_pending_delta_keeps.
  assert (Hc : v_config v2 = v_config v) by congruence.
  assert (Hm : v_max_screen_brightness v2 = v_max_screen_brightness v) by congruence.
  apply emits_only_bind.
  { unfold ambient_recompute. destruct (v_ambient_mode v2); [|by apply emits_only_silent].
    apply emits_only_bind.
    - eapply emits_only_mono; [|apply read_file_emits].
      intros e. apply loop_event_output.
    - intros reading w3 _.
      eapply emits_only_mono; [|apply set_backlight_brightness_emits].
      intros e He. apply (loop_event_ext v v2); [done..|].
      simpl in He. eapply loop_event_store; [lia|exact He]. }
  intros _ w3 _. apply emits_only_bind.
  { exists [EvSleep (update_rate (v_config v2))]. split; [done|].
    repeat constructor. simpl. by rewrite Hc. }
  intros. by apply emits_only_silent.
Qed.

(** X13.  Whatever the pipe delivers and however the run ends, the loop of
    the daemon shows nothing to the outside but sleeps of [update_rate]
    seconds, diagnostics, and stores into the [brightness] file of the
    configured panel of values in [1 .. max_screen_brightness]: it never
    signals a process, removes a file or writes to the pipe.  (For a
    maximum of at least 1.) *)
Theorem run_loop_only_dims_the_panel n v w :
  1 <= v_max_screen_brightness v ->
  Forall (loop_event v) (run_events (run_loop n v) w).
Proof.
  intros Hmax.
  assert (H : emits_only (loop_event v) (run_loop n v) w).
  { revert v w Hmax. induction n as [|n IH]; intros v w Hmax; simpl.
    - by apply emits_only_silent.
    - apply emits_only_bind; [by apply loop_iteration_emits|].
      intros v1 w1 (Hc & Hm & _)%loop_iteration_keeps.
      eapply emits_only_mono; [intros e; by apply loop_event_ext|].
      apply IH. lia. }
  destruct H as (evs & Htr & Hall). unfold run_events.
  by rewrite (events_since_app _ _ evs).
Qed.

Lemma run_loop_only_dims_the_panel_witness :
  Forall (loop_event (Sample.daemon_locals 100 250 10 true))
    (run_events (run_loop 3 (Sample.daemon_locals 100 250 10 true))
       (Sample.with_daemon 77 (Some 77) (Sample.machine 100 90 3))).
Proof.
  apply (run_loop_only_dims_the_panel 3 (Sample.daemon_locals 100 250 10 true)
           (Sample.with_daemon 77 (Some 77) (Sample.machine 100 90 3))).
  simpl. lia.
Defined.

(** ** The loop: one sleep per pass *)

Lemma adds_refl w w' : trace w' = trace w -> adds w w' 0 0.
Proof. intros H. by exists []. Qed.

Lemma adds_trans w1 w2 w3 s1 k1 s2 k2 :
  adds w1 w2 s1 k1 -> adds w2 w3 s2 k2 -> adds w1 w3 (s1 + s2) (k1 + k2).
Proof.
  intros (e1 & H1 & Hs1 & Hk1) (e2 & H2 & Hs2 & Hk2).
  exists (e2 ++ e1). rewrite H2, H1, app_assoc, !count_events_app.
  split; [done|]. lia.
Qed.

Lemma adds_weaken w w' s k k' : (k <= k')%nat -> adds w w' s k -> adds w w' s k'.
Proof. intros Hk (e & H & Hs & Hk'). exists e. split_and!; [done..|lia]. Qed.

Lemma read_file_ret dir name w r w' : read_file dir name w = Ret r w' -> w' = w.
Proof.
  intros H. destruct (read_file_cases dir name w) as [[r' Hr]|[w2 [Hr _]]];
    rewrite Hr in H; by simplify_eq.
Qed.

Lemma set_backlight_brightness_ret dir b max w r w' :
  set_backlight_brightness dir b max w = Ret r w' -> adds w w' 0 1.
Proof.
  unfold_prims. destruct (decide _); [|done]. intros [= <- <-].
  eexists [_]. split_and!; [done|done|simpl; lia].
Qed.

Lemma adjust_brightness_ret value max cfg w r w' :
  adjust_brightness value max cfg w = Ret r w' -> adds w w' 0 1.
Proof.
  unfold adjust_brightness, bind at 1. intros H.
  destruct (read_file _ _ w) as [cur w1| |] eqn:Hrd; [|done..].
  apply read_file_ret in Hrd as ->.
  by eapply set_backlight_brightness_ret.
Qed.

Lemma drain_command_ret v w v' w' :
  drain_command v w = Ret v' w' -> adds w w' 0 0.
Proof.
  unfold drain_command, read_fifo, pipe_read. unfold_prims.
  destruct (malloc_ok w).
  - destruct (channel w) as [|[d| |] rest]; intros [= <- <-];
      first [by apply adds_refl | by exists [EvPerror "Error reading from the named pipe"]].
  - intros [= <- <-]. by eexists [_].
Qed.

Lemma loop_iteration_ret v w v' w' :
  loop_iteration v w = Ret v' w' -> adds w w' 1 2.
Proof.
  unfold loop_iteration. unfold bind at 1.
  destruct (drain_command v w) as [v1 w1| |] eqn:Hd; [|done..].
  apply drain_command_ret in Hd.
  unfold bind at 1.
  destruct (apply_pending_delta v1 w1) as [v2 w2| |] eqn:Hp; [|done..].
  assert (Hp' : adds w1 w2 0 1).
  { revert Hp. unfold apply_pending_delta. destruct (_ =? 0).
    - unfold ret. intros [= <- <-]. apply (adds_weaken _ _ 0 0); [lia|]. by apply adds_refl.
    - unfold bind, ret.
      destruct (adjust_brightness _ _ _ w1) as [[] w1'| |] eqn:Hadj; [|done..].
      intros [= <- <-]. by eapply adjust_brightness_ret. }
  unfold bind at 1.
  destruct (ambient_recompute v2 w2) as [[] w3| |] eqn:Ha; [|done..].
  assert (Ha' : adds w2 w3 0 1).
  { revert Ha. unfold ambient_recompute. destruct (v_ambient_mode v2).
    - unfold bind at 1.
      destruct (read_file _ _ w2) as [reading w2'| |] eqn:Hrd; [|done..].
      apply read_file_ret in Hrd as ->. apply set_backlight_brightness_ret.
    - unfold ret. intros [= <-]. apply (adds_weaken _ _ 0 0); [lia|]. by apply adds_refl. }
  unfold_prims. intros [= <- <-].
  assert (Hs : adds w3 (with_trace (EvSleep (update_rate (v_config v2)) :: trace w3) w3) 1 0).
  { by eexists [_]. }
  pose proof (adds_trans _ _ _ _ _ _ _ (adds_trans _ _ _ _ _ _ _
                (adds_trans _ _ _ _ _ _ _ Hd Hp') Ha') Hs) as H.
  exact H.
Qed.

(** X14.  Pacing of the daemon: while the sysfs files can be opened, [n]
    passes through the loop complete, and they have slept exactly [n] times
    and stored a brightness at most [2 * n] times (one store for a pending
    delta, one for ambient mode), whatever arrived through the pipe. *)
Theorem run_loop_sleeps_once_per_pass n v w :
  sysfs_ready v w ->
  exists v' w',
    run_loop n v w = Ret v' w' /\
    count_events is_sleep (events_since w w') = n /\
    (count_events is_write (events_since w w') <= 2 * n)%nat.
Proof.
  intros Hready.
  destruct (run_loop_returns n v w Hready) as (v' & w' & Hrun).
  exists v', w'. split; [done|].
  assert (H : adds w w' n (2 * n)).
  { clear Hready. revert v w Hrun. induction n as [|n IH]; intros v w; simpl.
    - unfold ret. intros [= <- <-]. by apply adds_refl.
    - unfold bind. destruct (loop_iteration v w) as [v1 w1| |] eqn:Hit; [|done..].
      intros Hrun. apply loop_iteration_ret in Hit. apply IH in Hrun.
      pose proof (adds_trans _ _ _ _ _ _ _ Hit Hrun) as H.
      eapply adds_weaken; [|exact H]. lia. }
  destruct H as (evs & Htr & Hs & Hk).
  by rewrite (events_since_app _ _ evs).
Qed.

Lemma run_loop_sleeps_once_per_pass_witness :
  let v := Sample.daemon_locals 100 10 10 true in
  let w := Sample.with_daemon 77 (Some 77) (Sample.machine 100 90 3) in
  exists v' w',
    run_loop 3 v w = Ret v' w' /\
    count_events is_sleep (events_since w w') = 3%nat /\
    (count_events is_write (events_since w w') <= 2 * 3)%nat.
Proof.
  apply (run_loop_sleeps_once_per_pass 3 (Sample.daemon_locals 100 10 10 true)
           (Sample.with_daemon 77 (Some 77) (Sample.machine 100 90 3))).
  split_and!.
  - vm_compute. set_solver.
  - exists (Some 90). vm_compute. reflexivity.
  - exists (Some 3). vm_compute. reflexivity.
Defined.

(** ** The loop: a delta under ambient mode *)

Lemma set_backlight_brightness_other dir b max w r w' p :
  set_backlight_brightness dir b max w = Ret r w' ->
  p <> path_join dir "brightness" -> p <> path_join dir "actual_brightness" ->
  fs w' !! p = fs w !! p.
Proof.
  unfold_prims. destruct (decide _); [|done]. intros [= <- <-] Hb Ha. simpl.
  by rewrite lookup_alter_ne, !lookup_insert_ne.
Qed.

Lemma adjust_brightness_other value max cfg w r w' p :
  adjust_brightness value max cfg w = Ret r w' ->
  p <> path_join (screen_backlight_path cfg) "brightness" ->
  p <> path_join (screen_backlight_path cfg) "actual_brightness" ->
  fs w' !! p = fs w !! p.
Proof.
  unfold adjust_brightness, bind at 1. intros H.
  destruct (read_file _ _ w) as [cur w1| |] eqn:Hrd; [|done..].
  apply read_file_ret in Hrd as ->.
  by eapply set_backlight_brightness_other.
Qed.

(** X15.  In ambient mode a delta lasts less than one pass of the loop: the
    pass that applies it goes on to read the sensor and stores the ambient
    value over it, so at the sleep the panel shows the ambient value whatever
    delta was pending.  (The sensor file is not one of the two brightness
    files of the panel.) *)
Theorem ambient_overrides_delta v w lux cur :
  v_ambient_mode v = true ->
  malloc_ok w = true -> channel w = [] ->
  fs w !! path_join (screen_backlight_path (v_config v)) "actual_brightness"
    = Some (RegFile (Some cur)) ->
  fs w !! path_join (sensor_file_path (v_config v)) (sensor_file (v_config v))
    = Some (RegFile (Some lux)) ->
  path_join (screen_backlight_path (v_config v)) "brightness" ∈ writable w ->
  path_join (sensor_file_path (v_config v)) (sensor_file (v_config v))
    <> path_join (screen_backlight_path (v_config v)) "brightness" ->
  path_join (sensor_file_path (v_config v)) (sensor_file (v_config v))
    <> path_join (screen_backlight_path (v_config v)) "actual_brightness" ->
  let ambient := clamp_brightness (ambient_value (v_config v) lux)
                   (v_max_screen_brightness v) in
  let store := EvWrite (path_join (screen_backlight_path (v_config v)) "brightness") in
  exists v' w',
    loop_iteration v w = Ret v' w' /\
    v_brightness_adjustment v' = 0 /\
    fs w' !! path_join (screen_backlight_path (v_config v)) "actual_brightness"
      = Some (RegFile (Some ambient)) /\
    events_since w w'
    = EvSleep (update_rate (v_config v)) :: store ambient
      :: (if v_brightness_adjustment v =? 0 then []
          else [store (clamp_brightness
                         (int_add cur (percent_of (v_max_screen_brightness v)
                                         (v_brightness_adjustment v)))
                         (v_max_screen_brightness v))]).
Proof.
  intros Hamb Hmal Hch Hcur Hlux Hbw Hne1 Hne2 ambient store.
  assert (Hd : drain_command v w = Ret v w).
  { unfold drain_command, read_fifo, pipe_read, bind, ret. by rewrite Hmal, Hch. }
  unfold loop_iteration. unfold bind at 1. rewrite Hd.
  unfold bind at 1. unfold apply_pending_delta.
  destruct (v_brightness_adjustment v =? 0) eqn:Hz.
  - unfold ret at 1. unfold bind at 1. unfold ambient_recompute. rewrite Hamb.
    unfold bind at 1. rewrite (read_file_value _ _ w lux) by done.
    destruct (set_backlight_brightness_run (screen_backlight_path (v_config v))
                (ambient_value (v_config v) lux) (v_max_screen_brightness v) w Hbw)
      as (w3 & Hrun & Htr3 & _ & _ & _ & Hact3).
    rewrite Hrun. unfold_prims.
    eexists _, _. split; [reflexivity|]. simpl. split_and!.
    + by apply Z.eqb_eq.
    + apply Hact3. by eexists.
    + apply (events_since_app _ _ [_; _]). simpl. by rewrite Htr3.
  - destruct (adjust_brightness_run (v_brightness_adjustment v)
                (v_max_screen_brightness v) (v_config v) w cur Hcur Hbw)
      as (w2 & Hadj & Htr2 & Hwr2 & Hact2).
    unfold bind at 1. rewrite Hadj. unfold ret at 1.
    unfold bind at 1. unfold ambient_recompute. simpl. rewrite Hamb.
    unfold bind at 1.
    rewrite (read_file_value _ _ w2 lux)
      by (by rewrite (adjust_brightness_other _ _ _ _ _ _ _ Hadj)).
    destruct (set_backlight_brightness_run (screen_backlight_path (v_config v))
                (ambient_value (v_config v) lux) (v_max_screen_brightness v) w2)
      as (w3 & Hrun & Htr3 & _ & _ & _ & Hact3); [by rewrite Hwr2|].
    rewrite Hrun. unfold_prims.
    eexists _, _. split; [reflexivity|]. simpl. split_and!.
    + done.
    + apply Hact3. by eexists.
    + apply (events_since_app _ _ [_; _; _]). simpl. by rewrite Htr3, Htr2.
Qed.

Lemma ambient_overrides_delta_witness :
  let v := Sample.daemon_locals 100 50 10 true in
  let w := Sample.machine 100 40 3 in
  let ambient := clamp_brightness (ambient_value (v_config v) 3)
                   (v_max_screen_brightness v) in
  let store := EvWrite (path_join (screen_backlight_path (v_config v)) "brightness") in
  exists v' w',
    loop_iteration v w = Ret v' w' /\
    v_brightness_adjustment v' = 0 /\
    fs w' !! path_join (screen_backlight_path (v_config v)) "actual_brightness"
      = Some (RegFile (Some ambient)) /\
    events_since w w'
    = EvSleep (update_rate (v_config v)) :: store ambient
      :: (if v_brightness_adjustment v =? 0 then []
          else [store (clamp_brightness
                         (int_add 40 (percent_of (v_max_screen_brightness v)
                                         (v_brightness_adjustment v)))
                         (v_max_screen_brightness v))]).
Proof.
  apply (ambient_overrides_delta (Sample.daemon_locals 100 50 10 true)
           (Sample.machine 100 40 3) 3 40).
  - reflexivity.
  - reflexivity.
  - reflexivity.
  - vm_compute. reflexivity.
  - vm_compute. reflexivity.
  - vm_compute. set_solver.
  - done.
  - done.
Defined.

(** ** Percentages of the maximum *)

Lemma trunc_mag_nonneg m e : 0 <= trunc_mag m e.
Proof.
  unfold trunc_mag. destruct e as [|p|p].
  - lia.
  - assert (0 < 2 ^ Zpos p) by pow_pos. nia.
  - apply Z.div_pos; [lia|pow_pos].
Qed.

Lemma int_of_double_range x : int_range (int_of_double x).
Proof.
  unfold int_of_double, int_range.
  destruct (trunc_double x) as [z|]; [|unfold INT_MIN, INT_MAX; lia].
  destruct (in_int z) eqn:Hin; [|unfold INT_MIN, INT_MAX; lia].
  unfold in_int in Hin. apply andb_prop in Hin as [H1 H2].
  apply Z.leb_le in H1, H2. done.
Qed.

Lemma percent_of_small M p :
  0 <= M <= INT_MAX -> 0 <= p <= 100 -> 0 <= percent_of M p <= M.
Proof.
  unfold INT_MAX. intros HM Hp. unfold percent_of.
  destruct (Z.eq_dec M 0) as [->|HM0].
  { change (double_of_int 0) with (S754_zero false).
    destruct (Z.eq_dec p 0) as [->|Hp0]; [done|].
    destruct (double_of_int_pos p ltac:(lia)) as (my & b & -> & _). done. }
  destruct (double_of_int_pos M ltac:(lia)) as (mM & a & -> & Ha & HmM & HdM).
  rewrite d100_value.
  destruct (ddiv_upper mM a 7036874417766400 46 HdM eq_refl Ha ltac:(lia))
    as (mq & eq & Hdiv & Heq & Hq).
  change (Z.opp 46) with (Zneg 46) in Hdiv. rewrite Hdiv. clear Hdiv.
  destruct (Z.eq_dec p 0) as [->|Hp0].
  { change (double_of_int 0) with (S754_zero false).
    unfold dmul, SFmul, int_of_double, trunc_double. cbn [xorb].
    change (in_int 0) with true. cbv iota. lia. }
  destruct (double_of_int_pos p ltac:(lia)) as (my & b & -> & Hb & Hmy & Hdy).
  unfold dmul, SFmul. cbn [xorb].
  pose proof (digits2_pos_bounds my) as [Hylo Hyhi]. rewrite Hdy in Hylo, Hyhi.
  pose proof (digits2_pos_bounds mM) as [HMlo HMhi]. rewrite HdM in HMlo, HMhi.
  change (53 - 1) with 52 in *.
  set (u := eq - (46 - a - 53)) in *.
  assert (Hu : 0 <= u <= 2) by (unfold u; lia).
  assert (HU : 0 < 2 ^ u) by pow_pos.
  assert (HA : 0 < 2 ^ a) by pow_pos.
  assert (HB : 0 < 2 ^ b) by pow_pos.
  pose proof (Pos2Z.is_pos mq) as Hmq1.
  assert (HX : Zpos mq <= Zpos mq * 2 ^ u) by nia.
  assert (Hmq : Zpos mq < 2 ^ 55).
  { set (X := Zpos mq * 2 ^ u) in *. clearbody X. lia. }
  pose proof (Pos2Z.is_pos mq) as Hmq0.
  assert (HP : 2 ^ 52 <= Zpos (mq * my) < 2 ^ 108).
  { rewrite Pos2Z.inj_mul. change (2 ^ 108) with (2 ^ 55 * 2 ^ 53). split; nia. }
  assert (HdP : Zpos (digits2_pos (mq * my)) <= 108) by (apply digits2_pos_le; lia).
  pose proof (Pos2Z.is_pos (digits2_pos (mq * my))) as HdP0.
  destruct (binary_round_aux_upper (mq * my) (eq + - b) loc_Exact ltac:(lia) ltac:(lia))
    as (mr & er & -> & Her & Hval).
  pose proof (round_shift_small (mq * my) ltac:(lia)) as Hsh. cbv zeta in Hsh.
  set (n3 := Z.max 0 (Zpos (digits2_pos (mq * my)) - 53)) in *.
  assert (Hn3 : 0 <= n3) by (unfold n3; lia).
  set (t3 := er - (eq + - b)) in *.
  assert (Ht3 : 0 <= t3) by (unfold t3; lia).
  unfold int_of_double, trunc_double.
  pose proof (trunc_mag_nonneg mr er) as Hnn.
  assert (Hle : trunc_mag mr er <= M).
  { apply (trunc_mag_lt mr er M (2 ^ a * 128 * 2 ^ b) (t3 + u)); [lia|lia| |].
    - destruct (Z.lt_ge_cases er 0) as [Hneg|Hpos].
      + right. split; [done|].
        rewrite <- !Z.pow_add_r by lia. change 128 with (2 ^ 7).
        rewrite <- !Z.pow_add_r by lia. f_equal. unfold t3, u. lia.
      + left. change 128 with (2 ^ 7).
        rewrite <- !Z.pow_add_r by lia. f_equal. unfold t3, u. lia.
    - rewrite Z.pow_add_r, Z.mul_assoc by lia.
      rewrite Pos2Z.inj_mul in Hval, Hsh.
      rewrite HmM in *. rewrite Hmy in *.
      apply (percent_chain M p (2 ^ a) (2 ^ b) (2 ^ u) (2 ^ t3) (2 ^ n3)
               (Zpos mq) (Zpos mr) (2 ^ 52)); try done; try lia. }
  assert (Hin : in_int (trunc_mag mr er) = true).
  { unfold in_int, INT_MIN, INT_MAX. apply andb_true_intro.
    split; apply Z.leb_le; lia. }
  rewrite Hin. lia.
Qed.

Lemma percentage_bounds max p :
  0 <= max <= INT_MAX -> 0 <= p <= 100 ->
  0 <= percent_of max p <= max /\
  percent_of max (- p) = - percent_of max p.
Proof.
  intros Hmax Hp. pose proof (percent_of_small max p Hmax Hp) as Hs.
  split; [done|].
  pose proof (percent_of_opp max p) as Hopp.
  pose proof (int_of_double_range
                (dmul (ddiv (double_of_int max) d100) (double_of_int (- p)))) as Hr.
  fold (percent_of max (- p)) in Hr.
  unfold int_range, INT_MIN, INT_MAX in *.
  apply Z.mod_divide in Hopp; [|lia]. destruct Hopp as [k Hk]. lia.
Qed.

(** X16.  The conversion [(int)((max / 100.0) * value)] used for deltas and
    for the minimum: for a maximum of [0 .. INT_MAX] and a percentage of
    [0 .. 100] the result lies in [0 .. max] (no rounding in the two double
    operations pushes it past the maximum, and the cast does not overflow),
    and the opposite percentage gives exactly the opposite amount. *)
Theorem percentage_stays_within_maximum max p :
  0 <= max <= INT_MAX -> 0 <= p <= 100 ->
  0 <= percent_of max p <= max /\
  percent_of max (- p) = - percent_of max p.
Proof. apply percentage_bounds. Qed.

Lemma percentage_stays_within_maximum_witness :
  0 <= percent_of 255 40 <= 255 /\
  percent_of 255 (- 40) = - percent_of 255 40.
Proof.
  apply (percentage_stays_within_maximum 255 40).
  - unfold INT_MAX. lia.
  - lia.
Defined.

(** X17.  A delta moves the panel in its own direction: from a brightness of
    [1 .. max], [adjust_brightness] with a percentage of [0 .. 100] stores a
    value that is at least the current one (and at most the maximum), and
    with the opposite percentage one that is at most the current one (and
    at least 1).  The maximum is at most [2^30 - 1], so that the [int] sum
    cannot wrap. *)
Theorem delta_moves_in_its_direction cfg max d w cur :
  1 <= cur <= max -> max <= 2 ^ 30 - 1 -> 0 <= d <= 100 ->
  fs w !! path_join (screen_backlight_path cfg) "actual_brightness"
    = Some (RegFile (Some cur)) ->
  path_join (screen_backlight_path cfg) "brightness" ∈ writable w ->
  exists w1 w2 up down,
    adjust_brightness d max cfg w = Ret tt w1 /\
    events_since w w1
    = [EvWrite (path_join (screen_backlight_path cfg) "brightness") up] /\
    cur <= up <= max /\
    adjust_brightness (- d) max cfg w = Ret tt w2 /\
    events_since w w2
    = [EvWrite (path_join (screen_backlight_path cfg) "brightness") down] /\
    1 <= down <= cur.
Proof.
  intros Hcur Hmax Hd Hact Hbw.
  destruct (percentage_bounds max d) as [Hp Hn]; [unfold INT_MAX; lia|lia|].
  destruct (adjust_brightness_run d max cfg w cur Hact Hbw) as (w1 & Hr1 & Ht1 & _).
  destruct (adjust_brightness_run (- d) max cfg w cur Hact Hbw) as (w2 & Hr2 & Ht2 & _).
  exists w1, w2. eexists _, _.
  split; [done|]. split; [by apply (events_since_app _ _ [_])|].
  split; [|split; [done|split; [by apply (events_since_app _ _ [_])|]]].
  - rewrite int_add_exact by (unfold int_range, INT_MIN, INT_MAX; lia).
    unfold clamp_brightness.
    destruct (Z.ltb_spec (cur + percent_of max d) 1); [lia|].
    destruct (Z.gtb_spec (cur + percent_of max d) max); lia.
  - rewrite Hn.
    rewrite int_add_exact by (unfold int_range, INT_MIN, INT_MAX; lia).
    unfold clamp_brightness.
    destruct (Z.ltb_spec (cur + - percent_of max d) 1); [lia|].
    destruct (Z.gtb_spec (cur + - percent_of max d) max); lia.
Qed.

Lemma delta_moves_in_its_direction_witness :
  let w := Sample.machine 255 100 3 in
  exists w1 w2 up down,
    adjust_brightness 40 255 Sample.config w = Ret tt w1 /\
    events_since w w1
    = [EvWrite (path_join (screen_backlight_path Sample.config) "brightness") up] /\
    100 <= up <= 255 /\
    adjust_brightness (- 40) 255 Sample.config w = Ret tt w2 /\
    events_since w w2
    = [EvWrite (path_join (screen_backlight_path Sample.config) "brightness") down] /\
    1 <= down <= 100.
Proof.
  apply (delta_moves_in_its_direction Sample.config 255 40
           (Sample.machine 255 100 3) 100).
  - lia.
  - lia.
  - lia.
  - vm_compute. reflexivity.
  - vm_compute. set_solver.
Defined.

(** ** The configuration file: strings *)

Lemma string_app_cons a s t : String a s +:+ t = String a (s +:+ t).
Proof. reflexivity. Qed.

Lemma string_app_nil_r s : s +:+ EmptyString = s.
Proof. induction s as [|a s IH]; [done|]. by rewrite string_app_cons, IH. Qed.

Lemma string_app_assoc a b c : (a +:+ b) +:+ c = a +:+ (b +:+ c).
Proof.
  induction a as [|x a IH]; [done|]. by rewrite !string_app_cons, IH.
Qed.

Lemma string_app_length a b :
  String.length (a +:+ b) = (String.length a + String.length b)%nat.
Proof.
  induction a as [|x a IH]; [done|]. rewrite ?string_app_cons. simpl. by rewrite IH.
Qed.

Lemma string_forall_app p a b :
  ConfigFile.string_forall p (a +:+ b)
  = ConfigFile.string_forall p a && ConfigFile.string_forall p b.
Proof.
  induction a as [|x a IH]; [done|]. rewrite ?string_app_cons. simpl.
  by rewrite IH, andb_assoc.
Qed.

Lemma before_length stop s :
  (String.length (ConfigFile.before stop s) <= String.length s)%nat.
Proof.
  induction s as [|a s IH]; simpl; [lia|]. destruct (stop a); simpl; lia.
Qed.

Lemma before_free stop s :
  ConfigFile.free_of stop (ConfigFile.before stop s) = true.
Proof.
  induction s as [|a s IH]; [done|]. simpl. destruct (stop a) eqn:E; [done|].
  unfold ConfigFile.free_of in *. simpl. by rewrite E, IH.
Qed.

Lemma before_stop stop l c rest :
  ConfigFile.free_of stop l = true -> stop c = true ->
  ConfigFile.before stop (l +:+ String c rest) = l.
Proof.
  unfold ConfigFile.free_of. intros Hl Hc. induction l as [|a l IH]; simpl.
  - change (EmptyString +:+ String c rest) with (String c rest). simpl. by rewrite Hc.
  - simpl in Hl. apply andb_prop in Hl as [Ha Hl].
    rewrite ?string_app_cons. simpl. apply negb_true_iff in Ha. rewrite Ha.
    by rewrite IH.
Qed.

Lemma before_all stop l :
  ConfigFile.free_of stop l = true -> ConfigFile.before stop l = l.
Proof.
  unfold ConfigFile.free_of. intros Hl. induction l as [|a l IH]; [done|].
  simpl in *. apply andb_prop in Hl as [Ha Hl].
  apply negb_true_iff in Ha. by rewrite Ha, IH.
Qed.

(** ** The configuration file: [fgets] *)

Lemma line_end_newline l :
  ConfigFile.free_of ConfigFile.is_line_end l = true ->
  ConfigFile.free_of ConfigFile.is_newline l = true.
Proof.
  unfold ConfigFile.free_of, ConfigFile.is_line_end.
  induction l as [|a l IH]; [done|]. simpl.
  intros [Ha Hl]%andb_prop. rewrite IH by done.
  apply negb_true_iff, orb_false_elim in Ha as [_ ->]. done.
Qed.

Lemma fgets_from_line l : forall n rest,
  ConfigFile.free_of ConfigFile.is_newline l = true ->
  (String.length l < n)%nat ->
  ConfigFile.fgets_from n (l +:+ ConfigFile.newline +:+ rest)
  = (l +:+ ConfigFile.newline, rest).
Proof.
  unfold ConfigFile.free_of.
  induction l as [|a l IH]; intros n rest Hl Hn; simpl in Hn.
  - destruct n as [|n]; [lia|]. done.
  - destruct n as [|n]; [lia|]. simpl in Hl. apply andb_prop in Hl as [Ha Hl].
    rewrite ?string_app_cons. simpl. apply negb_true_iff in Ha. rewrite Ha.
    rewrite IH by (done || lia). done.
Qed.

Lemma fgets_from_full a : forall n rest,
  ConfigFile.free_of ConfigFile.is_newline a = true ->
  String.length a = n ->
  ConfigFile.fgets_from n (a +:+ rest) = (a, rest).
Proof.
  unfold ConfigFile.free_of.
  induction a as [|x a IH]; intros n rest Ha Hn; simpl in Hn.
  - subst n. done.
  - destruct n as [|n]; [lia|]. simpl in Ha. apply andb_prop in Ha as [Hx Ha].
    rewrite ?string_app_cons. simpl. apply negb_true_iff in Hx. rewrite Hx.
    rewrite IH by (done || lia). done.
Qed.

Lemma fgets_from_spec n : forall s,
  s = (ConfigFile.fgets_from n s).1 +:+ (ConfigFile.fgets_from n s).2 /\
  (String.length (ConfigFile.fgets_from n s).1 <= n)%nat /\
  (String.length (ConfigFile.fgets_from n s).2
   + String.length (ConfigFile.fgets_from n s).1 = String.length s)%nat.
Proof.
  induction n as [|n IH]; intros s; simpl.
  - split; [done|]. simpl. lia.
  - destruct s as [|c s]; [simpl; split; [done|lia]|].
    destruct (ConfigFile.is_newline c); simpl.
    + split; [done|]. lia.
    + destruct (IH s) as (H1 & H2 & H3).
      destruct (ConfigFile.fgets_from n s) as [l r]; simpl in *.
      rewrite string_app_cons, <- H1. split; [done|]. lia.
Qed.

Lemma fgets_from_nonempty n x s :
  (0 < String.length (ConfigFile.fgets_from (S n) (String x s)).1)%nat.
Proof.
  simpl. destruct (ConfigFile.is_newline x); [simpl; lia|].
  destruct (ConfigFile.fgets_from n s); simpl; lia.
Qed.

Lemma read_lines_fuel atoi scan_double k1 : forall k2 s c,
  (String.length s <= k1)%nat -> (String.length s <= k2)%nat ->
  ConfigFile.read_lines atoi scan_double k1 s c
  = ConfigFile.read_lines atoi scan_double k2 s c.
Proof.
  induction k1 as [|k1 IH]; intros k2 s c H1 H2.
  - destruct s; [|simpl in H1; lia]. by destruct k2.
  - destruct k2 as [|k2].
    + destruct s; [done|simpl in H2; lia].
    + simpl. unfold ConfigFile.fgets. destruct s as [|x s]; [done|].
      change (256 - 1)%nat with 255%nat.
      destruct (fgets_from_spec 255 (String x s)) as (_ & _ & Hlen).
      pose proof (fgets_from_nonempty 254 x s) as Hne.
      destruct (ConfigFile.fgets_from 255 (String x s)) as [l r]; simpl in *.
      apply IH; lia.
Qed.

Lemma fgets_some s :
  s <> EmptyString ->
  ConfigFile.fgets 256 s = Some (ConfigFile.fgets_from 255 s).
Proof. by destruct s. Qed.

Lemma read_lines_step atoi scan_double k s c :
  ConfigFile.read_lines atoi scan_double (S k) s c
  = match ConfigFile.fgets 256 s with
    | None => c
    | Some (buffer, rest) =>
        ConfigFile.read_lines atoi scan_double k rest
          (ConfigFile.config_line atoi scan_double (ConfigFile.chomp buffer) c)
    end.
Proof. reflexivity. Qed.

Lemma parse_config_step atoi scan_double buffer rest c :
  buffer <> EmptyString ->
  ConfigFile.fgets_from 255 (buffer +:+ rest) = (buffer, rest) ->
  ConfigFile.parse_config atoi scan_double (buffer +:+ rest) c
  = ConfigFile.parse_config atoi scan_double rest
      (ConfigFile.config_line atoi scan_double (ConfigFile.chomp buffer) c).
Proof.
  intros Hne Hf. unfold ConfigFile.parse_config.
  assert (Hlen : String.length (buffer +:+ rest)
                 = S (String.length (buffer +:+ rest) - 1)).
  { rewrite string_app_length. destruct buffer; [done|]. simpl. lia. }
  rewrite Hlen, read_lines_step, fgets_some, Hf.
  - apply read_lines_fuel; [|lia].
    rewrite string_app_length. destruct buffer; [done|]. simpl. lia.
  - destruct buffer; done.
Qed.

(** ** The configuration file: [sscanf] *)

Lemma scan_not_equals_spec n : forall s,
  s = (ConfigFile.scan_not_equals n s).1 +:+ (ConfigFile.scan_not_equals n s).2 /\
  (String.length (ConfigFile.scan_not_equals n s).1 <= n)%nat /\
  ConfigFile.free_of ConfigFile.is_equals (ConfigFile.scan_not_equals n s).1 = true.
Proof.
  unfold ConfigFile.free_of.
  induction n as [|n IH]; intros s; simpl.
  - split; [done|]. split; [simpl; lia|done].
  - destruct s as [|c s]; [simpl; split; [done|split; [lia|done]]|].
    destruct (ConfigFile.is_equals c) eqn:Hc; simpl.
    + split; [done|]. split; [lia|done].
    + destruct (IH s) as (H1 & H2 & H3).
      destruct (ConfigFile.scan_not_equals n s) as [run rest]; simpl in *.
      split_and!.
      * rewrite ?string_app_cons. by rewrite <- H1.
      * lia.
      * by rewrite Hc, H3.
Qed.

Lemma scan_not_equals_key k : forall n rest,
  ConfigFile.free_of ConfigFile.is_equals k = true ->
  (String.length k <= n)%nat ->
  ConfigFile.scan_not_equals n (k +:+ "=" +:+ rest) = (k, "=" +:+ rest).
Proof.
  unfold ConfigFile.free_of.
  induction k as [|a k IH]; intros n rest Hk Hn.
  - by destruct n.
  - simpl in Hn. destruct n as [|n]; [lia|].
    simpl in Hk. apply andb_prop in Hk as [Ha Hk]. apply negb_true_iff in Ha.
    rewrite string_app_cons. simpl. rewrite Ha, IH by (done || lia). done.
Qed.

Lemma skip_space_blank sp s :
  ConfigFile.blank sp = true ->
  ConfigFile.skip_space (sp +:+ s) = ConfigFile.skip_space s.
Proof.
  unfold ConfigFile.blank. induction sp as [|a sp IH]; [done|]. simpl.
  intros [Ha Hsp]%andb_prop. rewrite Ha. by apply IH.
Qed.

Lemma skip_space_length s :
  (String.length (ConfigFile.skip_space s) <= String.length s)%nat.
Proof.
  induction s as [|a s IH]; simpl; [lia|].
  destruct (ConfigFile.isspace a); simpl; lia.
Qed.

Lemma skip_space_word v rest :
  v <> EmptyString -> ConfigFile.free_of ConfigFile.isspace v = true ->
  ConfigFile.skip_space (v +:+ rest) = v +:+ rest.
Proof.
  unfold ConfigFile.free_of. destruct v as [|a v]; [done|]. simpl.
  intros _ [Ha _]%andb_prop. apply negb_true_iff in Ha. by rewrite Ha.
Qed.

Lemma scan_word_word v : forall n rest,
  ConfigFile.free_of ConfigFile.isspace v = true ->
  (String.length v <= n)%nat ->
  ConfigFile.tail_ok rest = true ->
  ConfigFile.scan_word n (v +:+ rest) = v.
Proof.
  unfold ConfigFile.free_of.
  induction v as [|a v IH]; intros n rest Hv Hn Hrest.
  - destruct n as [|n]; [done|]. destruct rest as [|c rest]; [done|].
    simpl in *. by rewrite Hrest.
  - simpl in Hn. destruct n as [|n]; [lia|].
    simpl in Hv. apply andb_prop in Hv as [Ha Hv]. apply negb_true_iff in Ha.
    simpl. rewrite Ha, IH by (done || lia). done.
Qed.

Lemma scan_word_spec n : forall s,
  (String.length (ConfigFile.scan_word n s) <= String.length s)%nat /\
  ConfigFile.free_of ConfigFile.isspace (ConfigFile.scan_word n s) = true.
Proof.
  unfold ConfigFile.free_of.
  induction n as [|n IH]; intros s; simpl.
  - split; [lia|done].
  - destruct s as [|c s]; [split; [simpl; lia|done]|].
    destruct (ConfigFile.isspace c) eqn:Hc; simpl.
    + split; [lia|done].
    + destruct (IH s) as [H1 H2]. rewrite Hc, H2. split; [lia|done].
Qed.

Lemma scan_key_value_sound kw vw line k v :
  ConfigFile.scan_key_value kw vw line = Some (k, v) ->
  k <> EmptyString /\ v <> EmptyString /\
  ConfigFile.free_of ConfigFile.is_equals k = true /\
  ConfigFile.free_of ConfigFile.isspace v = true /\
  (String.length k + 1 + String.length v <= String.length line)%nat.
Proof.
  unfold ConfigFile.scan_key_value.
  destruct (scan_not_equals_spec kw line) as (Hline & _ & Hfree).
  destruct (ConfigFile.scan_not_equals kw line) as [run rest]; simpl in *.
  destruct run as [|a run]; [done|].
  destruct rest as [|c rest]; [done|].
  destruct (ConfigFile.is_equals c); [|done].
  destruct (scan_word_spec vw (ConfigFile.skip_space rest)) as [Hlen Hw].
  pose proof (skip_space_length rest) as Hsk.
  destruct (ConfigFile.scan_word vw (ConfigFile.skip_space rest)) as [|b w];
    [done|].
  intros [= <- <-]. split_and!; try done.
  rewrite Hline, string_app_length. simpl in *. lia.
Qed.

Lemma scan_key_value_complete kw vw k sp v rest :
  k <> EmptyString -> ConfigFile.free_of ConfigFile.is_equals k = true ->
  (String.length k <= kw)%nat ->
  ConfigFile.blank sp = true ->
  v <> EmptyString -> ConfigFile.free_of ConfigFile.isspace v = true ->
  (String.length v <= vw)%nat ->
  ConfigFile.tail_ok rest = true ->
  ConfigFile.scan_key_value kw vw (k +:+ "=" +:+ sp +:+ v +:+ rest) = Some (k, v).
Proof.
  intros Hk0 Hk1 Hk2 Hsp Hv0 Hv1 Hv2 Hrest.
  unfold ConfigFile.scan_key_value.
  rewrite scan_not_equals_key by done.
  destruct k as [|a k]; [done|].
  rewrite (string_app_cons _ EmptyString). simpl.
  change (EmptyString +:+ sp +:+ v +:+ rest) with (sp +:+ v +:+ rest).
  rewrite (skip_space_blank sp), (skip_space_word v), scan_word_word by done.
  by destruct v.
Qed.

Lemma sscanf_key_value_complete k sp v rest :
  ConfigFile.key_ok k = true -> ConfigFile.blank sp = true ->
  ConfigFile.word_ok v = true -> ConfigFile.tail_ok rest = true ->
  ConfigFile.sscanf_key_value (k +:+ "=" +:+ sp +:+ v +:+ rest) = Some (k, v).
Proof.
  unfold ConfigFile.key_ok, ConfigFile.word_ok.
  intros [[Hk0 Hk1]%andb_prop Hk2%Nat.leb_le]%andb_prop Hsp
         [[Hv0 Hv1]%andb_prop Hv2%Nat.leb_le]%andb_prop Hrest.
  apply negb_true_iff, String.eqb_neq in Hk0, Hv0.
  by apply scan_key_value_complete.
Qed.

Lemma skip_space_split s :
  exists sp, s = sp +:+ ConfigFile.skip_space s /\ ConfigFile.blank sp = true.
Proof.
  unfold ConfigFile.blank. induction s as [|a s IH]; [by exists EmptyString|].
  simpl. destruct (ConfigFile.isspace a) eqn:Ha; [|by exists EmptyString].
  destruct IH as (sp & Hs & Hsp). exists (String a sp).
  rewrite string_app_cons, <- Hs. simpl. by rewrite Ha, Hsp.
Qed.

Lemma scan_word_split n : forall s,
  (String.length (ConfigFile.scan_word n s) <= n)%nat /\
  exists rest,
    s = ConfigFile.scan_word n s +:+ rest /\
    (ConfigFile.tail_ok rest = true \/ String.length (ConfigFile.scan_word n s) = n).
Proof.
  induction n as [|n IH]; intros s; simpl.
  - split; [lia|]. exists s. split; [done|by right].
  - destruct s as [|c s]; [split; [simpl; lia|exists EmptyString; split; [done|by left]]|].
    destruct (ConfigFile.isspace c) eqn:Hc.
    + split; [simpl; lia|]. exists (String c s). split; [done|]. left. done.
    + destruct (IH s) as (Hlen & rest & Hs & Hrest). split; [simpl; lia|].
      exists rest. rewrite string_app_cons, <- Hs. split; [done|].
      destruct Hrest as [?|?]; [by left|right; simpl; lia].
Qed.

Lemma scan_word_cut v : forall n rest,
  ConfigFile.free_of ConfigFile.isspace v = true ->
  String.length v = n ->
  ConfigFile.scan_word n (v +:+ rest) = v.
Proof.
  unfold ConfigFile.free_of.
  induction v as [|a v IH]; intros n rest Hv Hn; simpl in Hn.
  - by subst n.
  - destruct n as [|n]; [lia|].
    simpl in Hv. apply andb_prop in Hv as [Ha Hv]. apply negb_true_iff in Ha.
    simpl. rewrite Ha, IH by (done || lia). done.
Qed.

Lemma sscanf_key_value_parts line k v :
  ConfigFile.sscanf_key_value line = Some (k, v) ->
  exists sp rest,
    line = k +:+ "=" +:+ sp +:+ v +:+ rest /\
    ConfigFile.key_ok k = true /\ ConfigFile.blank sp = true /\
    ConfigFile.word_ok v = true /\
    (ConfigFile.tail_ok rest = true \/ String.length v = 255%nat).
Proof.
  unfold ConfigFile.sscanf_key_value, ConfigFile.key_ok, ConfigFile.word_ok.
  generalize 255%nat at 1 3. intros kw. generalize 255%nat. intros vw.
  intros Hscan.
  destruct (scan_key_value_sound _ _ _ _ _ Hscan) as (Hk0 & Hv0 & Hk1 & Hv1 & _).
  revert Hscan. unfold ConfigFile.scan_key_value.
  destruct (scan_not_equals_spec kw line) as (Hline & Hklen & _).
  destruct (ConfigFile.scan_not_equals kw line) as [run rest0]; simpl in *.
  destruct run as [|a run]; [done|].
  destruct rest0 as [|c rest0]; [done|].
  destruct (ConfigFile.is_equals c) eqn:Hc; [|done].
  destruct (skip_space_split rest0) as (sp & Hrest0 & Hsp).
  destruct (scan_word_split vw (ConfigFile.skip_space rest0))
    as (Hvlen & rest & Hword & Htail).
  destruct (ConfigFile.scan_word vw (ConfigFile.skip_space rest0)) as [|b w];
    [done|].
  intros [= <- <-]. exists sp, rest.
  assert (Hceq : String c EmptyString = "=").
  { unfold ConfigFile.is_equals in Hc.
    apply Ascii.eqb_eq in Hc. by rewrite Hc. }
  split_and!.
  - rewrite Hline. f_equal.
    change (String c rest0) with (String c EmptyString +:+ rest0).
    rewrite Hceq. f_equal. by rewrite <- Hword.
  - apply andb_true_intro. split; [by apply andb_true_intro|].
    apply Nat.leb_le. simpl in Hklen. simpl. lia.
  - done.
  - apply andb_true_intro. split; [by apply andb_true_intro|].
    by apply Nat.leb_le.
  - done.
Qed.

(** X18.  What [sscanf(line, "%255[^=]=%255s", key, value) == 2] accepts, and
    what it stores: the line is a key (not empty, no '=', at most 255
    characters), an '=', any white space, and a value (not empty, no white
    space, at most 255 characters) that ends at the end of the line, at the
    next white space or after 255 characters.  Nothing is skipped before
    the key or before the '=': white space there is part of the key. *)
Theorem sscanf_key_value_spec line k v :
  ConfigFile.sscanf_key_value line = Some (k, v) <->
  exists sp rest,
    line = k +:+ "=" +:+ sp +:+ v +:+ rest /\
    ConfigFile.key_ok k = true /\ ConfigFile.blank sp = true /\
    ConfigFile.word_ok v = true /\
    (ConfigFile.tail_ok rest = true \/ String.length v = 255%nat).
Proof.
  split; [apply sscanf_key_value_parts|].
  intros (sp & rest & -> & Hk & Hsp & Hv & [Htail|Hcut]).
  - by apply sscanf_key_value_complete.
  - revert Hk Hv Hcut.
    unfold ConfigFile.sscanf_key_value, ConfigFile.key_ok, ConfigFile.word_ok.
    generalize 255%nat at 1 4. intros kw. generalize 255%nat. intros vw.
    intros [[Hk0 Hk1]%andb_prop Hk2%Nat.leb_le]%andb_prop
           [[Hv0 Hv1]%andb_prop Hv2%Nat.leb_le]%andb_prop Hcut.
    apply negb_true_iff, String.eqb_neq in Hk0, Hv0.
    unfold ConfigFile.scan_key_value.
    rewrite scan_not_equals_key by done.
    destruct k as [|a k]; [done|].
    rewrite (string_app_cons _ EmptyString). simpl.
    change (EmptyString +:+ sp +:+ v +:+ rest) with (sp +:+ v +:+ rest).
    rewrite (skip_space_blank sp), (skip_space_word v), scan_word_cut by done.
    by destruct v.
Qed.

(** ** The configuration file: what reaches the fields *)

(** X19.  What one [sscanf] of [read_config_data] stores: of a line that
    [fgets(line, 256, fp)] delivered, the key and the value it stores have
    at most 254 characters together, so each is shorter than the width 255
    of its conversion and fits its array of 256 bytes with the terminator.
    The key is never empty and holds no '=', the value is never empty and
    holds no white space.  (This is about [key] and [value] only, not about
    the fields of the configuration they are then copied to.) *)
Theorem stored_values_fit stream buffer rest k v :
  ConfigFile.fgets 256 stream = Some (buffer, rest) ->
  ConfigFile.sscanf_key_value (ConfigFile.chomp buffer) = Some (k, v) ->
  (String.length k + String.length v <= 254)%nat /\
  k <> EmptyString /\ v <> EmptyString /\
  ConfigFile.free_of ConfigFile.is_equals k = true /\
  ConfigFile.free_of ConfigFile.isspace v = true.
Proof.
  intros Hf Hscan. destruct stream as [|x stream]; [done|].
  rewrite fgets_some in Hf by done.
  destruct (fgets_from_spec 255 (String x stream)) as (_ & Hlen & _).
  destruct (ConfigFile.fgets_from 255 (String x stream)) as [l r].
  injection Hf as -> ->. simpl in Hlen.
  pose proof (before_length ConfigFile.is_line_end buffer) as Hchomp.
  fold (ConfigFile.chomp buffer) in Hchomp.
  apply scan_key_value_sound in Hscan as (Hk0 & Hv0 & Hk1 & Hv1 & Hfit).
  split_and!; try done. lia.
Qed.

Lemma stored_values_fit_witness :
  (String.length "update_rate" + String.length "5" <= 254)%nat /\
  "update_rate" <> EmptyString /\ "5" <> EmptyString /\
  ConfigFile.free_of ConfigFile.is_equals "update_rate" = true /\
  ConfigFile.free_of ConfigFile.isspace "5" = true.
Proof.
  apply (stored_values_fit
           ("update_rate= 5 seconds" +:+ ConfigFile.newline +:+ "min_brightness=10")
           ("update_rate= 5 seconds" +:+ ConfigFile.newline)
           "min_brightness=10" "update_rate" "5").
  - vm_compute. reflexivity.
  - vm_compute. reflexivity.
Defined.

Lemma store_unknown atoi scan_double k v c :
  k ∉ ConfigFile.known_keys -> ConfigFile.store atoi scan_double k v c = c.
Proof.
  unfold ConfigFile.known_keys, ConfigFile.store. intros Hk.
  repeat match goal with
         | |- context [String.eqb k ?s] =>
             destruct (String.eqb_spec k s) as [Heq|_];
             [exfalso; apply Hk; rewrite Heq; set_solver|]
         end.
  done.
Qed.

Lemma known_key_shape k :
  k ∈ ConfigFile.known_keys ->
  ConfigFile.key_ok k = true /\ ConfigFile.key_ok (k +:+ " ") = true /\
  k +:+ " " ∉ ConfigFile.known_keys.
Proof.
  unfold ConfigFile.known_keys. intros Hk.
  repeat (apply elem_of_cons in Hk as [->|Hk];
          [split_and!; [vm_compute; reflexivity..|];
           intros H; cbv in H;
           repeat (apply elem_of_cons in H as [H|H]; [discriminate H|]);
           by apply elem_of_nil in H|]).
  by apply elem_of_nil in Hk.
Qed.

(** X20.  Which lines of the configuration file have an effect.  Only a
    line whose key is, character for character, one of the seven names the
    [strcmp] chain knows changes the configuration.  With white space
    between the name and the '=' the line is ignored, whatever follows,
    since the white space belongs to the key; white space after the '=' is
    skipped and the value ends at the next white space, so that the line
    does what [name=value] does. *)
Theorem config_line_effect atoi scan_double c :
  (forall line,
      (forall k v, ConfigFile.sscanf_key_value line = Some (k, v) ->
                   k ∉ ConfigFile.known_keys) ->
      ConfigFile.config_line atoi scan_double line c = c) /\
  (forall k text,
      k ∈ ConfigFile.known_keys ->
      ConfigFile.config_line atoi scan_double (k +:+ " =" +:+ text) c = c) /\
  (forall k sp v rest,
      k ∈ ConfigFile.known_keys ->
      ConfigFile.blank sp = true -> ConfigFile.word_ok v = true ->
      ConfigFile.tail_ok rest = true ->
      ConfigFile.config_line atoi scan_double (k +:+ "=" +:+ sp +:+ v +:+ rest) c
      = ConfigFile.config_line atoi scan_double (k +:+ "=" +:+ v) c /\
      ConfigFile.config_line atoi scan_double (k +:+ "=" +:+ v) c
      = ConfigFile.store atoi scan_double k v c).
Proof.
  assert (Hunknown : forall line,
             (forall k v, ConfigFile.sscanf_key_value line = Some (k, v) ->
                          k ∉ ConfigFile.known_keys) ->
             ConfigFile.config_line atoi scan_double line c = c).
  { intros line Hno. unfold ConfigFile.config_line.
    destruct (ConfigFile.sscanf_key_value line) as [[k v]|] eqn:Hscan; [|done].
    apply store_unknown. by eapply Hno. }
  split_and!.
  - exact Hunknown.
  - intros k text Hk. apply Hunknown. intros k' v' Hscan.
    destruct (known_key_shape k Hk) as (_ & Hkey & Hnot).
    apply sscanf_key_value_parts in Hscan as (sp & rest & Hline & Hk' & _).
    assert (k' = k +:+ " "); [|by subst].
    pose proof (f_equal (fun s => (ConfigFile.scan_not_equals 255 s).1) Hline) as Heq.
    cbv beta in Heq.
    change (k +:+ " =" +:+ text) with (k +:+ " " +:+ "=" +:+ text) in Heq.
    rewrite <- (string_app_assoc k " ") in Heq.
    unfold ConfigFile.key_ok in Hkey, Hk'.
    apply andb_prop in Hkey as [[_ Hf]%andb_prop Hl%Nat.leb_le].
    apply andb_prop in Hk' as [[_ Hf']%andb_prop Hl'%Nat.leb_le].
    rewrite !scan_not_equals_key in Heq by done. done.
  - intros k sp v rest Hk Hsp Hv Htail.
    destruct (known_key_shape k Hk) as (Hkey & _).
    unfold ConfigFile.config_line.
    rewrite sscanf_key_value_complete by done.
    pose proof (sscanf_key_value_complete k EmptyString v EmptyString Hkey
                  eq_refl Hv eq_refl) as H0.
    change (EmptyString +:+ v +:+ EmptyString) with (v +:+ EmptyString) in H0.
    rewrite string_app_nil_r in H0. by rewrite H0.
Qed.

(** ** The configuration file: line by line *)

Lemma chomp_line l :
  ConfigFile.free_of ConfigFile.is_line_end l = true ->
  ConfigFile.chomp (l +:+ ConfigFile.newline) = l.
Proof. intros Hl. by apply before_stop. Qed.

Lemma line_ok_parts l :
  ConfigFile.line_ok l = true ->
  ConfigFile.free_of ConfigFile.is_line_end l = true /\
  (String.length l <= 254)%nat.
Proof.
  unfold ConfigFile.line_ok. intros [H1 H2%Nat.leb_le]%andb_prop. done.
Qed.

Lemma parse_config_line atoi scan_double l rest c :
  ConfigFile.line_ok l = true ->
  ConfigFile.parse_config atoi scan_double (l +:+ ConfigFile.newline +:+ rest) c
  = ConfigFile.parse_config atoi scan_double rest
      (ConfigFile.config_line atoi scan_double l c).
Proof.
  intros [Hfree Hlen]%line_ok_parts.
  rewrite <- string_app_assoc, parse_config_step, chomp_line; [done..| |].
  - destruct l; done.
  - rewrite string_app_assoc. apply fgets_from_line; [|lia].
    by apply line_end_newline.
Qed.

Lemma parse_config_lines atoi scan_double lines : forall c,
  Forall (fun l => ConfigFile.line_ok l = true) lines ->
  ConfigFile.parse_config atoi scan_double (ConfigFile.text_of lines) c
  = foldl (fun c l => ConfigFile.config_line atoi scan_double l c) c lines.
Proof.
  induction lines as [|l lines IH]; intros c Hall; [done|].
  apply Forall_cons in Hall as [Hl Hall].
  simpl. rewrite parse_config_line by done. by apply IH.
Qed.

(** X21.  For a file whose lines have at most 254 characters and no NUL,
    the [fgets] loop is a fold over the lines in their order: each line is
    cut at its newline and handed to the [sscanf] and [strcmp] chain once.
    So a later line overrides an earlier one: the file with one more line
    gives what that line makes of the result for the file without it. *)
Theorem parse_config_is_fold atoi scan_double lines l c :
  Forall (fun l => ConfigFile.line_ok l = true) lines ->
  ConfigFile.line_ok l = true ->
  ConfigFile.parse_config atoi scan_double (ConfigFile.text_of lines) c
  = foldl (fun c l => ConfigFile.config_line atoi scan_double l c) c lines /\
  ConfigFile.parse_config atoi scan_double (ConfigFile.text_of (lines ++ [l])) c
  = ConfigFile.config_line atoi scan_double l
      (ConfigFile.parse_config atoi scan_double (ConfigFile.text_of lines) c).
Proof.
  intros Hall Hl. split; [by apply parse_config_lines|].
  rewrite !parse_config_lines; [|done|].
  - by rewrite foldl_app.
  - apply Forall_app. split; [done|]. by apply Forall_singleton.
Qed.

Lemma parse_config_is_fold_witness :
  let atoi := fun s : string => Z.of_nat (String.length s) in
  let scan_double := fun _ : string => @None spec_float in
  let lines := ["# backlight"; "update_rate=1"; "screen_backlight_path=/sys/x"] in
  ConfigFile.parse_config atoi scan_double (ConfigFile.text_of lines) Sample.config
  = foldl (fun c l => ConfigFile.config_line atoi scan_double l c)
      Sample.config lines /\
  ConfigFile.parse_config atoi scan_double
    (ConfigFile.text_of (lines ++ ["update_rate=22"])) Sample.config
  = ConfigFile.config_line atoi scan_double "update_rate=22"
      (ConfigFile.parse_config atoi scan_double (ConfigFile.text_of lines)
         Sample.config).
Proof.
  apply (parse_config_is_fold
           (fun s : string => Z.of_nat (String.length s))
           (fun _ : string => @None spec_float)
           ["# backlight"; "update_rate=1"; "screen_backlight_path=/sys/x"]
           "update_rate=22" Sample.config).
  - repeat constructor.
  - reflexivity.
Defined.

(** X22.  A line of more than 255 characters is not one line to the parser:
    [fgets] delivers its first 255 characters, and the rest of it comes back
    from the next [fgets] as if it were a line of its own.  So text after
    column 255 of a long line, a long comment for instance, is parsed as a
    [key=value] line in its own right. *)
Theorem long_line_is_split atoi scan_double a b lines c :
  ConfigFile.free_of ConfigFile.is_line_end a = true ->
  String.length a = 255%nat ->
  ConfigFile.line_ok b = true ->
  Forall (fun l => ConfigFile.line_ok l = true) lines ->
  ConfigFile.parse_config atoi scan_double
    (a +:+ b +:+ ConfigFile.newline +:+ ConfigFile.text_of lines) c
  = foldl (fun c l => ConfigFile.config_line atoi scan_double l c)
      (ConfigFile.config_line atoi scan_double b
         (ConfigFile.config_line atoi scan_double a c)) lines.
Proof.
  intros Ha Hlen Hb Hall.
  rewrite parse_config_step.
  - unfold ConfigFile.chomp. rewrite before_all by done.
    rewrite parse_config_line by done. by apply parse_config_lines.
  - destruct a; done.
  - apply fgets_from_full; [by apply line_end_newline|done].
Qed.

Lemma long_line_is_split_witness :
  let atoi := fun s : string => Z.of_nat (String.length s) in
  let scan_double := fun _ : string => @None spec_float in
  ConfigFile.parse_config atoi scan_double
    (ConfigFile.comment 254 +:+ "update_rate=4444" +:+ ConfigFile.newline
     +:+ ConfigFile.text_of []) Sample.config
  = foldl (fun c l => ConfigFile.config_line atoi scan_double l c)
      (ConfigFile.config_line atoi scan_double "update_rate=4444"
         (ConfigFile.config_line atoi scan_double (ConfigFile.comment 254)
            Sample.config)) [].
Proof.
  apply (long_line_is_split
           (fun s : string => Z.of_nat (String.length s))
           (fun _ : string => @None spec_float)
           (ConfigFile.comment 254) "update_rate=4444" [] Sample.config).
  - vm_compute. reflexivity.
  - vm_compute. reflexivity.
  - reflexivity.
  - constructor.
Defined.

(** ** The search for the sensor *)

Lemma string_take_all s : forall n,
  (String.length s <= n)%nat -> string_take n s = s.
Proof.
  induction s as [|a s IH]; intros n Hn.
  - by destruct n.
  - simpl in Hn. destruct n as [|n]; [lia|]. simpl. rewrite IH by lia. done.
Qed.

Lemma snprintf_path_fits text :
  (String.length text < MAX_PATH_LENGTH)%nat -> snprintf_path text = text.
Proof.
  unfold snprintf_path, MAX_PATH_LENGTH. intros H. apply string_take_all. lia.
Qed.

Lemma path_fits_parts dir file d :
  path_fits dir file d = true ->
  snprintf_path (dir +:+ "/" +:+ d +:+ "/" +:+ file)
  = path_join (path_join dir d) file /\
  snprintf_path (dir +:+ "/" +:+ d) = path_join dir d.
Proof.
  unfold path_fits. intros H%Nat.ltb_lt.
  rewrite !snprintf_path_fits.
  - unfold path_join. by rewrite !string_app_assoc.
  - revert H. rewrite !string_app_length. simpl. lia.
  - done.
Qed.

Lemma scan_entries_first_match dir file entries w :
  Forall (fun d => path_fits dir file d = true) entries ->
  exists r,
    scan_entries dir file entries w = Ret r w /\
    match r with
    | Some p =>
        exists pre d post,
          entries = pre ++ d :: post /\
          Forall (fun e => sensor_candidate w dir file e = false) pre /\
          sensor_candidate w dir file d = true /\
          p = path_join dir d
    | None => Forall (fun e => sensor_candidate w dir file e = false) entries
    end.
Proof.
  induction entries as [|d entries IH]; intros Hfit.
  - exists None. by split.
  - apply Forall_cons in Hfit as [Hd Hfit].
    destruct (IH Hfit) as (r & Hrun & Hr).
    destruct (path_fits_parts dir file d Hd) as [Hprobe Hres].
    simpl scan_entries. unfold sensor_candidate at 1.
    destruct (String.eqb d "." || String.eqb d "..") eqn:Hdot.
    + exists r. split; [done|].
      assert (Hc : sensor_candidate w dir file d = false).
      { unfold sensor_candidate. apply orb_prop in Hdot as [->| ->]; [done|].
        by rewrite andb_false_r. }
      destruct r as [p|].
      * destruct Hr as (pre & d' & post & -> & Hpre & Hd' & ->).
        exists (d :: pre), d', post. split_and!; try done. by constructor.
      * by constructor.
    + unfold bind, fopen_r. rewrite Hprobe, Hres.
      assert (Hnd : negb (String.eqb d ".") && negb (String.eqb d "..") = true).
      { apply orb_false_elim in Hdot as [-> ->]. done. }
      destruct (fs w !! path_join (path_join dir d) file) as [[scan|]|] eqn:Hf.
      * exists (Some (path_join dir d)). split; [done|].
        exists [], d, entries. split_and!; try done.
        unfold sensor_candidate. by rewrite Hnd, Hf.
      * exists r. split; [done|].
        assert (Hc : sensor_candidate w dir file d = false).
        { unfold sensor_candidate. by rewrite Hf, andb_false_r. }
        destruct r as [p|].
        -- destruct Hr as (pre & d' & post & -> & Hpre & Hd' & ->).
           exists (d :: pre), d', post. split_and!; try done. by constructor.
        -- by constructor.
      * exists r. split; [done|].
        assert (Hc : sensor_candidate w dir file d = false).
        { unfold sensor_candidate. by rewrite Hf, andb_false_r. }
        destruct r as [p|].
        -- destruct Hr as (pre & d' & post & -> & Hpre & Hd' & ->).
           exists (d :: pre), d', post. split_and!; try done. by constructor.
        -- by constructor.
Qed.

(** X23.  [get_sensor_path] always returns, and it leaves the world alone
    but for the complaint when the directory cannot be opened.  When the
    paths it builds fit the buffer of 512 bytes: the result is the directory
    of the first entry, in the order [readdir] gives, that is not [.] or
    [..] and under which the file can be opened; [read_file] on the result
    and the file name then succeeds; and the result is NULL only when no
    entry qualifies. *)
Theorem get_sensor_path_first_match dir file entries w :
  Forall (fun d => path_fits dir file d = true) entries ->
  get_sensor_path None dir file w
  = Ret None (with_trace (EvPerror "Error opening iio devices directory" :: trace w) w) /\
  exists r,
    get_sensor_path (Some entries) dir file w = Ret r w /\
    match r with
    | Some p =>
        (exists pre d post,
            entries = pre ++ d :: post /\
            Forall (fun e => sensor_candidate w dir file e = false) pre /\
            sensor_candidate w dir file d = true /\
            p = path_join dir d) /\
        exists n, read_file p file w = Ret n w
    | None => Forall (fun e => sensor_candidate w dir file e = false) entries
    end.
Proof.
  intros Hfit. split; [done|].
  destruct (scan_entries_first_match dir file entries w Hfit) as (r & Hrun & Hr).
  exists r. split; [done|]. destruct r as [p|]; [|done].
  split; [done|].
  destruct Hr as (pre & d & post & _ & _ & Hd & ->).
  apply read_file_regular. unfold sensor_candidate in Hd.
  apply andb_prop in Hd as [_ Hd].
  destruct (fs w !! path_join (path_join dir d) file) as [[scan|]|] eqn:Hf; [|done..].
  by exists scan.
Qed.

Lemma get_sensor_path_first_match_witness :
  let dir := "/sys/bus/iio/devices" in
  let file := "in_illuminance_raw" in
  let entries := ["."; ".."; "trigger0"; "iio:device0"; "iio:device1"] in
  let w := Sample.machine 100 90 3 in
  get_sensor_path None dir file w
  = Ret None (with_trace (EvPerror "Error opening iio devices directory" :: trace w) w) /\
  exists r,
    get_sensor_path (Some entries) dir file w = Ret r w /\
    match r with
    | Some p =>
        (exists pre d post,
            entries = pre ++ d :: post /\
            Forall (fun e => sensor_candidate w dir file e = false) pre /\
            sensor_candidate w dir file d = true /\
            p = path_join dir d) /\
        exists n, read_file p file w = Ret n w
    | None => Forall (fun e => sensor_candidate w dir file e = false) entries
    end.
Proof.
  apply (get_sensor_path_first_match "/sys/bus/iio/devices" "in_illuminance_raw"
           ["."; ".."; "trigger0"; "iio:device0"; "iio:device1"]
           (Sample.machine 100 90 3)).
  repeat constructor.
Defined.

(** The search on the sample machine finds the device the sample
    configuration names. *)
Example get_sensor_path_sample :
  match get_sensor_path (Some ["."; ".."; "trigger0"; "iio:device0"; "iio:device1"])
          "/sys/bus/iio/devices" "in_illuminance_raw" (Sample.machine 100 90 3)
  with
  | Ret r _ => r
  | _ => None
  end = Some (sensor_file_path Sample.config).
Proof. vm_compute. reflexivity. Qed.

(** ** The two variants of the program *)

Lemma parse_options_common opts : forall v w,
  forallb common_option opts = true ->
  V1.parse_options opts v w = parse_options opts v w /\
  (forall w1, parse_options opts v w <> Block w1) /\
  forall v1 w1, parse_options opts v w = Ret v1 w1 ->
    w1 = w /\ v_ambient_mode v1 = v_ambient_mode v /\
    v_daemon_mode v1 = v_daemon_mode v /\ v_pid_file v1 = v_pid_file v /\
    v_config v1 = v_config v /\ v_fd v1 = v_fd v.
Proof.
  induction opts as [|o opts IH]; intros v w Hall.
  - split; [done|]. split; [done|]. simpl. unfold ret. by intros v1 w1 [= <- <-].
  - simpl in Hall. apply andb_prop in Hall as [Ho Hall].
    destruct o; try done; simpl.
    + destruct (IH (set_print_status true v) w Hall) as (-> & Hnb & Hkeep).
      split; [done|]. split; [done|]. intros v1 w1 H. by apply Hkeep in H.
    + destruct (IH (set_brightness_adjustment n v) w Hall) as (-> & Hnb & Hkeep).
      split; [done|]. split; [done|]. intros v1 w1 H. by apply Hkeep in H.
Qed.

(** X24.  On command lines made of [-h], [-p], [-s] and unknown options,
    and with no PID marker, the daemon variant of the program behaves as
    the older variant does: the two [main] functions end with the same exit
    code in the same world, that is after the same output and the same
    store into the brightness file. *)
Theorem variants_agree_without_ambient n n' opts c w :
  config_src w = Some c ->
  pid_file_open w = false ->
  forallb common_option opts = true ->
  V1.main n opts w = main n' opts w /\
  exists code w', main n' opts w = Exit code w'.
Proof.
  intros Hc Hpid Hall.
  destruct (parse_options_common opts (mkLocals false 0 false false c 0 false 0) w Hall)
    as (Hsame & Hnb & Hkeep).
  unfold V1.main, main, main_startup, read_config_data, fopen_r, adjust_brightness.
  unfold bind, ret, exit. rewrite Hc.
  fold (pid_file_open w). rewrite Hpid, Hsame.
  destruct (parse_options opts _ w) as [v1 w1|code w1|w1] eqn:Hparse;
    [|split; [done|by eexists _, _]|by destruct (Hnb w1)].
  destruct (Hkeep v1 w1 eq_refl) as (-> & Ha & Hd & Hp & Hcfg & Hfd).
  simpl in Ha, Hd, Hp, Hcfg, Hfd.
  destruct (v_print_status v1) eqn:Hps.
  { unfold print_info. unfold_prims. split; [done|by eexists _, _]. }
  rewrite Hd. simpl.
  destruct (read_file_cases (screen_backlight_path (v_config v1)) "max_brightness" w)
    as [[mx ->]|(w2 & -> & _)]; [|split; [done|by eexists _, _]].
  simpl. rewrite Ha, Hd, Hp.
  destruct (v_brightness_adjustment v1 =? 0) eqn:Hz.
  { simpl. rewrite Hd. split; [done|by eexists _, _]. }
  destruct (read_file_cases (screen_backlight_path (v_config v1)) "actual_brightness" w)
    as [[cur ->]|(w2 & -> & _)]; [|split; [done|by eexists _, _]].
  destruct (decide (path_join (screen_backlight_path (v_config v1)) "brightness"
                      ∈ writable w)) as [Hw|Hw].
  - destruct (set_backlight_brightness_run (screen_backlight_path (v_config v1))
                (int_add cur (percent_of mx (v_brightness_adjustment v1))) mx w Hw)
      as (w3 & -> & _). simpl. rewrite Hd. split; [done|by eexists _, _].
  - rewrite set_backlight_brightness_fail by done. split; [done|by eexists _, _].
Qed.

Lemma variants_agree_without_ambient_witness :
  let w := Sample.machine 100 90 3 in
  V1.main 3 [OptSet 20; OptSet (-30)] w = main 7 [OptSet 20; OptSet (-30)] w /\
  exists code w', main 7 [OptSet 20; OptSet (-30)] w = Exit code w'.
Proof.
  apply (variants_agree_without_ambient 3 7 [OptSet 20; OptSet (-30)]
           Sample.config (Sample.machine 100 90 3)).
  - reflexivity.
  - vm_compute. reflexivity.
  - reflexivity.
Defined.

Lemma clamp_brightness_mono a b max :
  1 <= max -> a <= b -> clamp_brightness a max <= clamp_brightness b max.
Proof.
  intros Hmax Hab. unfold clamp_brightness.
  destruct (Z.ltb_spec a 1), (Z.ltb_spec b 1); try lia;
    destruct (Z.gtb_spec a max), (Z.gtb_spec b max); lia.
Qed.

(** X25.  What [min_brightness] changed in the ambient step.  For the same
    sensor reading the older variant stores [clamp((int)(reading *
    factor))] and sleeps; the daemon variant stores the clamped maximum of
    that value and the minimum.  The new value is never darker than the old
    one, and it is the same whenever the old unclamped value is at least the
    minimum.  (For a maximum of at least 1.) *)
Theorem minimum_only_raises v w lux :
  1 <= v_max_screen_brightness v ->
  v_ambient_mode v = true ->
  fs w !! path_join (sensor_file_path (v_config v)) (sensor_file (v_config v))
    = Some (RegFile (Some lux)) ->
  path_join (screen_backlight_path (v_config v)) "brightness" ∈ writable w ->
  let store := EvWrite (path_join (screen_backlight_path (v_config v)) "brightness") in
  let old := clamp_brightness (V1.ambient_value (v_config v) lux)
               (v_max_screen_brightness v) in
  let new := clamp_brightness (ambient_value (v_config v) lux)
               (v_max_screen_brightness v) in
  exists w1 w2,
    V1.ambient_pass v w = Ret tt w1 /\
    events_since w w1 = [EvSleep (update_rate (v_config v)); store old] /\
    ambient_recompute v w = Ret tt w2 /\
    events_since w w2 = [store new] /\
    old <= new /\
    (min_brightness (v_config v) <= V1.ambient_value (v_config v) lux -> new = old).
Proof.
  intros Hmax Hamb Hlux Hbw store old new.
  destruct (set_backlight_brightness_run (screen_backlight_path (v_config v))
              (V1.ambient_value (v_config v) lux) (v_max_screen_brightness v) w Hbw)
    as (w1 & Hrun1 & Htr1 & _).
  destruct (set_backlight_brightness_run (screen_backlight_path (v_config v))
              (ambient_value (v_config v) lux) (v_max_screen_brightness v) w Hbw)
    as (w2 & Hrun2 & Htr2 & _).
  eexists _, w2. split_and!.
  - unfold V1.ambient_pass. unfold bind at 1.
    rewrite (read_file_value _ _ w lux) by done.
    unfold bind. rewrite Hrun1. unfold sleep, emit. reflexivity.
  - apply (events_since_app _ _ [_; _]). simpl. by rewrite Htr1.
  - unfold ambient_recompute. rewrite Hamb. unfold bind.
    by rewrite (read_file_value _ _ w lux).
  - by apply (events_since_app _ _ [_]).
  - apply clamp_brightness_mono; [done|].
    unfold ambient_value, V1.ambient_value. cbv zeta.
    destruct (Z.gtb_spec (int_of_double
                            (dmul (double_of_int lux) (brightness_factor (v_config v))))
                (min_brightness (v_config v))); lia.
  - intros Hmin. unfold new, old. f_equal.
    unfold ambient_value, V1.ambient_value in *. cbv zeta.
    destruct (Z.gtb_spec (int_of_double
                            (dmul (double_of_int lux) (brightness_factor (v_config v))))
                (min_brightness (v_config v))); lia.
Qed.

Lemma minimum_only_raises_witness :
  let v := Sample.daemon_locals 100 0 10 true in
  let w := Sample.machine 100 90 3 in
  let store := EvWrite (path_join (screen_backlight_path (v_config v)) "brightness") in
  let old := clamp_brightness (V1.ambient_value (v_config v) 3)
               (v_max_screen_brightness v) in
  let new := clamp_brightness (ambient_value (v_config v) 3)
               (v_max_screen_brightness v) in
  exists w1 w2,
    V1.ambient_pass v w = Ret tt w1 /\
    events_since w w1 = [EvSleep (update_rate (v_config v)); store old] /\
    ambient_recompute v w = Ret tt w2 /\
    events_since w w2 = [store new] /\
    old <= new /\
    (min_brightness (v_config v) <= V1.ambient_value (v_config v) 3 -> new = old).
Proof.
  apply (minimum_only_raises (Sample.daemon_locals 100 0 10 true)
           (Sample.machine 100 90 3) 3).
  - simpl. lia.
  - reflexivity.
  - vm_compute. reflexivity.
  - vm_compute. set_solver.
Defined.

Lemma v1_parse_options_requests opts : forall v w,
  forallb request_option opts = true ->
  V1.parse_options opts v w
  = Ret (mkLocals (v_ambient_mode v || has_ambient opts)
           (last_set opts (v_brightness_adjustment v))
           (v_daemon_mode v) (v_print_status v) (v_config v) (v_fd v)
           (v_pid_file v) (v_max_screen_brightness v)) w.
Proof.
  induction opts as [|o opts IH]; intros v w Hall.
  - simpl. rewrite orb_false_r. by destruct v.
  - simpl in Hall. apply andb_prop in Hall as [Ho Hall].
    destruct o; try done; simpl; rewrite IH by done; simpl.
    + by rewrite orb_true_r.
    + done.
Qed.

Lemma v1_ambient_pass_returns v w :
  sysfs_ready v w ->
  exists w', V1.ambient_pass v w = Ret tt w' /\ sysfs_ready v w' /\ grew_by w w' 1 1.
Proof.
  intros Hready. pose proof Hready as (Hw & _ & Hs).
  unfold V1.ambient_pass. unfold bind at 1.
  destruct (read_file_regular _ _ _ Hs) as [reading ->].
  destruct (set_backlight_brightness_run (screen_backlight_path (v_config v))
              (V1.ambient_value (v_config v) reading) (v_max_screen_brightness v) w Hw)
    as (w1 & Hrun & Htr & Hwr & _ & Hreg & _).
  unfold bind. rewrite Hrun. unfold sleep, emit.
  eexists. split; [reflexivity|]. split.
  - by eapply sysfs_ready_step.
  - eexists [EvSleep _; EvWrite _ _].
    split_and!; [simpl; by rewrite Htr|done|done].
Qed.

Lemma v1_run_loop_returns n : forall v w,
  sysfs_ready v w ->
  exists w', V1.run_loop n v w = Ret v w' /\ grew_by w w' n n.
Proof.
  induction n as [|n IH]; intros v w Hready; simpl.
  - exists w. split; [done|]. by exists [].
  - destruct (v1_ambient_pass_returns v w Hready)
      as (w1 & Hpass & Hready1 & e1 & Htr1 & Hs1 & Hk1).
    destruct (IH v w1 Hready1) as (w2 & Hrun & e2 & Htr2 & Hs2 & Hk2).
    unfold bind. rewrite Hpass. exists w2. split; [done|].
    exists (e2 ++ e1). rewrite Htr2, Htr1, app_assoc, !count_events_app.
    split; [done|]. lia.
Qed.

(** X26.  [-a] on its own, with no PID marker: the older variant enters its
    ambient loop and stays in it, exactly one store and one sleep per pass
    for as long as the sysfs files can be opened; the daemon variant given
    the same command line stores nothing and returns 0 at once, its ambient
    mode being reachable only through [--daemon]. *)
Theorem ambient_option_in_both_variants n opts c w mx :
  config_src w = Some c ->
  pid_file_open w = false ->
  forallb request_option opts = true ->
  has_ambient opts = true -> last_set opts 0 = 0 ->
  fs w !! path_join (screen_backlight_path c) "max_brightness"
    = Some (RegFile (Some mx)) ->
  path_join (screen_backlight_path c) "brightness" ∈ writable w ->
  regular_at w (path_join (screen_backlight_path c) "actual_brightness") ->
  regular_at w (path_join (sensor_file_path c) (sensor_file c)) ->
  main n opts w = Exit 0 w /\
  exists v' w',
    V1.main n opts w = Ret v' w' /\
    count_events is_sleep (events_since w w') = n /\
    count_events is_write (events_since w w') = n.
Proof.
  intros Hc Hpid Hall Hamb Hset Hmax Hbw Hact Hsens.
  destruct (request_option_flag opts Hall) as [Hflags Hnp].
  split.
  - rewrite (main_only_flags _ _ c) by done.
    unfold after_options. simpl. rewrite Hnp, Hpid, Hset. simpl.
    unfold bind, ret. simpl.
    by rewrite (read_file_value _ _ _ mx).
  - unfold V1.main, read_config_data. unfold bind at 1. rewrite Hc.
    unfold bind at 1. rewrite v1_parse_options_requests by done. simpl.
    unfold bind at 1. rewrite (read_file_value _ _ _ mx) by done.
    simpl. rewrite Hset, Hamb. unfold bind at 1. unfold ret at 1. simpl.
    match goal with |- context [V1.run_loop n ?v0 w] => set (v := v0) end.
    destruct (v1_run_loop_returns n v w) as (w' & Hrun & evs & Htr & Hs & Hk).
    { by split_and!. }
    exists v, w'. split; [done|].
    by rewrite (events_since_app _ _ evs).
Qed.

Lemma ambient_option_in_both_variants_witness :
  let w := Sample.machine 100 90 3 in
  main 2 [OptAmbient] w = Exit 0 w /\
  exists v' w',
    V1.main 2 [OptAmbient] w = Ret v' w' /\
    count_events is_sleep (events_since w w') = 2%nat /\
    count_events is_write (events_since w w') = 2%nat.
Proof.
  apply (ambient_option_in_both_variants 2 [OptAmbient] Sample.config
           (Sample.machine 100 90 3) 100).
  - reflexivity.
  - vm_compute. reflexivity.
  - reflexivity.
  - reflexivity.
  - reflexivity.
  - vm_compute. reflexivity.
  - vm_compute. set_solver.
  - exists (Some 90). vm_compute. reflexivity.
  - exists (Some 3). vm_compute. reflexivity.
Defined.

(** ** Signals and a new start *)



(** ** [--kill] *)


Lemma main_kill n pre rest c w :
  config_src w = Some c ->
  forallb flag_option pre = true ->
  main n (pre ++ OptKill :: rest) w
  = match stop_daemon w with
    | Ret _ w' => Exit EXIT_SUCCESS w'
    | Exit code w' => Exit code w'
    | Block w' => Block w'
    end.
Proof.
  intros Hc Hpre. rewrite (main_flags _ _ _ c) by done. simpl parse_options.
  unfold bind at 1. unfold bind at 1. unfold bind at 1.
  by destruct (stop_daemon w).
Qed.



(** X29.  [stop_daemon] does not look at the sign of the number it reads
    from the marker.  With 0 in the marker, or minus the process group of
    the caller, [kill] signals the caller itself: under the default
    disposition of SIGTERM the [--kill] invocation is ended by its own
    signal, inside [stop_daemon], before it reports or removes anything, so
    the marker and the pipe are still there afterwards. *)
Theorem kill_option_signals_itself n pre rest c w pid :
  config_src w = Some c ->
  forallb flag_option pre = true ->
  fs w !! PID_FILE_PATH = Some (RegFile (Some pid)) ->
  pid = 0 \/ (pid < -1 /\ - pid = self_pgid w) ->
  disposition w SIGTERM = SigDefault ->
  exists w',
    main n (pre ++ OptKill :: rest) w = Exit (128 + signum SIGTERM) w' /\
    events_since w w' = [EvKill pid SIGTERM] /\
    fs w' = fs w.
Proof.
  intros Hc Hpre Hpid Hgroup Hdisp.
  assert (Hself : kill_reaches_caller pid w = true).
  { unfold kill_reaches_caller. destruct Hgroup as [->|[Hneg Hg]]; [done|].
    apply orb_true_intro. right.
    apply andb_true_intro. split; [by apply Z.ltb_lt|by apply Z.eqb_eq]. }
  rewrite (main_kill _ _ _ c) by done.
  rewrite (stop_daemon_signals_caller w pid) by done.
  eexists. split; [reflexivity|]. split; [|done].
  by apply (events_since_app _ _ [_]).
Qed.

Lemma kill_option_signals_itself_witness :
  let w := Sample.with_daemon 77 (Some 0) (Sample.machine 100 90 3) in
  exists w',
    main 4 ([OptSet 10] ++ OptKill :: [OptHelp]) w
    = Exit (128 + signum SIGTERM) w' /\
    events_since w w' = [EvKill 0 SIGTERM] /\
    fs w' = fs w.
Proof.
  apply (kill_option_signals_itself 4 [OptSet 10] [OptHelp] Sample.config
           (Sample.with_daemon 77 (Some 0) (Sample.machine 100 90 3)) 0).
  - reflexivity.
  - reflexivity.
  - vm_compute. reflexivity.
  - by left.
  - reflexivity.
Defined.
